(** * Declarative pipelines: the command engine and its output parsers

    A shallow embedding of [src/core/base_command.py] and of the command
    classes under [src/commands/], with the properties of the engine that
    the specification states about them.

    Modelling conventions.
    - Text is a [string]: a sequence of characters with code points below
      256.  On that range Python's [\d] is [0-9], [\s] and [str.strip] use
      the white-space set of [str.isspace], and [.] is every character but
      the line feed.
    - Python integers are unbounded: they are [Z].  Converting between an
      integer and its decimal text is limited as in CPython 3.11 with its
      default setting: [int] of more than 4300 digits and [str] of an
      integer of more than 4300 digits raise ValueError.
    - Python floats are kept abstract (class [PyFloat]): the development
      holds for every implementation of parsing, comparing and printing
      them.  So is the [json] module (class [PyJson]).
    - A parameter can hold any JSON value: a command line that the code
      takes for a text can be a list or a mapping, and an f-string puts
      [str] of whatever value it is given.
    - A command runs in an environment [Env] (file system, process table,
      calendar) and threads the log of the processes it has spawned; an
      exception is a value of the error monad [M].  Only exceptions that
      derive from [Exception] are modelled. *)

From Stdlib Require Import ZArith Ascii String List Bool Lia DecimalString.
From stdpp Require Import base option list strings gmap.

Open Scope Z_scope.

(** ** Python strings *)

Module Str.

Definition chr (n : nat) : ascii := ascii_of_nat n.

Fixpoint startswith (prefix s : string) : bool :=
  match prefix, s with
  | EmptyString, _ => true
  | String a p, String b r => if Ascii.eqb a b then startswith p r else false
  | String _ _, EmptyString => false
  end.

(** [s[n:]] *)
Fixpoint drop (n : nat) (s : string) : string :=
  match n, s with
  | O, _ => s
  | S n', String _ r => drop n' r
  | S _, EmptyString => EmptyString
  end.

(** [s[:n]] *)
Fixpoint take (n : nat) (s : string) : string :=
  match n, s with
  | O, _ => EmptyString
  | S n', String a r => String a (take n' r)
  | S _, EmptyString => EmptyString
  end.

(** [sub in s] *)
Fixpoint contains (sub s : string) : bool :=
  startswith sub s ||
  match s with
  | EmptyString => false
  | String _ r => contains sub r
  end.

(** [s.count(sub)] for a non-empty [sub]: occurrences are counted from
    the left and do not overlap.  [skip] is the number of characters of
    the occurrence found last that are still to be stepped over. *)
Fixpoint count_from (sub : string) (skip : nat) (s : string) : Z :=
  match s with
  | EmptyString => 0
  | String _ r =>
      match skip with
      | S k => count_from sub k r
      | O => if startswith sub s
             then 1 + count_from sub (String.length sub - 1) r
             else count_from sub 0 r
      end
  end.

Definition count (sub s : string) : Z := count_from sub 0 s.

(** [s.replace(old, new)] for a non-empty [old]. *)
Fixpoint replace_from (old new : string) (skip : nat) (s : string) : string :=
  match s with
  | EmptyString => EmptyString
  | String a r =>
      match skip with
      | S k => replace_from old new k r
      | O => if startswith old s
             then new +:+ replace_from old new (String.length old - 1) r
             else String a (replace_from old new 0 r)
      end
  end.

Definition replace (old new s : string) : string := replace_from old new 0 s.

(** [sep.join(l)] *)
Fixpoint join (sep : string) (l : list string) : string :=
  match l with
  | [] => EmptyString
  | [x] => x
  | x :: r => x +:+ sep +:+ join sep r
  end.

(** [str.isspace] on one character. *)
Definition isspace (a : ascii) : bool :=
  let n := nat_of_ascii a in
  ((9 <=? n) && (n <=? 13) || (28 <=? n) && (n <=? 32)
   || (n =? 133) || (n =? 160))%nat.

Fixpoint lstrip (s : string) : string :=
  match s with
  | String a r => if isspace a then lstrip r else s
  | EmptyString => EmptyString
  end.

Fixpoint rstrip (s : string) : string :=
  match s with
  | EmptyString => EmptyString
  | String a r =>
      match rstrip r with
      | EmptyString => if isspace a then EmptyString else String a EmptyString
      | r' => String a r'
      end
  end.

(** [s.strip()] *)
Definition strip (s : string) : string := rstrip (lstrip s).

Definition isdigit (a : ascii) : bool :=
  let n := nat_of_ascii a in ((48 <=? n) && (n <=? 57))%nat.

(** The number that a string of decimal digits denotes. *)
Definition int_of_digits (s : string) : Z :=
  fold_left (fun acc a => 10 * acc + (Z.of_nat (nat_of_ascii a) - 48))
            (list_ascii_of_string s) 0.

(** The decimal form of an integer. *)
Definition of_Z (n : Z) : string := NilZero.string_of_int (Z.to_int n).

Definition tab : string := String (chr 9) EmptyString.
Definition newline : string := String (chr 10) EmptyString.
Definition dquote : string := String (chr 34) EmptyString.

(** [str.isprintable] on one character. *)
Definition isprintable (a : ascii) : bool :=
  let n := nat_of_ascii a in
  ((32 <=? n) && (n <=? 126) || (161 <=? n) && negb (n =? 173))%nat.

Definition hex_digit (n : nat) : ascii :=
  chr (if (n <? 10)%nat then (48 + n)%nat else (87 + n)%nat).

Definition backslash : ascii := chr 92.

(** One character inside [repr(s)], between the quotes [quote]. *)
Definition escape (quote : ascii) (a : ascii) : string :=
  let n := nat_of_ascii a in
  if Ascii.eqb a quote || Ascii.eqb a backslash then
    String backslash (String a EmptyString)
  else if (n =? 9)%nat then String backslash "t"
  else if (n =? 10)%nat then String backslash "n"
  else if (n =? 13)%nat then String backslash "r"
  else if isprintable a then String a EmptyString
  else String backslash
         (String "x"%char
            (String (hex_digit (n / 16)%nat)
                    (String (hex_digit (n mod 16)%nat) EmptyString))).

Fixpoint escape_all (quote : ascii) (s : string) : string :=
  match s with
  | EmptyString => EmptyString
  | String a r => escape quote a +:+ escape_all quote r
  end.

(** [repr(s)]: single quotes, unless the text holds a single quote and no
    double quote. *)
Definition repr (s : string) : string :=
  let quote :=
    if contains "'" s && negb (contains dquote s) then chr 34 else "'"%char in
  String quote (escape_all quote s) +:+ String quote EmptyString.

End Str.

(** ** Regular expressions

    The fragment of Python's [re] that the parsers use: a pattern is a
    sequence of literals and of repetitions of one character class, greedy
    ([c+], and [(c+)] when it captures) or lazy ([c*?]).  Matching is by
    backtracking, each item trying its alternatives in Python's order
    against the rest of the pattern. *)

Module Re.

Inductive item : Type :=
| Lit (s : string)                (* the text itself *)
| Plus (c : ascii -> bool)        (* c+  *)
| LazyStar (c : ascii -> bool)    (* c*? *)
| Group (c : ascii -> bool).      (* (c+) *)

Definition pattern := list item.

(** Character classes. *)
Definition digit : ascii -> bool := Str.isdigit.                    (* \d *)
Definition space : ascii -> bool := Str.isspace.                    (* \s *)
Definition dot (a : ascii) : bool := negb (Ascii.eqb a (Str.chr 10)). (* . *)
Definition digit_or_dot (a : ascii) : bool :=                       (* [\d.] *)
  Str.isdigit a || Ascii.eqb a "."%char.

(** [c+] followed by the continuation [k], which receives the text that
    [c+] consumed and the text left: the longest run is tried first. *)
Fixpoint greedy1 {A} (c : ascii -> bool) (k : string -> string -> option A)
         (s : string) : option A :=
  match s with
  | String a r =>
      if c a then
        match greedy1 c (fun m => k (String a m)) r with
        | Some x => Some x
        | None => k (String a EmptyString) r
        end
      else None
  | EmptyString => None
  end.

(** [c*?] followed by [k]: the shortest run is tried first. *)
Fixpoint lazy0 {A} (c : ascii -> bool) (k : string -> option A)
         (s : string) : option A :=
  match k s with
  | Some x => Some x
  | None =>
      match s with
      | String a r => if c a then lazy0 c k r else None
      | EmptyString => None
      end
  end.

(** A match of [p] that starts at the first character of [s]; the result
    is [match.groups()]. *)
Fixpoint match_here (p : pattern) (s : string) : option (list string) :=
  match p with
  | [] => Some []
  | Lit l :: p' =>
      if Str.startswith l s then match_here p' (Str.drop (String.length l) s)
      else None
  | Plus c :: p' => greedy1 c (fun _ r => match_here p' r) s
  | LazyStar c :: p' => lazy0 c (match_here p') s
  | Group c :: p' =>
      greedy1 c (fun m r => option_map (cons m) (match_here p' r)) s
  end.

(** [re.search(p, s)]: the match at the leftmost position that has one. *)
Fixpoint search (p : pattern) (s : string) : option (list string) :=
  match match_here p s with
  | Some g => Some g
  | None =>
      match s with
      | String _ r => search p r
      | EmptyString => None
      end
  end.

(** [re.sub('[^...]', repl, s)] for a class given by its complement [keep]:
    every character outside [keep] is replaced by [repl]. *)
Fixpoint sub_outside (keep : ascii -> bool) (repl : string) (s : string) : string :=
  match s with
  | EmptyString => EmptyString
  | String a r =>
      (if keep a then String a EmptyString else repl) +:+ sub_outside keep repl r
  end.

(** [m.group(i)], for [i] from 1. *)
Definition group (m : list string) (i : nat) : string := nth (i - 1) m EmptyString.

Definition nonspace (a : ascii) : bool := negb (Str.isspace a).      (* [^\s] *)
Definition hex (a : ascii) : bool :=                                  (* [a-f0-9] *)
  let n := nat_of_ascii a in
  ((97 <=? n) && (n <=? 102) || (48 <=? n) && (n <=? 57))%nat.

(** [c{n}] at the head of [s]: the [n] characters it takes and what is
    left, when the first [n] characters of [s] are all in [c]. *)
Fixpoint exactly (c : ascii -> bool) (n : nat) (s : string) : option (string * string) :=
  match n with
  | O => Some (EmptyString, s)
  | S n' =>
      match s with
      | String a r =>
          if c a then
            match exactly c n' r with
            | Some (m, rest) => Some (String a m, rest)
            | None => None
            end
          else None
      | EmptyString => None
      end
  end.

(** The leftmost position of [s] at which [m] matches, for a pattern given
    by its matcher at a position. *)
Fixpoint search_by {A} (m : string -> option A) (s : string) : option A :=
  match m s with
  | Some x => Some x
  | None =>
      match s with
      | String _ r => search_by m r
      | EmptyString => None
      end
  end.

(** As [greedy1] and [lazy0], for a continuation that also gives back the
    text left after the whole match. *)
Fixpoint match_rest (p : pattern) (s : string) : option (list string * string) :=
  match p with
  | [] => Some ([], s)
  | Lit l :: p' =>
      if Str.startswith l s then match_rest p' (Str.drop (String.length l) s)
      else None
  | Plus c :: p' => greedy1 c (fun _ r => match_rest p' r) s
  | LazyStar c :: p' => lazy0 c (match_rest p') s
  | Group c :: p' =>
      greedy1 c (fun m r =>
                   match match_rest p' r with
                   | Some (g, rest) => Some (m :: g, rest)
                   | None => None
                   end) s
  end.

(** [re.finditer(p, s)], as the groups of each match: matches are found
    from the left and do not overlap.  [skip] counts the characters of the
    last match still to be stepped over. *)
Fixpoint finditer_from (p : pattern) (skip : nat) (s : string) : list (list string) :=
  match s with
  | EmptyString =>
      match skip, match_rest p s with
      | O, Some (g, _) => [g]
      | _, _ => []
      end
  | String _ r =>
      match skip with
      | S k => finditer_from p k r
      | O =>
          match match_rest p s with
          | Some (g, rest) =>
              g :: finditer_from p (String.length s - String.length rest - 1) r
          | None => finditer_from p 0 r
          end
      end
  end.

Definition finditer (p : pattern) (s : string) : list (list string) :=
  finditer_from p 0 s.

End Re.

(** ** Exceptions *)

(** An exception: [type(error).__name__] and [str(error)]. *)
Record exn : Type := Exn { exn_type : string; exn_str : string }.

Definition ValueError (msg : string) : exn := Exn "ValueError" msg.
Definition RuntimeError (msg : string) : exn := Exn "RuntimeError" msg.
Definition TypeError (msg : string) : exn := Exn "TypeError" msg.
Definition AttributeError (msg : string) : exn := Exn "AttributeError" msg.
(** [str(KeyError(k))] is the repr of the key. *)
Definition KeyError (k : string) : exn := Exn "KeyError" (Str.repr k).

Inductive outcome (A : Type) : Type :=
| Returned (a : A)
| Raised (e : exn).
Arguments Returned {A} a.
Arguments Raised {A} e.

(** Sequencing of computations that spawn no process. *)
Definition obind {A B} (o : outcome A) (k : A -> outcome B) : outcome B :=
  match o with
  | Returned a => k a
  | Raised e => Raised e
  end.

Notation "x <~ o ;; k" := (obind o (fun x => k))
  (at level 100, o at next level, right associativity).

(** ** Integers and their decimal text

    CPython limits the conversions between [int] and [str] to 4300 digits
    ([sys.int_info.default_max_str_digits]). *)

Definition int_max_str_digits : nat := 4300.

(** The least integer with more than [int_max_str_digits] digits. *)
Definition int_str_bound : Z := Eval vm_compute in 10 ^ 4300.

(** [int(s)] for a non-empty string of decimal digits, which is what
    [(\d+)] captures. *)
Definition int (s : string) : outcome Z :=
  if (int_max_str_digits <? String.length s)%nat then
    Raised (ValueError
              ("Exceeds the limit (4300 digits) for integer string conversion: "
               +:+ "value has " +:+ Str.of_Z (Z.of_nat (String.length s))
               +:+ " digits; use sys.set_int_max_str_digits() to increase the limit"))
  else Returned (Str.int_of_digits s).

(** [str(n)], and [{n}] in an f-string. *)
Definition str_int (n : Z) : outcome string :=
  if Z.abs n <? int_str_bound then Returned (Str.of_Z n)
  else
    Raised (ValueError
              ("Exceeds the limit (4300 digits) for integer string conversion; "
               +:+ "use sys.set_int_max_str_digits() to increase the limit")).

(** ** Python values *)

(** What the code observes of a Python [float]. *)
Class PyFloat : Type := {
  float : Type;
  float_of_string : string -> option float;  (* float(s); None: ValueError *)
  float_ge : float -> float -> bool;         (* x >= y *)
  float_ge_int : float -> Z -> bool;         (* x >= n *)
  int_ge_float : Z -> float -> bool;         (* n >= y *)
  float_bool : float -> bool;                (* bool(x) *)
  float_str : float -> string                (* str(x), which is repr(x) *)
}.

Section Values.
Context `{PyFloat}.

(** The values a parameter mapping read from JSON can hold. *)
#[local] Unset Elimination Schemes.

Inductive scalar : Type :=
| SNone
| SBool (b : bool)
| SInt (n : Z)
| SFloat (x : float)
| SStr (s : string).

Inductive value : Type :=
| VScalar (a : scalar)
| VList (l : list value)
| VDict (d : list (string * value)).

(** [type(v).__name__] *)
Definition type_name (v : value) : string :=
  match v with
  | VScalar SNone => "NoneType"
  | VScalar (SBool _) => "bool"
  | VScalar (SInt _) => "int"
  | VScalar (SFloat _) => "float"
  | VScalar (SStr _) => "str"
  | VList _ => "list"
  | VDict _ => "dict"
  end.

(** [str(a)] *)
Definition scalar_str (a : scalar) : outcome string :=
  match a with
  | SNone => Returned "None"
  | SBool true => Returned "True"
  | SBool false => Returned "False"
  | SInt n => str_int n
  | SFloat x => Returned (float_str x)
  | SStr s => Returned s
  end.

(** [repr(v)]: the items of a list or of a mapping are rendered from the
    left, and the first one that cannot be rendered raises.  The nesting is
    taken to be within the recursion limit of the interpreter. *)
Fixpoint repr (v : value) : outcome string :=
  match v with
  | VScalar (SStr s) => Returned (Str.repr s)
  | VScalar a => scalar_str a
  | VList l =>
      texts <~ (fix reprs (l : list value) : outcome (list string) :=
                  match l with
                  | [] => Returned []
                  | x :: r =>
                      text <~ repr x ;;
                      texts <~ reprs r ;;
                      Returned (text :: texts)
                  end) l ;;
      Returned ("[" +:+ Str.join ", " texts +:+ "]")
  | VDict d =>
      texts <~ (fix reprs (d : list (string * value)) : outcome (list string) :=
                  match d with
                  | [] => Returned []
                  | kv :: r =>
                      text <~ repr (snd kv) ;;
                      texts <~ reprs r ;;
                      Returned ((Str.repr (fst kv) +:+ ": " +:+ text) :: texts)
                  end) d ;;
      Returned ("{" +:+ Str.join ", " texts +:+ "}")
  end.

(** [str(v)] *)
Definition str (v : value) : outcome string :=
  match v with
  | VScalar a => scalar_str a
  | _ => repr v
  end.

(** [bool(v)], the test of [if v:]. *)
Definition truthy (v : value) : bool :=
  match v with
  | VScalar SNone => false
  | VScalar (SBool b) => b
  | VScalar (SInt n) => negb (n =? 0)
  | VScalar (SFloat x) => float_bool x
  | VScalar (SStr s) => negb (String.eqb s "")
  | VList l => match l with [] => false | _ => true end
  | VDict d => match d with [] => false | _ => true end
  end.

(** Python's real numbers: [bool] is a subclass of [int]. *)
Inductive number : Type :=
| NInt (n : Z)
| NBool (b : bool)
| NFloat (x : float).

Definition as_number (v : value) : option number :=
  match v with
  | VScalar (SInt n) => Some (NInt n)
  | VScalar (SBool b) => Some (NBool b)
  | VScalar (SFloat x) => Some (NFloat x)
  | _ => None
  end.

Definition number_value (a : number) : value :=
  match a with
  | NInt n => VScalar (SInt n)
  | NBool b => VScalar (SBool b)
  | NFloat x => VScalar (SFloat x)
  end.

Definition number_str (a : number) : outcome string :=
  match a with
  | NInt n => scalar_str (SInt n)
  | NBool b => scalar_str (SBool b)
  | NFloat x => scalar_str (SFloat x)
  end.

(** [a >= b] on numbers. *)
Definition number_ge (a b : number) : bool :=
  match a, b with
  | NFloat x, NFloat y => float_ge x y
  | NFloat x, NInt n => float_ge_int x n
  | NFloat x, NBool c => float_ge_int x (Z.b2z c)
  | NInt m, NFloat y => int_ge_float m y
  | NBool c, NFloat y => int_ge_float (Z.b2z c) y
  | NInt m, NInt n => n <=? m
  | NInt m, NBool c => Z.b2z c <=? m
  | NBool c, NInt n => n <=? Z.b2z c
  | NBool c, NBool d => Z.b2z d <=? Z.b2z c
  end.

(** The parameter mapping of a command. *)
Definition Parameters : Type := gmap string value.

End Values.

Abbreviation VNone := (VScalar SNone).
Abbreviation VBool b := (VScalar (SBool b)).
Abbreviation VInt n := (VScalar (SInt n)).
Abbreviation VFloat x := (VScalar (SFloat x)).
Abbreviation VStr s := (VScalar (SStr s)).

(** What the code observes of the [json] module. *)
Class PyJson `{PyFloat} : Type := {
  json_dumps : value -> outcome string;   (* json.dumps(v) *)
  json_loads : string -> outcome value    (* json.loads(s) *)
}.

(** ** Processes and the environment *)

(** The command line handed to [subprocess.run]. *)
Inductive cmdline : Type :=
| Shell (line : string)            (* a string, with shell=True *)
| ShellArgv (args : list string)   (* a list, with shell=True: the shell runs
                                      the first item, the others are its
                                      positional parameters *)
| Argv (args : list string).       (* an argument vector *)

Record Invocation : Type := {
  inv_cmd : cmdline;
  inv_cwd : option string;
  inv_input : option string
}.

(** [subprocess.CompletedProcess] with captured text.  The return code is
    the exit status the operating system reports, a machine integer. *)
Record CompletedProcess : Type := {
  returncode : Z;
  stdout : string;
  stderr : string
}.

(** What lies outside the program. *)
Record Env : Type := {
  (* str(Path(s)): pathlib's normal form of a path text *)
  path_str : string -> string;
  (* str(Path(dir) / s), for the normal form dir of a directory *)
  path_join : string -> string -> string;
  (* Path.exists() *)
  path_exists : string -> bool;
  (* the files Path(dir).glob(pattern) yields, relative to dir *)
  path_glob : string -> string -> list string;
  (* the process run for an invocation, after the invocations before it;
     an exception is the operating system refusing to start it *)
  spawn : list Invocation -> Invocation -> outcome CompletedProcess;
  (* datetime.now().strftime('%Y%m%d') *)
  today : string
}.

(** ** The monad of commands

    A computation takes the log of the processes spawned so far and gives
    back a result or an exception, with the log extended. *)

Definition M (A : Type) : Type := list Invocation -> outcome A * list Invocation.

Definition ret {A} (a : A) : M A := fun log => (Returned a, log).

Definition raise {A} (e : exn) : M A := fun log => (Raised e, log).

Definition bind {A B} (m : M A) (k : A -> M B) : M B :=
  fun log =>
    match m log with
    | (Returned a, log') => k a log'
    | (Raised e, log') => (Raised e, log')
    end.

(** [try: m  except Exception as error: h error] *)
Definition try_except {A} (m : M A) (h : exn -> M A) : M A :=
  fun log =>
    match m log with
    | (Returned a, log') => (Returned a, log')
    | (Raised e, log') => h e log'
    end.

Definition lift {A} (o : outcome A) : M A := fun log => (o, log).

Notation "x <- m ;; k" := (bind m (fun x => k))
  (at level 100, m at next level, right associativity).
Notation "m ;;; k" := (bind m (fun _ => k))
  (at level 100, right associativity).

(** [subprocess.run(cmd, cwd=.., input=.., capture_output=True, text=True)] *)
Definition subprocess_run (env : Env) (inv : Invocation) : M CompletedProcess :=
  fun log => (spawn env log inv, log ++ [inv]).

(** The repr of an argument vector. *)
Definition repr_argv (args : list string) : string :=
  "[" +:+ Str.join ", " (map Str.repr args) +:+ "]".

Definition CalledProcessError (args : list string) (code : Z) : exn :=
  Exn "CalledProcessError"
      ("Command '" +:+ repr_argv args +:+ "' returned non-zero exit status "
       +:+ Str.of_Z code +:+ ".").

(** [subprocess.run(args, ..., check=True)] *)
Definition subprocess_run_check (env : Env) (args : list string)
           (cwd : option string) : M CompletedProcess :=
  p <- subprocess_run env {| inv_cmd := Argv args; inv_cwd := cwd; inv_input := None |} ;;
  if returncode p =? 0 then ret p else raise (CalledProcessError args (returncode p)).

(** ** [core/base_command.py] *)

Section Base.
Context `{PyFloat}.

(** [CommandResult]: the result every command returns. *)
Record CommandResult : Type := {
  success : bool;
  message : string;
  output_data : option (list (string * value));
  error_details : option string
}.

(** The abstract methods of [BaseCommand]: a command class gives both. *)
Record BaseCommand : Type := {
  validate_parameters : Parameters -> M unit;
  execute : Parameters -> M CommandResult
}.

(** A command object: an instance of a class holding its parameters. *)
Record Command : Type := {
  cmd_class : BaseCommand;
  parameters : Parameters
}.

(** [BaseCommand.__init__] *)
Definition __init__ (cls : BaseCommand) (params : Parameters) : M Command :=
  let self := {| cmd_class := cls; parameters := params |} in
  validate_parameters cls (parameters self) ;;;
  ret self.

(** [BaseCommand.run] *)
Definition run (self : Command) : M CommandResult :=
  try_except
    (result <- execute (cmd_class self) (parameters self) ;;
     ret result)
    (fun error =>
       ret {| success := false;
              message := "Command execution failed: " +:+ exn_type error;
              output_data := None;
              error_details := Some (exn_str error) |}).

(** [BaseCommand._require_parameters]: first the names that are not keys
    of the mapping, in the order given. *)
Definition missing_parameters (params : Parameters) (parameter_names : list string)
  : list string :=
  List.filter (fun param_name => bool_decide (params !! param_name = None))
              parameter_names.

Definition _require_parameters (params : Parameters) (parameter_names : list string)
  : M unit :=
  match missing_parameters params parameter_names with
  | [] => ret tt
  | missing =>
      raise (ValueError ("Missing required parameters: " +:+ Str.join ", " missing))
  end.

(** [BaseCommand._get_parameter] *)
Definition _get_parameter (params : Parameters) (parameter_name : string)
           (default_value : value) : value :=
  default default_value (params !! parameter_name).

(** [self.parameters[name]] *)
Definition getitem (params : Parameters) (name : string) : M value :=
  match params !! name with
  | Some v => ret v
  | None => raise (KeyError name)
  end.

(** The caller of a command, as every [main()] is written:
    [command = Cls(parameters); result = command.run()]. *)
Definition main (cls : BaseCommand) (params : Parameters) : M CommandResult :=
  command <- __init__ cls params ;;
  run command.

(** [Path(v)] for a parameter value, as its normal text.  The message of
    the TypeError is that of Python up to 3.11. *)
Definition Path (env : Env) (v : value) : M string :=
  match v with
  | VStr s => ret (path_str env s)
  | _ => raise (TypeError ("expected str, bytes or os.PathLike object, not "
                           +:+ type_name v))
  end.

(** [text in v], for a text [text]: a substring of a text, an item of a
    list, a key of a mapping. *)
Definition contains_text (text : string) (v : value) : M bool :=
  match v with
  | VStr s => ret (Str.contains text s)
  | VList l =>
      ret (existsb (fun item => match item with
                                | VStr s => String.eqb s text
                                | _ => false
                                end) l)
  | VDict d => ret (existsb (fun kv => String.eqb (fst kv) text) d)
  | _ => raise (TypeError ("argument of type '" +:+ type_name v
                           +:+ "' is not iterable"))
  end.

(** [v += text], for a text [text]: a text is extended by it, a list by its
    characters.  (A list is extended in place, so the parameter it came
    from holds the extended list too; no command reads that parameter
    again.) *)
Definition iadd_text (v : value) (text : string) : M value :=
  match v with
  | VStr s => ret (VStr (s +:+ text))
  | VList l =>
      ret (VList (l ++ map (fun a => VStr (String a EmptyString))
                           (list_ascii_of_string text)))
  | _ => raise (TypeError ("unsupported operand type(s) for +=: '" +:+ type_name v
                           +:+ "' and 'str'"))
  end.

(** [v.replace(old, new)] *)
Definition replace_text (old new : string) (v : value) : M value :=
  match v with
  | VStr s => ret (VStr (Str.replace old new s))
  | _ => raise (AttributeError ("'" +:+ type_name v
                                +:+ "' object has no attribute 'replace'"))
  end.

(** A value used as the key of a dict whose keys are texts: a text is
    its own key, another scalar is a key the dict does not hold, and a
    list or a mapping cannot be hashed. *)
Definition text_key (v : value) : M (option string) :=
  match v with
  | VStr s => ret (Some s)
  | VScalar _ => ret None
  | _ => raise (TypeError ("unhashable type: '" +:+ type_name v +:+ "'"))
  end.

(** The repr of a key that is not a text.  For an integer it is its
    decimal form: the integers of a parameter mapping are those that
    [json.loads] reads, which the digit limit of [int] bounds. *)
Definition key_text (a : scalar) : string :=
  match a with
  | SNone => "None"
  | SBool true => "True"
  | SBool false => "False"
  | SInt n => Str.of_Z n
  | SFloat x => float_str x
  | SStr s => Str.repr s
  end.

(** [table[v]] for a dict literal with text keys. *)
Definition table_getitem (table : list (string * string)) (v : value) : M string :=
  match v with
  | VStr k =>
      match List.find (fun kv => String.eqb (fst kv) k) table with
      | Some kv => ret (snd kv)
      | None => raise (KeyError k)
      end
  | VScalar a => raise (Exn "KeyError" (key_text a))
  | _ => raise (TypeError ("unhashable type: '" +:+ type_name v +:+ "'"))
  end.

(** [v in table] *)
Definition table_contains (table : list (string * string)) (v : value) : M bool :=
  key <- text_key v ;;
  ret (match key with
       | Some k => existsb (fun kv => String.eqb (fst kv) k) table
       | None => false
       end).

(** [v == text] *)
Definition eq_text (v : value) (text : string) : bool :=
  match v with
  | VStr s => String.eqb s text
  | _ => false
  end.

(** The text an f-string puts for [{v}]: [str(v)]. *)
Definition format (v : value) : M string := lift (str v).

(** [v in texts] for a list literal of texts. *)
Definition in_texts (v : value) (texts : list string) : bool :=
  existsb (eq_text v) texts.

(** The elements [list.extend(v)] appends. *)
Definition iterate (v : value) : M (list value) :=
  match v with
  | VList l => ret l
  | VStr s => ret (map (fun a => VStr (String a EmptyString)) (list_ascii_of_string s))
  | VDict d => ret (map (fun kv => VStr (fst kv)) d)
  | _ => raise (TypeError ("'" +:+ type_name v +:+ "' object is not iterable"))
  end.

(** [v.items()] *)
Definition items (v : value) : M (list (string * value)) :=
  match v with
  | VDict d => ret d
  | _ => raise (AttributeError ("'" +:+ type_name v
                                +:+ "' object has no attribute 'items'"))
  end.

(** The argument vector [subprocess.run] accepts: every part is a text. *)
Fixpoint argv (parts : list value) : M (list string) :=
  match parts with
  | [] => ret []
  | VStr s :: rest => args <- argv rest ;; ret (s :: args)
  | v :: _ => raise (TypeError ("expected str, bytes or os.PathLike object, not "
                                +:+ type_name v))
  end.

(** [subprocess.run(cmd, shell=True, cwd=cwd, capture_output=True,
    text=True)] for a parameter value: a text is a shell command line, a
    list is handed to the shell item by item, a mapping as the list of its
    keys; another value cannot be made a list, and no process is
    spawned. *)
Definition subprocess_run_shell (env : Env) (cmd : value) (cwd : string)
  : M CompletedProcess :=
  match cmd with
  | VStr line =>
      subprocess_run env {| inv_cmd := Shell line; inv_cwd := Some cwd;
                            inv_input := None |}
  | VList l =>
      args <- argv l ;;
      subprocess_run env {| inv_cmd := ShellArgv args; inv_cwd := Some cwd;
                            inv_input := None |}
  | VDict d =>
      subprocess_run env {| inv_cmd := ShellArgv (map fst d); inv_cwd := Some cwd;
                            inv_input := None |}
  | _ => raise (TypeError ("'" +:+ type_name cmd +:+ "' object is not iterable"))
  end.

(** [d.get(k)] and [d.get(k, default)] on a dict built by the code. *)
Definition dict_get (d : list (string * value)) (k : string) : option value :=
  option_map snd (List.find (fun kv => String.eqb (fst kv) k) d).

(** [d[k]] on a dict built by the code. *)
Definition dict_getitem (d : list (string * value)) (k : string) : M value :=
  match dict_get d k with
  | Some v => ret v
  | None => raise (KeyError k)
  end.

(** [d[k] = v] on a dict built by the code: a key that is there keeps its
    place. *)
Fixpoint dict_set (d : list (string * value)) (k : string) (v : value)
  : list (string * value) :=
  match d with
  | [] => [(k, v)]
  | kv :: rest =>
      if String.eqb (fst kv) k then (k, v) :: rest else kv :: dict_set rest k v
  end.

(** [sep.join(texts)] for a list of values: every item has to be a text. *)
Fixpoint join_items (i : nat) (items : list value) : M (list string) :=
  match items with
  | [] => ret []
  | VStr s :: rest => texts <- join_items (S i) rest ;; ret (s :: texts)
  | v :: _ =>
      raise (TypeError ("sequence item " +:+ Str.of_Z (Z.of_nat i)
                        +:+ ": expected str instance, " +:+ type_name v +:+ " found"))
  end.

(** [sep.join(v)] *)
Definition join_value (sep : string) (v : value) : M string :=
  match v with
  | VList l => texts <- join_items 0 l ;; ret (Str.join sep texts)
  | VStr s =>
      ret (Str.join sep (map (fun a => String a EmptyString) (list_ascii_of_string s)))
  | VDict d => ret (Str.join sep (map fst d))
  | _ => raise (TypeError "can only join an iterable")
  end.

(** [v[k]] for a text key [k]. *)
Definition subscript (v : value) (k : string) : M value :=
  match v with
  | VDict d => dict_getitem d k
  | VList _ => raise (TypeError "list indices must be integers or slices, not str")
  | VStr _ => raise (TypeError "string indices must be integers, not 'str'")
  | _ => raise (TypeError ("'" +:+ type_name v +:+ "' object is not subscriptable"))
  end.

(** [v.get(k, default)] *)
Definition value_get (v : value) (k : string) (default_value : value) : M value :=
  match v with
  | VDict d => ret (default default_value (dict_get d k))
  | _ => raise (AttributeError ("'" +:+ type_name v
                                +:+ "' object has no attribute 'get'"))
  end.

(** [len(v)] *)
Definition len (v : value) : M Z :=
  match v with
  | VDict d => ret (Z.of_nat (length d))
  | VList l => ret (Z.of_nat (length l))
  | VStr s => ret (Z.of_nat (String.length s))
  | _ => raise (TypeError ("object of type '" +:+ type_name v +:+ "' has no len()"))
  end.

(** [None] or the text. *)
Definition optional_text (o : option string) : value :=
  match o with
  | Some s => VStr s
  | None => VNone
  end.

(** [for x in l: body x], threading an accumulator. *)
Fixpoint for_each {A B} (l : list A) (body : B -> A -> M B) (acc : B) : M B :=
  match l with
  | [] => ret acc
  | x :: rest => acc' <- body acc x ;; for_each rest body acc'
  end.

End Base.

(** ** [commands/test_command.py] *)

Module TestCommand.
Section WithEnv.
Context `{PyFloat} (env : Env).

Definition DEFAULT_TEST_COMMANDS : list (string * string) :=
  [ ("maven", "mvn test");
    ("gradle", "./gradlew test");
    ("pytest", "pytest");
    ("jest", "npm test");
    ("gotest", "go test ./...") ].

Definition validate_parameters (params : Parameters) : M unit :=
  _require_parameters params ["test_framework"; "project_path"] ;;;
  test_framework <- getitem params "test_framework" ;;
  known <- table_contains DEFAULT_TEST_COMMANDS test_framework ;;
  (if negb known then
     shown <- format test_framework ;;
     raise (ValueError ("Unsupported test framework: " +:+ shown +:+ ". "
                        +:+ "Supported frameworks: "
                        +:+ Str.join ", " (map fst DEFAULT_TEST_COMMANDS)))
   else ret tt) ;;;
  path_value <- getitem params "project_path" ;;
  project_path <- Path env path_value ;;
  if negb (path_exists env project_path) then
    raise (ValueError ("Project path does not exist: " +:+ project_path))
  else ret tt.

Definition _prepare_test_command (params : Parameters) : M value :=
  (* Use custom command if provided *)
  base_command <-
    (match params !! "test_command" with
     | Some v => ret v
     | None =>
         test_framework <- getitem params "test_framework" ;;
         default_command <- table_getitem DEFAULT_TEST_COMMANDS test_framework ;;
         ret (VStr default_command)
     end) ;;
  (* Handle coverage flag *)
  let coverage_enabled := _get_parameter params "coverage_enabled" (VBool false) in
  base_command <-
    (if truthy coverage_enabled then
       is_maven <- contains_text "maven" base_command ;;
       if is_maven then ret (VStr "mvn test jacoco:report")
       else
         is_gradle <- contains_text "gradle" base_command ;;
         if is_gradle then iadd_text base_command " jacocoTestReport"
         else
           is_pytest <- contains_text "pytest" base_command ;;
           if is_pytest then
             iadd_text base_command " --cov --cov-report=term --cov-report=html"
           else
             is_jest <- contains_text "jest" base_command ;;
             if is_jest then iadd_text base_command " --coverage"
             else ret base_command
     else ret base_command) ;;
  (* Handle fail_fast flag *)
  let fail_fast := _get_parameter params "fail_fast" (VBool false) in
  base_command <-
    (if truthy fail_fast then
       is_pytest <- contains_text "pytest" base_command ;;
       if is_pytest then iadd_text base_command " -x"
       else
         is_maven <- contains_text "maven" base_command ;;
         if is_maven then iadd_text base_command " -DfailIfNoTests=false"
         else ret base_command
     else ret base_command) ;;
  (* Handle parallel execution *)
  let parallel_execution := _get_parameter params "parallel_execution" (VBool false) in
  base_command <-
    (if truthy parallel_execution then
       is_pytest <- contains_text "pytest" base_command ;;
       if is_pytest then iadd_text base_command " -n auto"
       else
         is_maven <- contains_text "maven" base_command ;;
         if is_maven then iadd_text base_command " -T 1C"
         else
           is_jest <- contains_text "jest" base_command ;;
           if is_jest then iadd_text base_command " --maxWorkers=50%"
           else ret base_command
     else ret base_command) ;;
  (* Handle test pattern *)
  let test_pattern := _get_parameter params "test_pattern" VNone in
  base_command <-
    (if truthy test_pattern then
       is_pytest <- contains_text "pytest" base_command ;;
       if is_pytest then
         shown <- format test_pattern ;;
         iadd_text base_command (" -k " +:+ Str.dquote +:+ shown +:+ Str.dquote)
       else
         is_maven <- contains_text "maven" base_command ;;
         if is_maven then
           shown <- format test_pattern ;;
           iadd_text base_command (" -Dtest=" +:+ shown)
         else ret base_command
     else ret base_command) ;;
  (* Add custom arguments *)
  let test_arguments := _get_parameter params "test_arguments" (VStr "") in
  if truthy test_arguments then
    shown <- format test_arguments ;;
    iadd_text base_command (" " +:+ shown)
  else ret base_command.

(** Tests might fail, but the results are still parsed: the return code
    is not looked at. *)
Definition _execute_tests (test_command : value) (project_path : string)
  : M string :=
  process_result <- subprocess_run_shell env test_command project_path ;;
  ret (stdout process_result +:+ stderr process_result).

(** The dict of parsed results. *)
Record TestResults : Type := {
  tests_total : Z;
  tests_passed : Z;
  tests_failed : Z;
  tests_skipped : Z;
  coverage_percentage : option number;
  duration_seconds : option number
}.

Definition results0 : TestResults :=
  {| tests_total := 0; tests_passed := 0; tests_failed := 0; tests_skipped := 0;
     coverage_percentage := None; duration_seconds := None |}.

Definition set_coverage (r : TestResults) (c : number) : TestResults :=
  {| tests_total := tests_total r; tests_passed := tests_passed r;
     tests_failed := tests_failed r; tests_skipped := tests_skipped r;
     coverage_percentage := Some c; duration_seconds := duration_seconds r |}.

(* Tests run: (\d+), Failures: (\d+), Errors: (\d+), Skipped: (\d+) *)
Definition maven_summary : Re.pattern :=
  [ Re.Lit "Tests run: "; Re.Group Re.digit; Re.Lit ", Failures: ";
    Re.Group Re.digit; Re.Lit ", Errors: "; Re.Group Re.digit;
    Re.Lit ", Skipped: "; Re.Group Re.digit ].
(* (\d+) passed,  (\d+) failed,  (\d+) skipped *)
Definition pytest_passed : Re.pattern := [ Re.Group Re.digit; Re.Lit " passed" ].
Definition pytest_failed : Re.pattern := [ Re.Group Re.digit; Re.Lit " failed" ].
Definition pytest_skipped : Re.pattern := [ Re.Group Re.digit; Re.Lit " skipped" ].
(* TOTAL.*?(\d+)% *)
Definition pytest_coverage : Re.pattern :=
  [ Re.Lit "TOTAL"; Re.LazyStar Re.dot; Re.Group Re.digit; Re.Lit "%" ].
(* Tests:\s+(\d+) passed.*?(\d+) total *)
Definition jest_summary : Re.pattern :=
  [ Re.Lit "Tests:"; Re.Plus Re.space; Re.Group Re.digit; Re.Lit " passed";
    Re.LazyStar Re.dot; Re.Group Re.digit; Re.Lit " total" ].
(* All files\s+\|\s+([\d.]+) *)
Definition jest_coverage : Re.pattern :=
  [ Re.Lit "All files"; Re.Plus Re.space; Re.Lit "|"; Re.Plus Re.space;
    Re.Group Re.digit_or_dot ].

(** [int(m.group(1)) if m else 0] *)
Definition int_group_or_0 (m : option (list string)) : outcome Z :=
  match m with
  | Some g => int (Re.group g 1)
  | None => Returned 0
  end.

Definition _parse_test_results (test_framework : value) (test_output : string)
  : outcome TestResults :=
  let results := results0 in
  (* Maven/Gradle (JUnit/TestNG patterns) *)
  if eq_text test_framework "maven" || eq_text test_framework "gradle" then
    match Re.search maven_summary test_output with
    | Some g =>
        tests_run <~ int (Re.group g 1) ;;
        failures <~ int (Re.group g 2) ;;
        errors <~ int (Re.group g 3) ;;
        skipped <~ int (Re.group g 4) ;;
        Returned {| tests_total := tests_run;
                    tests_passed := tests_run - failures - errors - skipped;
                    tests_failed := failures + errors;
                    tests_skipped := skipped;
                    coverage_percentage := None;
                    duration_seconds := None |}
    | None => Returned results
    end
  (* pytest patterns *)
  else if eq_text test_framework "pytest" then
    let passed_match := Re.search pytest_passed test_output in
    let failed_match := Re.search pytest_failed test_output in
    let skipped_match := Re.search pytest_skipped test_output in
    passed <~ int_group_or_0 passed_match ;;
    failed <~ int_group_or_0 failed_match ;;
    skipped <~ int_group_or_0 skipped_match ;;
    let results :=
      {| tests_total := passed + failed + skipped;
         tests_passed := passed;
         tests_failed := failed;
         tests_skipped := skipped;
         coverage_percentage := None;
         duration_seconds := None |} in
    match Re.search pytest_coverage test_output with
    | Some g =>
        percentage <~ int (Re.group g 1) ;;
        Returned (set_coverage results (NInt percentage))
    | None => Returned results
    end
  (* Jest patterns *)
  else if eq_text test_framework "jest" then
    results <~
      match Re.search jest_summary test_output with
      | Some g =>
          passed <~ int (Re.group g 1) ;;
          total <~ int (Re.group g 2) ;;
          Returned {| tests_total := total;
                      tests_passed := passed;
                      tests_failed := total - passed;
                      tests_skipped := 0;
                      coverage_percentage := None;
                      duration_seconds := None |}
      | None => Returned results
      end ;;
    match Re.search jest_coverage test_output with
    | Some g =>
        match float_of_string (Re.group g 1) with
        | Some x => Returned (set_coverage results (NFloat x))
        | None =>
            Raised (ValueError ("could not convert string to float: "
                                +:+ Str.repr (Re.group g 1)))
        end
    | None => Returned results
    end
  (* Go test patterns *)
  else if eq_text test_framework "gotest" then
    if Str.contains "PASS" test_output then
      let ok_count := Str.count (Str.tab +:+ "ok" +:+ Str.tab) test_output in
      Returned {| tests_total := ok_count;
                  tests_passed := ok_count;
                  tests_failed := 0;
                  tests_skipped := 0;
                  coverage_percentage := None;
                  duration_seconds := None |}
    else if Str.contains "FAIL" test_output then
      Returned {| tests_total := 1;
                  tests_passed := 0;
                  tests_failed := 1;
                  tests_skipped := 0;
                  coverage_percentage := None;
                  duration_seconds := None |}
    else Returned results
  else Returned results.

(** The dict of the coverage check. *)
Record CoverageCheck : Type := {
  enabled : bool;
  passed : bool;
  threshold : value;
  actual : option number;
  check_message : string
}.

Definition _check_coverage_threshold (params : Parameters) (test_results : TestResults)
  : outcome (option CoverageCheck) :=
  let coverage_enabled := _get_parameter params "coverage_enabled" (VBool false) in
  if negb (truthy coverage_enabled) then Returned None
  else
    let coverage_threshold := _get_parameter params "coverage_threshold" (VInt 80) in
    match coverage_percentage test_results with
    | None =>
        Returned (Some {| enabled := true;
                          passed := true;
                          threshold := coverage_threshold;
                          actual := None;
                          check_message := "Coverage data not available" |})
    | Some percentage =>
        match as_number coverage_threshold with
        | None =>
            Raised (TypeError ("'>=' not supported between instances of '"
                               +:+ type_name (number_value percentage)
                               +:+ "' and '" +:+ type_name coverage_threshold +:+ "'"))
        | Some bound =>
            let passed := number_ge percentage bound in
            shown_percentage <~ number_str percentage ;;
            shown_threshold <~ number_str bound ;;
            Returned (Some {| enabled := true;
                              passed := passed;
                              threshold := coverage_threshold;
                              actual := Some percentage;
                              check_message :=
                                if passed then
                                  "Coverage " +:+ shown_percentage
                                  +:+ "% meets threshold " +:+ shown_threshold +:+ "%"
                                else
                                  "Coverage " +:+ shown_percentage
                                  +:+ "% below threshold " +:+ shown_threshold +:+ "%" |})
        end
    end.

Definition _generate_result_message (test_results : TestResults)
           (coverage_check : option CoverageCheck) : outcome string :=
  let total := tests_total test_results in
  let passed := tests_passed test_results in
  let failed := tests_failed test_results in
  let skipped := tests_skipped test_results in
  shown_passed <~ str_int passed ;;
  shown_total <~ str_int total ;;
  let message :=
    "Tests completed: " +:+ shown_passed +:+ "/" +:+ shown_total +:+ " passed" in
  message <~
    (if 0 <? failed then
       shown <~ str_int failed ;; Returned (message +:+ ", " +:+ shown +:+ " failed")
     else Returned message) ;;
  message <~
    (if 0 <? skipped then
       shown <~ str_int skipped ;; Returned (message +:+ ", " +:+ shown +:+ " skipped")
     else Returned message) ;;
  match coverage_check with
  | Some check =>
      match actual check with
      | Some percentage =>
          shown <~ number_str percentage ;;
          Returned (message +:+ " | Coverage: " +:+ shown +:+ "%")
      | None => Returned message
      end
  | None => Returned message
  end.

Definition optional_number (o : option number) : value :=
  match o with
  | Some a => number_value a
  | None => VNone
  end.

Definition results_value (r : TestResults) : value :=
  VDict [ ("tests_total", VInt (tests_total r));
          ("tests_passed", VInt (tests_passed r));
          ("tests_failed", VInt (tests_failed r));
          ("tests_skipped", VInt (tests_skipped r));
          ("coverage_percentage", optional_number (coverage_percentage r));
          ("duration_seconds", optional_number (duration_seconds r)) ].

Definition check_value (c : option CoverageCheck) : value :=
  match c with
  | None => VNone
  | Some check =>
      VDict [ ("enabled", VBool (enabled check));
              ("passed", VBool (passed check));
              ("threshold", threshold check);
              ("actual", optional_number (actual check));
              ("message", VStr (check_message check)) ]
  end.

(** The verdict of [execute] on the parsed results and the coverage check. *)
Definition overall_success (test_results : TestResults)
           (coverage_check : option CoverageCheck) : bool :=
  let tests_passed := tests_failed test_results =? 0 in
  let coverage_passed :=
    match coverage_check with
    | Some check => passed check
    | None => true
    end in
  tests_passed && coverage_passed.

Definition execute (params : Parameters) : M CommandResult :=
  test_framework <- getitem params "test_framework" ;;
  path_value <- getitem params "project_path" ;;
  project_path <- Path env path_value ;;
  (* Prepare test command *)
  test_command <- _prepare_test_command params ;;
  (* Execute tests *)
  test_output <- _execute_tests test_command project_path ;;
  (* Parse test results *)
  test_results <- lift (_parse_test_results test_framework test_output) ;;
  (* Check coverage threshold if enabled *)
  coverage_check <- lift (_check_coverage_threshold params test_results) ;;
  (* Determine overall success *)
  message <- lift (_generate_result_message test_results coverage_check) ;;
  ret {| success := overall_success test_results coverage_check;
         message := message;
         output_data :=
           Some [ ("test_framework", test_framework);
                  ("project_path", VStr project_path);
                  ("command_executed", test_command);
                  ("test_results", results_value test_results);
                  ("coverage_check", check_value coverage_check) ];
         error_details := None |}.

Definition class : BaseCommand :=
  Build_BaseCommand validate_parameters execute.

End WithEnv.
End TestCommand.

(** ** [commands/build_command.py] *)

Module BuildCommand.
Section WithEnv.
Context `{PyFloat} (env : Env).

Definition DEFAULT_BUILD_COMMANDS : list (string * string) :=
  [ ("maven", "mvn clean install");
    ("gradle", "./gradlew clean build");
    ("npm", "npm run build");
    ("pip", "pip install -e .");
    ("go", "go build -o ./bin/app") ].

Definition validate_parameters (params : Parameters) : M unit :=
  _require_parameters params ["build_tool"; "project_path"] ;;;
  build_tool <- getitem params "build_tool" ;;
  known <- table_contains DEFAULT_BUILD_COMMANDS build_tool ;;
  (if negb known then
     shown <- format build_tool ;;
     raise (ValueError ("Unsupported build tool: " +:+ shown +:+ ". "
                        +:+ "Supported tools: "
                        +:+ Str.join ", " (map fst DEFAULT_BUILD_COMMANDS)))
   else ret tt) ;;;
  path_value <- getitem params "project_path" ;;
  project_path <- Path env path_value ;;
  if negb (path_exists env project_path) then
    raise (ValueError ("Project path does not exist: " +:+ project_path))
  else ret tt.

Definition _prepare_build_command (params : Parameters) : M value :=
  (* Use custom command if provided *)
  base_command <-
    (match params !! "build_command" with
     | Some v => ret v
     | None =>
         build_tool <- getitem params "build_tool" ;;
         default_command <- table_getitem DEFAULT_BUILD_COMMANDS build_tool ;;
         ret (VStr default_command)
     end) ;;
  (* Handle skip_tests flag *)
  let skip_tests := _get_parameter params "skip_tests" (VBool false) in
  base_command <-
    (if truthy skip_tests then
       is_maven <- contains_text "maven" base_command ;;
       if is_maven then iadd_text base_command " -DskipTests"
       else
         is_gradle <- contains_text "gradle" base_command ;;
         if is_gradle then iadd_text base_command " -x test"
         else ret base_command
     else ret base_command) ;;
  (* Handle clean flag *)
  let clean_before_build := _get_parameter params "clean_before_build" (VBool true) in
  base_command <-
    (if negb (truthy clean_before_build) then replace_text "clean " "" base_command
     else ret base_command) ;;
  (* Add custom arguments *)
  let build_arguments := _get_parameter params "build_arguments" (VStr "") in
  if truthy build_arguments then
    shown <- format build_arguments ;;
    iadd_text base_command (" " +:+ shown)
  else ret base_command.

Definition _execute_build (build_command : value) (project_path : string)
  : M string :=
  process_result <- subprocess_run_shell env build_command project_path ;;
  if negb (returncode process_result =? 0) then
    raise (RuntimeError
             ("Build failed with exit code " +:+ Str.of_Z (returncode process_result)
              +:+ Str.newline +:+ "Error output:" +:+ Str.newline
              +:+ stderr process_result))
  else ret (stdout process_result +:+ stderr process_result).

Definition artifact_patterns : list (string * list string) :=
  [ ("maven", ["target/*.jar"; "target/*.war"]);
    ("gradle", ["build/libs/*.jar"]);
    ("npm", ["dist/**/*"; "build/**/*"]);
    ("go", ["bin/*"]) ].

Definition _find_build_artifacts (build_tool : value) (project_path : string)
  : M (list string) :=
  key <- text_key build_tool ;;
  let patterns :=
    match key with
    | Some k =>
        match List.find (fun kv => String.eqb (fst kv) k) artifact_patterns with
        | Some kv => snd kv
        | None => []
        end
    | None => []
    end in
  ret (concat (map (fun pattern => path_glob env project_path pattern) patterns)).

Definition execute (params : Parameters) : M CommandResult :=
  build_tool <- getitem params "build_tool" ;;
  path_value <- getitem params "project_path" ;;
  project_path <- Path env path_value ;;
  (* Prepare build command *)
  build_command <- _prepare_build_command params ;;
  (* Execute build *)
  build_output <- _execute_build build_command project_path ;;
  (* Find build artifacts *)
  artifacts <- _find_build_artifacts build_tool project_path ;;
  shown <- format build_tool ;;
  ret {| success := true;
         message := "Build completed successfully using " +:+ shown;
         output_data :=
           Some [ ("build_tool", build_tool);
                  ("project_path", VStr project_path);
                  ("command_executed", build_command);
                  ("artifacts", VList (map (fun f => VStr f) artifacts));
                  ("build_output_lines",
                    VInt (Str.count Str.newline build_output + 1)) ];
         error_details := None |}.

Definition class : BaseCommand :=
  Build_BaseCommand validate_parameters execute.

End WithEnv.
End BuildCommand.

(** ** [commands/docker_command.py] *)

Module DockerCommand.
Section WithEnv.
Context `{PyFloat} (env : Env).

Definition VALID_OPERATIONS : list string := ["build"; "push"; "build-and-push"].

Definition validate_parameters (params : Parameters) : M unit :=
  _require_parameters params ["operation"; "image_name"] ;;;
  operation <- getitem params "operation" ;;
  (if negb (in_texts operation VALID_OPERATIONS) then
     shown <- format operation ;;
     raise (ValueError ("Invalid operation: " +:+ shown +:+ ". "
                        +:+ "Valid operations: " +:+ Str.join ", " VALID_OPERATIONS))
   else ret tt) ;;;
  (* Validate Dockerfile exists if building *)
  if in_texts operation ["build"; "build-and-push"] then
    dockerfile_path <-
      Path env (_get_parameter params "dockerfile_path" (VStr "./Dockerfile")) ;;
    if negb (path_exists env dockerfile_path) then
      raise (ValueError ("Dockerfile not found: " +:+ dockerfile_path))
    else ret tt
  else ret tt.

(** [except (subprocess.CalledProcessError, FileNotFoundError)] *)
Definition git_unavailable (e : exn) : bool :=
  String.eqb (exn_type e) "CalledProcessError"
  || String.eqb (exn_type e) "FileNotFoundError".

Definition _get_git_commit_sha : M (option string) :=
  try_except
    (result <- subprocess_run_check env ["git"; "rev-parse"; "HEAD"] None ;;
     ret (Some (Str.strip (stdout result))))
    (fun e => if git_unavailable e then ret None else raise e).

Definition _get_git_branch_name : M (option string) :=
  try_except
    (result <- subprocess_run_check env ["git"; "rev-parse"; "--abbrev-ref"; "HEAD"] None ;;
     ret (Some (Str.strip (stdout result))))
    (fun e => if git_unavailable e then ret None else raise e).

(* [a-zA-Z0-9._-] *)
Definition tag_char (a : ascii) : bool :=
  let n := nat_of_ascii a in
  ((97 <=? n) && (n <=? 122) || (65 <=? n) && (n <=? 90)
   || (48 <=? n) && (n <=? 57)
   || (n =? 46) || (n =? 95) || (n =? 45))%nat.

(** [if text:] on an optional text. *)
Definition nonempty (o : option string) : option string :=
  match o with
  | Some EmptyString => None
  | _ => o
  end.

Definition _generate_all_tags (params : Parameters) : M (list value) :=
  let tags := [] in
  (* Add explicitly specified tags *)
  let explicit_tags := _get_parameter params "tags" (VList [VStr "latest"]) in
  extension <- iterate explicit_tags ;;
  let tags := tags ++ extension in
  (* Auto-tag with commit SHA *)
  tags <-
    (if truthy (_get_parameter params "auto_tag_commit" (VBool false)) then
       commit_sha <- _get_git_commit_sha ;;
       match nonempty commit_sha with
       | Some sha => ret (tags ++ [VStr ("commit-" +:+ Str.take 8 sha)])
       | None => ret tags
       end
     else ret tags) ;;
  (* Auto-tag with branch name *)
  tags <-
    (if truthy (_get_parameter params "auto_tag_branch" (VBool false)) then
       branch_name <- _get_git_branch_name ;;
       match nonempty branch_name with
       | Some name =>
           (* Sanitize branch name for Docker tag *)
           let safe_branch := Re.sub_outside tag_char "-" name in
           ret (tags ++ [VStr ("branch-" +:+ safe_branch)])
       | None => ret tags
       end
     else ret tags) ;;
  (* Auto-tag with date *)
  if truthy (_get_parameter params "auto_tag_date" (VBool false)) then
    let date_tag := today env in
    ret (tags ++ [VStr date_tag])
  else ret tags.

Definition _build_image (params : Parameters) (image_name : value) (tags : list value)
  : M string :=
  let dockerfile_path := _get_parameter params "dockerfile_path" (VStr "Dockerfile") in
  let build_context := _get_parameter params "build_context" (VStr ".") in
  (* Start building command *)
  let command_parts := [VStr "docker"; VStr "build"] in
  (* Add tags *)
  command_parts <-
    for_each tags
      (fun parts tag =>
         name <- format image_name ;;
         shown <- format tag ;;
         ret (parts ++ [VStr "-t"; VStr (name +:+ ":" +:+ shown)]))
      command_parts ;;
  (* Add Dockerfile path *)
  let command_parts := command_parts ++ [VStr "-f"; dockerfile_path] in
  (* Add build args *)
  build_args <- items (_get_parameter params "build_args" (VDict [])) ;;
  command_parts <-
    for_each build_args
      (fun parts arg =>
         shown <- format (snd arg) ;;
         ret (parts ++ [VStr "--build-arg"; VStr (fst arg +:+ "=" +:+ shown)]))
      command_parts ;;
  (* Add target stage if specified *)
  let target_stage := _get_parameter params "target_stage" VNone in
  let command_parts :=
    if truthy target_stage then command_parts ++ [VStr "--target"; target_stage]
    else command_parts in
  (* Add no-cache flag *)
  let command_parts :=
    if truthy (_get_parameter params "no_cache" (VBool false))
    then command_parts ++ [VStr "--no-cache"]
    else command_parts in
  (* Add build context *)
  let command_parts := command_parts ++ [build_context] in
  (* Execute build *)
  args <- argv command_parts ;;
  process_result <-
    subprocess_run env {| inv_cmd := Argv args; inv_cwd := None; inv_input := None |} ;;
  if negb (returncode process_result =? 0) then
    raise (RuntimeError
             ("Docker build failed with exit code "
              +:+ Str.of_Z (returncode process_result)
              +:+ Str.newline +:+ "Error output:" +:+ Str.newline
              +:+ stderr process_result))
  else ret (stdout process_result +:+ stderr process_result).

(** [subprocess.run(args, input=v, capture_output=True, text=True)]: the
    process is started and a text is written to its standard input; the
    write of another value fails once the process is started. *)
Definition subprocess_run_input (args : list string) (input : value)
  : M CompletedProcess :=
  match input with
  | VStr text =>
      subprocess_run env {| inv_cmd := Argv args; inv_cwd := None;
                            inv_input := Some text |}
  | VNone =>
      subprocess_run env {| inv_cmd := Argv args; inv_cwd := None; inv_input := None |}
  | v =>
      subprocess_run env {| inv_cmd := Argv args; inv_cwd := None; inv_input := None |} ;;;
      raise (Exn "AttributeError"
                 ("'" +:+ type_name v +:+ "' object has no attribute 'encode'"))
  end.

Definition _authenticate_registry (params : Parameters) : M unit :=
  let registry_username := _get_parameter params "registry_username" VNone in
  let registry_password := _get_parameter params "registry_password" VNone in
  let registry_url := _get_parameter params "registry_url" VNone in
  if negb (truthy registry_username && truthy registry_password) then
    ret tt  (* No credentials provided, skip authentication *)
  else
    let command_parts :=
      [VStr "docker"; VStr "login"; VStr "-u"; registry_username;
       VStr "--password-stdin"] in
    let command_parts :=
      if truthy registry_url then command_parts ++ [registry_url] else command_parts in
    args <- argv command_parts ;;
    process_result <- subprocess_run_input args registry_password ;;
    if negb (returncode process_result =? 0) then
      raise (RuntimeError ("Registry authentication failed: "
                           +:+ stderr process_result))
    else ret tt.

(* sha256:([a-f0-9]{64}) *)
Definition image_id_here (s : string) : option string :=
  if Str.startswith "sha256:" s then
    option_map fst (Re.exactly Re.hex 64 (Str.drop 7 s))
  else None.

Definition _extract_image_id (build_output : string) : option string :=
  match Re.search_by image_id_here build_output with
  | Some id => Some (Str.take 12 id)  (* Return short ID *)
  | None => None
  end.

(* digest: (sha256:[a-f0-9]{64}) *)
Definition digest_here (s : string) : option string :=
  if Str.startswith "digest: sha256:" s then
    option_map (fun m => "sha256:" +:+ fst m) (Re.exactly Re.hex 64 (Str.drop 15 s))
  else None.

Definition _extract_digest (push_output : string) : option string :=
  Re.search_by digest_here push_output.

Definition _push_image (image_name : value) (tags : list value) : M (list value) :=
  for_each tags
    (fun push_results tag =>
       name <- format image_name ;;
       shown <- format tag ;;
       let full_image_name := name +:+ ":" +:+ shown in
       process_result <-
         subprocess_run env {| inv_cmd := Argv ["docker"; "push"; full_image_name];
                               inv_cwd := None;
                               inv_input := None |} ;;
       if negb (returncode process_result =? 0) then
         raise (RuntimeError ("Failed to push " +:+ full_image_name +:+ ": "
                              +:+ stderr process_result))
       else
         (* Extract digest from output *)
         let digest := _extract_digest (stdout process_result) in
         ret (push_results
              ++ [VDict [ ("tag", tag);
                          ("full_name", VStr full_image_name);
                          ("digest", optional_text digest);
                          ("success", VBool true) ]]))
    [].

Definition _get_image_size (image_name : value) (tag : value) : M (option string) :=
  try_except
    (name <- format image_name ;;
     shown <- format tag ;;
     result <-
       subprocess_run_check env
         ["docker"; "images"; name +:+ ":" +:+ shown; "--format"; "{{.Size}}"] None ;;
     ret (Some (Str.strip (stdout result))))
    (fun e =>
       if String.eqb (exn_type e) "CalledProcessError" then ret None else raise e).

Definition _generate_result_message (operation : value)
           (result_data : list (string * value)) : M string :=
  image_name <- dict_getitem result_data "image_name" ;;
  tags <- dict_getitem result_data "tags_applied" ;;
  name <- format image_name ;;
  joined <- join_value ", " tags ;;
  let message :=
    if eq_text operation "build" then
      "Successfully built image " +:+ name +:+ " with tags: " +:+ joined
    else if eq_text operation "push" then
      "Successfully pushed image " +:+ name +:+ " with tags: " +:+ joined
    else  (* build-and-push *)
      "Successfully built and pushed image " +:+ name +:+ " with tags: " +:+ joined in
  match dict_get result_data "image_size" with
  | Some size =>
      if truthy size then
        shown <- format size ;;
        ret (message +:+ " (Size: " +:+ shown +:+ ")")
      else ret message
  | None => ret message
  end.

(** [all_tags[0]] *)
Definition first_tag (all_tags : list value) : M value :=
  match all_tags with
  | tag :: _ => ret tag
  | [] => raise (Exn "IndexError" "list index out of range")
  end.

Definition execute (params : Parameters) : M CommandResult :=
  operation <- getitem params "operation" ;;
  image_name <- getitem params "image_name" ;;
  (* Generate all tags *)
  all_tags <- _generate_all_tags params ;;
  (* Build image if required *)
  build_data <-
    (if in_texts operation ["build"; "build-and-push"] then
       build_output <- _build_image params image_name all_tags ;;
       let image_id := _extract_image_id build_output in
       tag <- first_tag all_tags ;;
       image_size <- _get_image_size image_name tag ;;
       ret [ ("image_id", optional_text image_id);
             ("image_size", optional_text image_size) ]
     else ret []) ;;
  (* Push image if required *)
  push_data <-
    (if in_texts operation ["push"; "build-and-push"] then
       _authenticate_registry params ;;;
       push_results <- _push_image image_name all_tags ;;
       ret [ ("push_results", VList push_results) ]
     else ret []) ;;
  let result_data :=
    [ ("operation", operation);
      ("image_name", image_name);
      ("tags_applied", VList all_tags);
      ("build_completed", VBool (in_texts operation ["build"; "build-and-push"]));
      ("push_completed", VBool (in_texts operation ["push"; "build-and-push"])) ]
    ++ build_data ++ push_data in
  message <- _generate_result_message operation result_data ;;
  ret {| success := true;
         message := message;
         output_data := Some result_data;
         error_details := None |}.

Definition class : BaseCommand :=
  Build_BaseCommand validate_parameters execute.

End WithEnv.
End DockerCommand.

(** ** [commands/terraform_command.py] *)

Module TerraformCommand.
Section WithEnv.
Context `{PyFloat} `{!PyJson} (env : Env).

Definition VALID_OPERATIONS : list string :=
  ["init"; "plan"; "apply"; "destroy"; "validate"; "output"].

Definition validate_parameters (params : Parameters) : M unit :=
  _require_parameters params ["operation"; "working_dir"] ;;;
  operation <- getitem params "operation" ;;
  (if negb (in_texts operation VALID_OPERATIONS) then
     shown <- format operation ;;
     raise (ValueError ("Invalid operation: " +:+ shown +:+ ". "
                        +:+ "Valid operations: " +:+ Str.join ", " VALID_OPERATIONS))
   else ret tt) ;;;
  dir_value <- getitem params "working_dir" ;;
  working_dir <- Path env dir_value ;;
  (if negb (path_exists env working_dir) then
     raise (ValueError ("Working directory does not exist: " +:+ working_dir))
   else ret tt) ;;;
  (* Check for .tf files *)
  let tf_files := path_glob env working_dir "*.tf" in
  match tf_files with
  | [] =>
      if negb (eq_text operation "init") then
        raise (ValueError ("No Terraform files found in: " +:+ working_dir))
      else ret tt
  | _ => ret tt
  end.

Definition _run_terraform (cmd : list string) (working_dir : string) : M string :=
  result <-
    subprocess_run env {| inv_cmd := Argv cmd;
                          inv_cwd := Some working_dir;
                          inv_input := None |} ;;
  if negb (returncode result =? 0) then
    raise (RuntimeError
             ("Terraform command failed with exit code " +:+ Str.of_Z (returncode result)
              +:+ Str.newline +:+ "Command: " +:+ Str.join " " cmd
              +:+ Str.newline +:+ "Error:" +:+ Str.newline +:+ stderr result))
  else ret (stdout result +:+ stderr result).

(** The dict of planned changes. *)
Record PlanChanges : Type := { add : Z; change : Z; destroy : Z }.

(* Plan: (\d+) to add, (\d+) to change, (\d+) to destroy *)
Definition plan_summary : Re.pattern :=
  [ Re.Lit "Plan: "; Re.Group Re.digit; Re.Lit " to add, "; Re.Group Re.digit;
    Re.Lit " to change, "; Re.Group Re.digit; Re.Lit " to destroy" ].

Definition _parse_plan_changes (output : string) : outcome PlanChanges :=
  let changes := {| add := 0; change := 0; destroy := 0 |} in
  match Re.search plan_summary output with
  | Some g =>
      to_add <~ int (Re.group g 1) ;;
      to_change <~ int (Re.group g 2) ;;
      to_destroy <~ int (Re.group g 3) ;;
      Returned {| add := to_add; change := to_change; destroy := to_destroy |}
  | None => Returned changes
  end.

(** [result_data['has_changes']] in the plan branch of [execute]:
    [any(changes[k] > 0 for k in ['add', 'change', 'destroy'])]. *)
Definition has_changes (changes : PlanChanges) : bool :=
  existsb (fun k => 0 <? k changes) [add; change; destroy].

(** [_build_base_command]: the command line is a list that the flag
    functions extend; its parts are checked to be texts when it is run. *)
Definition _build_base_command : list value := [VStr "terraform"].

Definition _add_common_flags (params : Parameters) (cmd : list value)
  : M (list value) :=
  (* Target specific resources *)
  targets <- iterate (_get_parameter params "target" (VList [])) ;;
  let cmd := cmd ++ concat (map (fun target => [VStr "-target"; target]) targets) in
  (* Parallelism *)
  let parallelism := _get_parameter params "parallelism" VNone in
  cmd <-
    (if truthy parallelism then
       shown <- format parallelism ;;
       ret (cmd ++ [VStr "-parallelism"; VStr shown])
     else ret cmd) ;;
  (* Lock settings *)
  let lock := _get_parameter params "lock" (VBool true) in
  let cmd := if negb (truthy lock) then cmd ++ [VStr "-lock=false"] else cmd in
  let lock_timeout := _get_parameter params "lock_timeout" VNone in
  let cmd :=
    if truthy lock_timeout then cmd ++ [VStr "-lock-timeout"; lock_timeout] else cmd in
  ret cmd.

(** [self._run_terraform(cmd, working_dir)] for a command line under
    construction. *)
Definition run_command (cmd : list value) (working_dir : string) : M string :=
  args <- argv cmd ;;
  _run_terraform args working_dir.

Definition _add_var_flags (params : Parameters) (cmd : list value)
  : M (list value) :=
  (* Add var-file *)
  let var_file := _get_parameter params "var_file" VNone in
  let cmd := if truthy var_file then cmd ++ [VStr "-var-file"; var_file] else cmd in
  (* Add individual variables *)
  variables <- items (_get_parameter params "variables" (VDict [])) ;;
  for_each variables
    (fun cmd variable =>
       let var_name := fst variable in
       shown <-
         (match snd variable with
          | VList _ | VDict _ => lift (json_dumps (snd variable))
          | var_value => format var_value
          end) ;;
       ret (cmd ++ [VStr "-var"; VStr (var_name +:+ "=" +:+ shown)]))
    cmd.

Definition _execute_init (params : Parameters) (working_dir : string) : M string :=
  let cmd := _build_base_command in
  let cmd := cmd ++ [VStr "init"] in
  (* Backend config *)
  backend_config <- items (_get_parameter params "backend_config" (VDict [])) ;;
  cmd <-
    for_each backend_config
      (fun cmd entry =>
         shown <- format (snd entry) ;;
         ret (cmd ++ [VStr "-backend-config"; VStr (fst entry +:+ "=" +:+ shown)]))
      cmd ;;
  (* Reconfigure flag *)
  let cmd :=
    if truthy (_get_parameter params "reconfigure" (VBool false))
    then cmd ++ [VStr "-reconfigure"] else cmd in
  (* Upgrade flag *)
  let cmd :=
    if truthy (_get_parameter params "upgrade" (VBool false))
    then cmd ++ [VStr "-upgrade"] else cmd in
  (* No color for easier parsing *)
  let cmd := cmd ++ [VStr "-no-color"] in
  run_command cmd working_dir.

Definition _execute_validate (working_dir : string) : M string :=
  let cmd := _build_base_command in
  let cmd := cmd ++ [VStr "validate"; VStr "-no-color"] in
  run_command cmd working_dir.

Definition _execute_plan (params : Parameters) (working_dir : string) : M string :=
  let cmd := _build_base_command in
  let cmd := cmd ++ [VStr "plan"] in
  cmd <- _add_var_flags params cmd ;;
  cmd <- _add_common_flags params cmd ;;
  (* Output file for plan *)
  let plan_output := _get_parameter params "plan_output_file" VNone in
  let cmd := if truthy plan_output then cmd ++ [VStr "-out"; plan_output] else cmd in
  (* Destroy plan *)
  let cmd :=
    if truthy (_get_parameter params "destroy_plan" (VBool false))
    then cmd ++ [VStr "-destroy"] else cmd in
  let cmd := cmd ++ [VStr "-no-color"] in
  run_command cmd working_dir.

(** [Path(working_dir / plan_file).exists()]; the class named in the
    TypeError is that of a POSIX system. *)
Definition plan_file_exists (working_dir : string) (plan_file : value) : M bool :=
  match plan_file with
  | VStr s => ret (path_exists env (path_join env working_dir s))
  | _ => raise (TypeError ("unsupported operand type(s) for /: 'PosixPath' and '"
                           +:+ type_name plan_file +:+ "'"))
  end.

Definition _execute_apply (params : Parameters) (working_dir : string) : M string :=
  let cmd := _build_base_command in
  let cmd := cmd ++ [VStr "apply"] in
  (* Check if applying from plan file *)
  let plan_file := _get_parameter params "plan_output_file" VNone in
  from_plan <-
    (if truthy plan_file then plan_file_exists working_dir plan_file else ret false) ;;
  cmd <-
    (if from_plan then ret (cmd ++ [plan_file])
     else
       cmd <- _add_var_flags params cmd ;;
       _add_common_flags params cmd) ;;
  (* Auto approve *)
  let cmd :=
    if truthy (_get_parameter params "auto_approve" (VBool false))
    then cmd ++ [VStr "-auto-approve"] else cmd in
  let cmd := cmd ++ [VStr "-no-color"] in
  run_command cmd working_dir.

Definition _execute_destroy (params : Parameters) (working_dir : string) : M string :=
  let cmd := _build_base_command in
  let cmd := cmd ++ [VStr "destroy"] in
  cmd <- _add_var_flags params cmd ;;
  cmd <- _add_common_flags params cmd ;;
  (* Auto approve *)
  let cmd :=
    if truthy (_get_parameter params "auto_approve" (VBool false))
    then cmd ++ [VStr "-auto-approve"] else cmd in
  let cmd := cmd ++ [VStr "-no-color"] in
  run_command cmd working_dir.

Definition _execute_output (working_dir : string) : M value :=
  let cmd := _build_base_command in
  let cmd := cmd ++ [VStr "output"; VStr "-json"] in
  output <- run_command cmd working_dir ;;
  try_except (lift (json_loads output))
    (fun e =>
       if String.eqb (exn_type e) "JSONDecodeError" then ret (VDict []) else raise e).

Definition _select_workspace (workspace : value) (working_dir : string) : M unit :=
  (* Try to select existing workspace *)
  cmd <- argv [VStr "terraform"; VStr "workspace"; VStr "select"; workspace] ;;
  result <-
    subprocess_run env {| inv_cmd := Argv cmd;
                          inv_cwd := Some working_dir;
                          inv_input := None |} ;;
  (* If workspace doesn't exist, create it *)
  if negb (returncode result =? 0) then
    cmd <- argv [VStr "terraform"; VStr "workspace"; VStr "new"; workspace] ;;
    subprocess_run_check env cmd (Some working_dir) ;;;
    ret tt
  else ret tt.

(* - Installed ([^\s]+) v([\d.]+) *)
Definition installed_provider : Re.pattern :=
  [ Re.Lit "- Installed "; Re.Group Re.nonspace; Re.Lit " v";
    Re.Group Re.digit_or_dot ].

Definition _parse_providers (output : string) : list string :=
  map (fun g => Re.group g 1 +:+ "@" +:+ Re.group g 2)
      (Re.finditer installed_provider output).

(** The dict of applied changes. *)
Record ApplyResults : Type := { added : Z; changed : Z; destroyed : Z }.

(* (\d+) added, (\d+) changed, (\d+) destroyed *)
Definition apply_summary : Re.pattern :=
  [ Re.Group Re.digit; Re.Lit " added, "; Re.Group Re.digit; Re.Lit " changed, ";
    Re.Group Re.digit; Re.Lit " destroyed" ].

Definition _parse_apply_results (output : string) : outcome ApplyResults :=
  let results := {| added := 0; changed := 0; destroyed := 0 |} in
  match Re.search apply_summary output with
  | Some g =>
      n_added <~ int (Re.group g 1) ;;
      n_changed <~ int (Re.group g 2) ;;
      n_destroyed <~ int (Re.group g 3) ;;
      Returned {| added := n_added; changed := n_changed; destroyed := n_destroyed |}
  | None => Returned results
  end.

(* Destroy complete! Resources: (\d+) destroyed *)
Definition destroy_summary : Re.pattern :=
  [ Re.Lit "Destroy complete! Resources: "; Re.Group Re.digit; Re.Lit " destroyed" ].

Definition _count_destroyed (output : string) : outcome Z :=
  match Re.search destroy_summary output with
  | Some g => int (Re.group g 1)
  | None => Returned 0
  end.

Definition changes_value (changes : PlanChanges) : value :=
  VDict [ ("add", VInt (add changes));
          ("change", VInt (change changes));
          ("destroy", VInt (destroy changes)) ].

Definition resources_value (results : ApplyResults) : value :=
  VDict [ ("added", VInt (added results));
          ("changed", VInt (changed results));
          ("destroyed", VInt (destroyed results)) ].

Definition _generate_result_message (operation : value)
           (result_data : list (string * value)) : M string :=
  if eq_text operation "init" then
    let providers := default (VList []) (dict_get result_data "providers") in
    let msg := "Terraform initialized successfully" in
    if truthy providers then
      joined <- join_value ", " providers ;;
      ret (msg +:+ " with providers: " +:+ joined)
    else ret msg
  else if eq_text operation "validate" then
    ret "Terraform configuration is valid"
  else if eq_text operation "plan" then
    let changes := default (VDict []) (dict_get result_data "changes") in
    if truthy (default VNone (dict_get result_data "has_changes")) then
      to_add <- subscript changes "add" ;;
      shown_add <- format to_add ;;
      to_change <- subscript changes "change" ;;
      shown_change <- format to_change ;;
      to_destroy <- subscript changes "destroy" ;;
      shown_destroy <- format to_destroy ;;
      ret ("Plan: " +:+ shown_add +:+ " to add, " +:+ shown_change
           +:+ " to change, " +:+ shown_destroy +:+ " to destroy")
    else ret "No changes. Infrastructure is up-to-date"
  else if eq_text operation "apply" then
    let res := default (VDict []) (dict_get result_data "resources") in
    n_added <- value_get res "added" (VInt 0) ;;
    shown_added <- format n_added ;;
    n_changed <- value_get res "changed" (VInt 0) ;;
    shown_changed <- format n_changed ;;
    n_destroyed <- value_get res "destroyed" (VInt 0) ;;
    shown_destroyed <- format n_destroyed ;;
    ret ("Apply complete: " +:+ shown_added +:+ " added, " +:+ shown_changed
         +:+ " changed, " +:+ shown_destroyed +:+ " destroyed")
  else if eq_text operation "destroy" then
    let count := default (VInt 0) (dict_get result_data "resources_destroyed") in
    shown <- format count ;;
    ret ("Destroy complete: " +:+ shown +:+ " resources destroyed")
  else if eq_text operation "output" then
    let outputs := default (VDict []) (dict_get result_data "outputs") in
    n <- len outputs ;;
    ret ("Retrieved " +:+ Str.of_Z n +:+ " output values")
  else
    shown <- format operation ;;
    ret ("Operation " +:+ shown +:+ " completed successfully").

Definition execute (params : Parameters) : M CommandResult :=
  operation <- getitem params "operation" ;;
  dir_value <- getitem params "working_dir" ;;
  working_dir <- Path env dir_value ;;
  let result_data :=
    [ ("operation", operation);
      ("working_dir", VStr working_dir);
      ("workspace", _get_parameter params "workspace" (VStr "default")) ] in
  (* Select workspace if specified *)
  let workspace := _get_parameter params "workspace" VNone in
  result_data <-
    (if truthy workspace && negb (eq_text operation "init") then
       _select_workspace workspace working_dir ;;;
       ret (dict_set result_data "workspace" workspace)
     else ret result_data) ;;
  (* Execute operation *)
  result_data <-
    (if eq_text operation "init" then
       output <- _execute_init params working_dir ;;
       let result_data := dict_set result_data "initialized" (VBool true) in
       ret (dict_set result_data "providers"
                     (VList (map (fun provider => VStr provider)
                                 (_parse_providers output))))
     else if eq_text operation "validate" then
       output <- _execute_validate working_dir ;;
       ret (dict_set result_data "valid" (VBool true))
     else if eq_text operation "plan" then
       output <- _execute_plan params working_dir ;;
       changes <- lift (_parse_plan_changes output) ;;
       let result_data := dict_set result_data "changes" (changes_value changes) in
       ret (dict_set result_data "has_changes" (VBool (has_changes changes)))
     else if eq_text operation "apply" then
       output <- _execute_apply params working_dir ;;
       let result_data := dict_set result_data "applied" (VBool true) in
       resources <- lift (_parse_apply_results output) ;;
       ret (dict_set result_data "resources" (resources_value resources))
     else if eq_text operation "destroy" then
       output <- _execute_destroy params working_dir ;;
       let result_data := dict_set result_data "destroyed" (VBool true) in
       count <- lift (_count_destroyed output) ;;
       ret (dict_set result_data "resources_destroyed" (VInt count))
     else if eq_text operation "output" then
       outputs <- _execute_output working_dir ;;
       ret (dict_set result_data "outputs" outputs)
     else ret result_data) ;;
  message <- _generate_result_message operation result_data ;;
  ret {| success := true;
         message := message;
         output_data := Some result_data;
         error_details := None |}.

Definition class : BaseCommand :=
  Build_BaseCommand validate_parameters execute.

End WithEnv.
End TerraformCommand.

(** ** A platform to run the commands on

    Floats as exact decimals: enough to execute the definitions on
    concrete inputs.  A scripted environment answers every invocation with
    one prepared process result. *)

Module Platform.

Record decimal : Type := { mantissa : Z; scale : nat }.

Fixpoint split_dot (s : string) : string * option string :=
  match s with
  | EmptyString => (EmptyString, None)
  | String a r =>
      if Ascii.eqb a "."%char then (EmptyString, Some r)
      else let '(whole, rest) := split_dot r in (String a whole, rest)
  end.

Definition all_digits (s : string) : bool :=
  forallb Str.isdigit (list_ascii_of_string s).

Definition decimal_of_string (s : string) : option decimal :=
  let '(whole, rest) := split_dot s in
  let fraction := default EmptyString rest in
  if all_digits whole && all_digits fraction
     && negb (String.eqb (whole +:+ fraction) "")
  then Some {| mantissa := Str.int_of_digits (whole +:+ fraction);
               scale := String.length fraction |}
  else None.

Definition decimal_ge (x y : decimal) : bool :=
  mantissa y * 10 ^ Z.of_nat (scale x) <=? mantissa x * 10 ^ Z.of_nat (scale y).

Fixpoint fraction_digits (k : nat) (r : Z) : string :=
  match k with
  | O => EmptyString
  | S k' =>
      String (ascii_of_nat (Z.to_nat (48 + r / 10 ^ Z.of_nat k')))
             (fraction_digits k' (r mod 10 ^ Z.of_nat k'))
  end.

Fixpoint strip_zeros (s : string) : string :=
  match s with
  | EmptyString => EmptyString
  | String a r =>
      match strip_zeros r with
      | EmptyString => if Ascii.eqb a "0"%char then EmptyString else String a EmptyString
      | r' => String a r'
      end
  end.

Definition decimal_str (x : decimal) : string :=
  let unit := 10 ^ Z.of_nat (scale x) in
  let fraction := strip_zeros (fraction_digits (scale x) (mantissa x mod unit)) in
  Str.of_Z (mantissa x / unit) +:+ "."
  +:+ (if String.eqb fraction "" then "0" else fraction).

Definition decimal_floats : PyFloat := {|
  float := decimal;
  float_of_string := decimal_of_string;
  float_ge := decimal_ge;
  float_ge_int := fun x n => decimal_ge x {| mantissa := n; scale := 0 |};
  int_ge_float := fun n y => decimal_ge {| mantissa := n; scale := 0 |} y;
  float_bool := fun x => negb (mantissa x =? 0);
  float_str := decimal_str
|}.

(** Every path exists, nothing is globbed, and every process ends as [p]. *)
Definition scripted (p : CompletedProcess) : Env :=
  {| path_str := fun s => s;
     path_join := fun dir s => dir +:+ "/" +:+ s;
     path_exists := fun _ => true;
     path_glob := fun _ _ => [];
     spawn := fun _ _ => Returned p;
     today := "20240131" |}.

(** No process can be started: the tool is not installed. *)
Definition no_tools : Env :=
  {| path_str := fun s => s;
     path_join := fun dir s => dir +:+ "/" +:+ s;
     path_exists := fun _ => true;
     path_glob := fun _ _ => [];
     spawn := fun _ _ =>
       Raised (Exn "FileNotFoundError" "[Errno 2] No such file or directory: 'git'");
     today := "20240131" |}.

Definition params_of (l : list (string * @value decimal_floats))
  : @Parameters decimal_floats := list_to_map l.

(** The [json] module as far as the runs on this platform need it: they
    print and read no document other than the empty object and the empty
    array, and every other text or value is refused.  The theorems hold
    for every implementation of the class. *)
Definition small_json : @PyJson decimal_floats := {|
  json_dumps := fun v =>
    match v with
    | VList [] => Returned "[]"
    | VDict [] => Returned "{}"
    | _ => Raised (Exn "NotImplementedError" "json.dumps")
    end;
  json_loads := fun s =>
    if String.eqb (Str.strip s) "{}" then Returned (VDict [])
    else if String.eqb (Str.strip s) "[]" then Returned (VList [])
    else Raised (Exn "JSONDecodeError" "Expecting value: line 1 column 1 (char 0)")
|}.

End Platform.

(** ** The vocabulary of the properties *)

(** The four command classes and what their validation requires first. *)
Inductive command_class : Type := Build | Test | Docker | Terraform.

Definition required_parameters (c : command_class) : list string :=
  match c with
  | Build => ["build_tool"; "project_path"]
  | Test => ["test_framework"; "project_path"]
  | Docker => ["operation"; "image_name"]
  | Terraform => ["operation"; "working_dir"]
  end.

Definition validator `{PyFloat} (env : Env) (c : command_class) : Parameters -> M unit :=
  match c with
  | Build => BuildCommand.validate_parameters env
  | Test => TestCommand.validate_parameters env
  | Docker => DockerCommand.validate_parameters env
  | Terraform => TerraformCommand.validate_parameters env
  end.

(** A computation that spawns no process: it hands the log back as it
    received it, whether it returns or raises. *)
Definition spawns_nothing {A} (m : M A) : Prop := forall log, snd (m log) = log.

(** The failure envelope [run] builds from an exception. *)
Definition failure_envelope `{PyFloat} (error : exn) : CommandResult :=
  {| success := false;
     message := "Command execution failed: " +:+ exn_type error;
     output_data := None;
     error_details := Some (exn_str error) |}.

(** The exit-code policy in the words of the specification.  A command
    stops at the failure of a process of the kind [strict]: whenever such a
    process of its run exits non-zero, it is the last process of the run
    and the run returns the failure envelope of [error], the exception
    built from that process; the envelope carries no output data. *)
Definition stops_at_failure `{PyFloat} (env : Env) (strict : Invocation -> Prop)
           (error : Invocation -> CompletedProcess -> exn) (self : Command) : Prop :=
  forall log result log' before invocation rest process,
    run self log = (Returned result, log') ->
    log' = log ++ before ++ invocation :: rest ->
    strict invocation ->
    spawn env (log ++ before) invocation = Returned process ->
    returncode process <> 0 ->
    rest = [] /\ result = failure_envelope (error invocation process).

(** The same for a computation inside a command. *)
Definition fails_fast (env : Env) (strict : Invocation -> Prop)
           (error : Invocation -> CompletedProcess -> exn) {A} (m : M A) : Prop :=
  forall log,
    exists spawned,
      snd (m log) = log ++ spawned
      /\ forall before invocation rest process,
          spawned = before ++ invocation :: rest ->
          strict invocation ->
          spawn env (log ++ before) invocation = Returned process ->
          returncode process <> 0 ->
          rest = [] /\ fst (m log) = Raised (error invocation process).

(** A computation that spawns only processes of the kind [allowed]. *)
Definition spawns_only (allowed : Invocation -> Prop) {A} (m : M A) : Prop :=
  forall log,
    exists spawned, snd (m log) = log ++ spawned /\ Forall allowed spawned.

(** The subcommand of a program that an invocation runs, with its
    arguments. *)
Definition subcommand (program : string) (invocation : Invocation)
  : option (string * list string) :=
  match inv_cmd invocation with
  | Argv (first :: verb :: args) =>
      if String.eqb first program then Some (verb, args) else None
  | _ => None
  end.

(** The build: every process is strict, and the error holds the exit code
    and the captured standard error. *)
Definition build_error (invocation : Invocation) (process : CompletedProcess) : exn :=
  RuntimeError ("Build failed with exit code " +:+ Str.of_Z (returncode process)
                +:+ Str.newline +:+ "Error output:" +:+ Str.newline
                +:+ stderr process).

(** The container operations: [docker build] and [docker push] are
    strict, and so is a [docker login] that has been handed the password
    on its standard input. *)
Definition docker_strict (invocation : Invocation) : Prop :=
  exists verb args,
    subcommand "docker" invocation = Some (verb, args)
    /\ (In verb ["build"; "push"]
        \/ (verb = "login" /\ inv_input invocation <> None)).

Definition docker_error (invocation : Invocation) (process : CompletedProcess) : exn :=
  match subcommand "docker" invocation with
  | Some (verb, args) =>
      if String.eqb verb "build" then
        RuntimeError ("Docker build failed with exit code "
                      +:+ Str.of_Z (returncode process)
                      +:+ Str.newline +:+ "Error output:" +:+ Str.newline
                      +:+ stderr process)
      else if String.eqb verb "login" then
        RuntimeError ("Registry authentication failed: " +:+ stderr process)
      else
        RuntimeError ("Failed to push " +:+ hd EmptyString args +:+ ": "
                      +:+ stderr process)
  | None => RuntimeError EmptyString
  end.

(** Provisioning: the [terraform] process of one of the six operations is
    strict. *)
Definition terraform_strict (invocation : Invocation) : Prop :=
  exists verb args,
    subcommand "terraform" invocation = Some (verb, args)
    /\ In verb ["init"; "plan"; "apply"; "destroy"; "validate"; "output"].

Definition terraform_error (invocation : Invocation) (process : CompletedProcess)
  : exn :=
  match inv_cmd invocation with
  | Argv cmd =>
      RuntimeError ("Terraform command failed with exit code "
                    +:+ Str.of_Z (returncode process)
                    +:+ Str.newline +:+ "Command: " +:+ Str.join " " cmd
                    +:+ Str.newline +:+ "Error:" +:+ Str.newline +:+ stderr process)
  | _ => RuntimeError EmptyString
  end.

(** Two environments that differ at most in the exit codes of their
    processes. *)
Definition same_but_exit_codes (env env' : Env) : Prop :=
  (forall s, path_str env s = path_str env' s)
  /\ (forall dir s, path_join env dir s = path_join env' dir s)
  /\ (forall s, path_exists env s = path_exists env' s)
  /\ (forall dir pattern, path_glob env dir pattern = path_glob env' dir pattern)
  /\ today env = today env'
  /\ forall log invocation,
      match spawn env log invocation, spawn env' log invocation with
      | Returned process, Returned process' =>
          stdout process = stdout process' /\ stderr process = stderr process'
      | Raised e, Raised e' => e = e'
      | _, _ => False
      end.

(** The coverage rule in the words of the specification.  Coverage
    checking is disabled unless the parameter [coverage_enabled] is set.
    The check passes when no percentage was measured; otherwise it passes
    exactly when the measured percentage is at least the threshold, which
    is 80 unless the parameter [coverage_threshold] gives one. *)
Definition coverage_disabled `{PyFloat} (params : Parameters) : Prop :=
  truthy (_get_parameter params "coverage_enabled" (VBool false)) = false.

Definition coverage_passes `{PyFloat} (params : Parameters) (measured : option number)
  : Prop :=
  match measured with
  | None => True
  | Some percentage =>
      exists bound,
        as_number (_get_parameter params "coverage_threshold" (VInt 80)) = Some bound
        /\ number_ge percentage bound = true
  end.

(** What a match of a pattern is: [matches p s g rest] when a prefix of [s]
    is an instance of [p] with the groups [g], and [rest] is what follows. *)
Definition all_in (c : ascii -> bool) (s : string) : Prop :=
forallb c (list_ascii_of_string s) = true.

Inductive matches : Re.pattern -> string -> list string -> string -> Prop :=
| matches_nil s : matches [] s [] s
| matches_lit l p r g rest :
    matches p r g rest -> matches (Re.Lit l :: p) (l +:+ r) g rest
| matches_plus c p m r g rest :
    m <> EmptyString -> all_in c m ->
    matches p r g rest -> matches (Re.Plus c :: p) (m +:+ r) g rest
| matches_lazy c p m r g rest :
    all_in c m ->
    matches p r g rest -> matches (Re.LazyStar c :: p) (m +:+ r) g rest
| matches_group c p m r g rest :
    m <> EmptyString -> all_in c m ->
    matches p r g rest -> matches (Re.Group c :: p) (m +:+ r) (m :: g) rest.

(** A pattern none of whose items can consume the character [x]. *)
Definition avoids (x : ascii) (p : Re.pattern) : bool :=
forallb (fun i =>
           match i with
           | Re.Lit l => negb (existsb (Ascii.eqb x) (list_ascii_of_string l))
           | Re.Plus c | Re.LazyStar c | Re.Group c => negb (c x)
           end) p.

(** A decimal numeral. *)
Definition numeral (s : string) : Prop := s <> EmptyString /\ all_in Str.isdigit s.

(** The plan summary line of Terraform. *)
Definition plan_line (to_add to_change to_destroy : string) : string :=
"Plan: " +:+ to_add +:+ " to add, " +:+ to_change +:+ " to change, "
+:+ to_destroy +:+ " to destroy".


(** The process that pushes one tag of an image, and the entry the push
    records for it. *)
Definition push_invocation (image_name tag : string) : Invocation :=
{| inv_cmd := Argv ["docker"; "push"; image_name +:+ ":" +:+ tag];
   inv_cwd := None;
   inv_input := None |}.

Definition push_entry `{PyFloat} (image_name tag : string) (process : CompletedProcess)
  : value :=
VDict [ ("tag", VStr tag);
        ("full_name", VStr (image_name +:+ ":" +:+ tag));
        ("digest", optional_text (DockerCommand._extract_digest (stdout process)));
        ("success", VBool true) ].

(** The tags [tags] were pushed one after the other, starting from the log
    [log]: each by a process that exited zero, and each recorded by the
    entry of that process, in the order of the tags. *)
Fixpoint pushed `{PyFloat} (env : Env) (image_name : string) (log : list Invocation)
         (tags : list string) (entries : list value) : Prop :=
match tags, entries with
| [], [] => True
| tag :: tags', entry :: entries' =>
    (exists process,
        spawn env log (push_invocation image_name tag) = Returned process
        /\ returncode process = 0
        /\ entry = push_entry image_name tag process)
    /\ pushed env image_name (log ++ [push_invocation image_name tag]) tags' entries'
| _, _ => False
end.

(** An envelope is well formed when it is a success with output data and
    no error details, or a failure with error details and no output data. *)
Definition well_formed `{PyFloat} (result : CommandResult) : Prop :=
(success result = true /\ output_data result <> None /\ error_details result = None)
\/ (success result = false /\ output_data result = None /\ error_details result <> None).

(** The completion line of a destroy, and the summary of an apply. *)
Definition destroy_line (count : string) : string :=
"Destroy complete! Resources: " +:+ count +:+ " destroyed".

Definition has_destroy_line (text : string) : Prop :=
exists before n after, numeral n /\ text = before +:+ destroy_line n +:+ after.

Definition apply_line (n_added n_changed n_destroyed : string) : string :=
n_added +:+ " added, " +:+ n_changed +:+ " changed, " +:+ n_destroyed +:+ " destroyed".

(** The two processes tag generation may spawn. *)
Definition commit_query : Invocation :=
  {| inv_cmd := Argv ["git"; "rev-parse"; "HEAD"]; inv_cwd := None; inv_input := None |}.

Definition branch_query : Invocation :=
  {| inv_cmd := Argv ["git"; "rev-parse"; "--abbrev-ref"; "HEAD"];
     inv_cwd := None; inv_input := None |}.

(** The characters a Docker tag keeps: [A-Za-z0-9._-]. *)
Definition tag_alphabet : list ascii :=
  list_ascii_of_string
    "ABCDEFGHIJKLMNOPQRSTUVWXYZabcdefghijklmnopqrstuvwxyz0123456789._-".

(** A tag derived from a git query, in the words of the specification.
    When its flag is not set nothing is asked and there is no tag.
    Otherwise the query is spawned; its output, stripped of white space,
    gives one tag when the query exits zero and the text is not empty.  A
    query that exits non-zero or a git that cannot be found gives no tag and
    no error; another refusal to start it is raised. *)
Definition git_tag `{PyFloat} (env : Env) (flag : bool) (query : Invocation)
           (tag_of : string -> value) (log : list Invocation)
  : outcome (list value) * list Invocation :=
  if flag then
    (match spawn env log query with
     | Returned process =>
         if returncode process =? 0 then
           match Str.strip (stdout process) with
           | EmptyString => Returned []
           | text => Returned [tag_of text]
           end
         else Returned []
     | Raised e =>
         if DockerCommand.git_unavailable e then Returned [] else Raised e
     end, log ++ [query])
  else (Returned [], log).

(** A computation that cannot return: it raises on every log. *)
Definition never_returns {A} (m : M A) : Prop :=
forall log a log', m log <> (Returned a, log').

(** Concrete processes and parameter mappings for the runs below. *)
Module Fixtures.
Import Platform.
#[local] Existing Instance decimal_floats.

(** A run of pytest in which two tests fail. *)
Definition red_pytest : CompletedProcess :=
{| returncode := 1;
   stdout := "12 passed, 2 failed, 1 skipped" +:+ Str.newline
             +:+ "TOTAL      120     18    85%" +:+ Str.newline;
   stderr := EmptyString |}.

Definition pytest_params : Parameters :=
params_of [ ("test_framework", VStr "pytest");
            ("project_path", VStr ".");
            ("coverage_enabled", VBool true) ].

Definition pytest_invocation : Invocation :=
{| inv_cmd := Shell "pytest --cov --cov-report=term --cov-report=html";
   inv_cwd := Some ".";
   inv_input := None |}.

(** The envelope of that run. *)
Definition red_pytest_envelope : CommandResult :=
{| success := false;
   message := "Tests completed: 12/15 passed, 2 failed, 1 skipped | Coverage: 85%";
   output_data :=
     Some [ ("test_framework", VStr "pytest");
            ("project_path", VStr ".");
            ("command_executed",
              VStr "pytest --cov --cov-report=term --cov-report=html");
            ("test_results",
              VDict [ ("tests_total", VInt 15); ("tests_passed", VInt 12);
                      ("tests_failed", VInt 2); ("tests_skipped", VInt 1);
                      ("coverage_percentage", VInt 85);
                      ("duration_seconds", VNone) ]);
            ("coverage_check",
              VDict [ ("enabled", VBool true); ("passed", VBool true);
                      ("threshold", VInt 80); ("actual", VInt 85);
                      ("message", VStr "Coverage 85% meets threshold 80%") ]) ];
   error_details := None |}.

(** A Maven build that fails and reports on its standard output. *)
Definition failed_build : CompletedProcess :=
{| returncode := 1; stdout := "BUILD FAILURE"; stderr := EmptyString |}.

Definition maven_params : Parameters :=
params_of [ ("build_tool", VStr "maven"); ("project_path", VStr ".") ].

Definition on_branch : CompletedProcess :=
{| returncode := 0; stdout := "feature/My Fix!" +:+ Str.newline; stderr := EmptyString |}.

Definition branch_params : Parameters :=
params_of [ ("operation", VStr "build"); ("image_name", VStr "app");
            ("auto_tag_branch", VBool true) ].

Definition both_tags_params : Parameters :=
params_of [ ("operation", VStr "build"); ("image_name", VStr "app");
            ("auto_tag_commit", VBool true); ("auto_tag_branch", VBool true) ].


(** A Maven test run asked for coverage, fail-fast, parallelism and a
    pattern; a Maven build asked to skip its tests. *)
Definition maven_flags : Parameters :=
params_of [ ("test_framework", VStr "maven"); ("project_path", VStr ".");
            ("coverage_enabled", VBool true); ("fail_fast", VBool true);
            ("parallel_execution", VBool true); ("test_pattern", VStr "Fast*");
            ("test_arguments", VList [VStr "-q"; VInt 2]) ].

Definition maven_skip : Parameters :=
params_of [ ("build_tool", VStr "maven"); ("project_path", VStr ".");
            ("skip_tests", VBool true); ("build_arguments", VList [VStr "-q"]) ].

(** The sixty-four digits of an image id. *)
Definition sixty_four : string :=
"0123456789abcdef0123456789abcdef0123456789abcdef0123456789abcdef".

(** A docker build that succeeds, asked with an empty list of tags. *)
Definition built : CompletedProcess :=
{| returncode := 0;
   stdout := "writing image sha256:" +:+ sixty_four +:+ " done";
   stderr := EmptyString |}.

Definition untagged_params : Parameters :=
params_of [ ("operation", VStr "build"); ("image_name", VStr "app");
            ("tags", VList []) ].

Definition untagged_build : Invocation :=
{| inv_cmd := Argv ["docker"; "build"; "-f"; "Dockerfile"; "."];
   inv_cwd := None;
   inv_input := None |}.

(** A registry that refuses the login. *)
Definition denied : CompletedProcess :=
{| returncode := 1; stdout := EmptyString; stderr := "unauthorized" |}.

Definition push_params : Parameters :=
params_of [ ("operation", VStr "push"); ("image_name", VStr "app");
            ("registry_username", VStr "ci"); ("registry_password", VStr "s3cret") ].

Definition login_invocation : Invocation :=
{| inv_cmd := Argv ["docker"; "login"; "-u"; "ci"; "--password-stdin"];
   inv_cwd := None;
   inv_input := Some "s3cret" |}.

(** The red run of pytest, had it exited with code 0. *)
Definition green_pytest : CompletedProcess :=
{| returncode := 0; stdout := stdout red_pytest; stderr := stderr red_pytest |}.

(** A plan that fails. *)
Definition plan_params : Parameters :=
params_of [ ("operation", VStr "plan"); ("working_dir", VStr "infra") ].

Definition failed_plan : CompletedProcess :=
{| returncode := 1; stdout := "Planning failed."; stderr := "Error: no configuration" |}.

(** The output of an init that installed one provider. *)
Definition init_output : string :=
"Initializing provider plugins..." +:+ Str.newline
+:+ "- Installed hashicorp/aws v5.31.0 (signed by HashiCorp)" +:+ Str.newline.

End Fixtures.

(** * Properties *)

(** ** The monad *)

Section MonadFacts.
Context {A B : Type}.

Lemma bind_returned (m : M A) (k : A -> M B) log a log' :
  m log = (Returned a, log') -> bind m k log = k a log'.
Proof. intros E. unfold bind. now rewrite E. Qed.

Lemma bind_raised (m : M A) (k : A -> M B) log e log' :
  m log = (Raised e, log') -> bind m k log = (Raised e, log').
Proof. intros E. unfold bind. now rewrite E. Qed.

Lemma spawns_nothing_ret (a : A) : spawns_nothing (ret a).
Proof. intros log. reflexivity. Qed.

Lemma spawns_nothing_raise (e : exn) : spawns_nothing (@raise A e).
Proof. intros log. reflexivity. Qed.

Lemma spawns_nothing_bind (m : M A) (k : A -> M B) :
  spawns_nothing m -> (forall a, spawns_nothing (k a)) -> spawns_nothing (bind m k).
Proof.
  intros Hm Hk log. unfold bind.
  specialize (Hm log). destruct (m log) as [[a|e] log']; simpl in Hm; subst.
  - apply Hk.
  - reflexivity.
Qed.

Lemma spawns_nothing_result (m : M A) log o log' :
  spawns_nothing m -> m log = (o, log') -> log' = log.
Proof. intros Hm E. specialize (Hm log). now rewrite E in Hm. Qed.

End MonadFacts.

Create HintDb quiet discriminated.
#[export] Hint Resolve spawns_nothing_ret spawns_nothing_raise : quiet.

(** Splits a computation along its binds and branches. *)
Ltac quiet :=
  repeat first
    [ apply spawns_nothing_ret
    | apply spawns_nothing_raise
    | apply spawns_nothing_bind; [ | intros ? ]
    | solve [ auto with quiet ]
    | match goal with
      | |- spawns_nothing (if ?b then _ else _) => destruct b
      | |- spawns_nothing (match ?x with _ => _ end) => destruct x
      end ].

Section BaseFacts.
Context `{PyFloat}.

Lemma require_spawns_nothing params names :
  spawns_nothing (_require_parameters params names).
Proof. unfold _require_parameters. quiet. Qed.

Lemma getitem_spawns_nothing params name : spawns_nothing (getitem params name).
Proof. unfold getitem. quiet. Qed.

Lemma text_key_spawns_nothing v : spawns_nothing (text_key v).
Proof. unfold text_key. quiet. Qed.

Lemma table_contains_spawns_nothing table v : spawns_nothing (table_contains table v).
Proof. unfold table_contains. quiet. apply text_key_spawns_nothing. Qed.

Lemma table_getitem_spawns_nothing table v : spawns_nothing (table_getitem table v).
Proof. unfold table_getitem. quiet. Qed.

Lemma lift_spawns_nothing {A} (o : outcome A) : spawns_nothing (lift o).
Proof. intros log. reflexivity. Qed.

Lemma format_spawns_nothing v : spawns_nothing (format v).
Proof. apply lift_spawns_nothing. Qed.

Lemma contains_text_spawns_nothing text v : spawns_nothing (contains_text text v).
Proof. unfold contains_text. quiet. Qed.

Lemma iadd_text_spawns_nothing v text : spawns_nothing (iadd_text v text).
Proof. unfold iadd_text. quiet. Qed.

Lemma replace_text_spawns_nothing old new v : spawns_nothing (replace_text old new v).
Proof. unfold replace_text. quiet. Qed.

Lemma Path_spawns_nothing env v : spawns_nothing (Path env v).
Proof. unfold Path. quiet. Qed.

End BaseFacts.

#[export] Hint Resolve require_spawns_nothing getitem_spawns_nothing
  text_key_spawns_nothing table_contains_spawns_nothing table_getitem_spawns_nothing
  format_spawns_nothing contains_text_spawns_nothing iadd_text_spawns_nothing
  replace_text_spawns_nothing Path_spawns_nothing lift_spawns_nothing : quiet.

Section ValidationFacts.
Context `{PyFloat} (env : Env).

Lemma validator_spawns_nothing c params : spawns_nothing (validator env c params).
Proof.
  destruct c; unfold validator, BuildCommand.validate_parameters,
    TestCommand.validate_parameters, DockerCommand.validate_parameters,
    TerraformCommand.validate_parameters; quiet.
Qed.

End ValidationFacts.

(** ** Strings *)

Section StringFacts.

Lemma startswith_app (p r : string) : Str.startswith p (p +:+ r) = true.
Proof. induction p as [|a p IH]; simpl; [reflexivity|]. now rewrite Ascii.eqb_refl. Qed.

Lemma startswith_app_l (p s t : string) :
  Str.startswith p s = true -> Str.startswith p (s +:+ t) = true.
Proof.
  revert s. induction p as [|a p IH]; intros [|b s]; simpl; try easy.
  destruct (Ascii.eqb a b); [apply IH | easy].
Qed.

Lemma startswith_refl (p : string) : Str.startswith p p = true.
Proof. induction p as [|a p IH]; simpl; [reflexivity|]. now rewrite Ascii.eqb_refl. Qed.

Lemma contains_refl (k : string) : Str.contains k k = true.
Proof. destruct k; simpl; [reflexivity|]. now rewrite Ascii.eqb_refl, startswith_refl. Qed.

Lemma contains_self (k r : string) : Str.contains k (k +:+ r) = true.
Proof.
  destruct k as [|a k]; [destruct r; reflexivity|].
  change (Str.startswith (String a k) (String a k +:+ r)
          || Str.contains (String a k) (k +:+ r) = true).
  now rewrite startswith_app.
Qed.

Lemma contains_app_r (k s t : string) :
  Str.contains k t = true -> Str.contains k (s +:+ t) = true.
Proof.
  intros Ht. induction s as [|a s IH]; [exact Ht|].
  simpl. rewrite IH. apply orb_true_r.
Qed.

Lemma contains_app_l (k s t : string) :
  Str.contains k s = true -> Str.contains k (s +:+ t) = true.
Proof.
  induction s as [|a s IH]; simpl.
  - rewrite orb_false_r. intros Hs. destruct k; [|discriminate].
    destruct t; reflexivity.
  - intros Hs. apply orb_true_iff in Hs as [Hs|Hs].
    + pose proof (startswith_app_l k (String a s) t Hs) as Ht.
      change (String a s +:+ t) with (String a (s +:+ t)) in Ht. now rewrite Ht.
    + rewrite (IH Hs). apply orb_true_r.
Qed.

(** Every element of a joined list appears in the joined text. *)
Lemma contains_join (sep k : string) (l : list string) :
  In k l -> Str.contains k (Str.join sep l) = true.
Proof.
  induction l as [|x l IH]; [easy|].
  intros [->|Hin].
  - destruct l; simpl.
    + apply contains_refl.
    + apply contains_self.
  - destruct l as [|y l]; [easy|].
    change (Str.join sep (x :: y :: l))
      with (x +:+ sep +:+ Str.join sep (y :: l)).
    apply contains_app_r, contains_app_r, IH, Hin.
Qed.

End StringFacts.

(** ** Integers and their text *)

Section IntFacts.

Lemma all_in_cons c a s :
  all_in c (String a s) <-> c a = true /\ all_in c s.
Proof. unfold all_in. simpl. apply andb_true_iff. Qed.

Lemma length_append (s t : string) :
  String.length (s +:+ t) = (String.length s + String.length t)%nat.
Proof. induction s as [|a s IH]; [reflexivity|]. simpl. now rewrite <- IH. Qed.

Lemma int_returned s :
  (String.length s <= int_max_str_digits)%nat -> int s = Returned (Str.int_of_digits s).
Proof.
  intros Hs. unfold int.
  destruct (Nat.ltb_spec int_max_str_digits (String.length s)); [lia | reflexivity].
Qed.

Lemma int_inversion s n :
  int s = Returned n ->
  n = Str.int_of_digits s /\ (String.length s <= int_max_str_digits)%nat.
Proof.
  unfold int.
  destruct (Nat.ltb_spec int_max_str_digits (String.length s)); [discriminate|].
  now intros [= <-].
Qed.

Lemma int_raised s e :
  int s = Raised e ->
  exn_type e = "ValueError" /\ (int_max_str_digits < String.length s)%nat.
Proof.
  unfold int.
  destruct (Nat.ltb_spec int_max_str_digits (String.length s)); [|discriminate].
  now intros [= <-].
Qed.

Lemma int_too_long s :
  (int_max_str_digits < String.length s)%nat ->
  exists e, int s = Raised e /\ exn_type e = "ValueError".
Proof.
  intros Hs. destruct (int s) as [n|e] eqn:E.
  - apply int_inversion in E. lia.
  - exists e. split; [reflexivity|]. now apply int_raised in E.
Qed.

Lemma int_of_digits_range acc s :
  0 <= acc -> all_in Str.isdigit s ->
  let n := fold_left (fun acc a => 10 * acc + (Z.of_nat (nat_of_ascii a) - 48))
                     (list_ascii_of_string s) acc in
  0 <= n < (acc + 1) * 10 ^ Z.of_nat (String.length s).
Proof.
  revert acc. induction s as [|a s IH]; intros acc Hacc Hs;
    cbn [String.length list_ascii_of_string fold_left].
  - change (Z.of_nat 0) with 0. lia.
  - apply all_in_cons in Hs as [Ha Hs].
    unfold Str.isdigit in Ha. apply andb_true_iff in Ha as [Hlo Hhi].
    apply Nat.leb_le in Hlo, Hhi.
    specialize (IH (10 * acc + (Z.of_nat (nat_of_ascii a) - 48)) ltac:(lia) Hs).
    cbv zeta in IH. destruct IH as [IH0 IH1]. split; [exact IH0|].
    eapply Z.lt_le_trans; [exact IH1|].
    rewrite Nat2Z.inj_succ, Z.pow_succ_r by lia.
    assert (0 < 10 ^ Z.of_nat (String.length s)) by (apply Z.pow_pos_nonneg; lia).
    nia.
Qed.

(** The number a numeral denotes is not negative, and below the power of
    ten of its length. *)
Lemma int_numeral_range s :
  all_in Str.isdigit s ->
  0 <= Str.int_of_digits s < 10 ^ Z.of_nat (String.length s).
Proof.
  intros Hs. pose proof (int_of_digits_range 0 s ltac:(lia) Hs) as Hr.
  cbv zeta in Hr. unfold Str.int_of_digits. lia.
Qed.

Lemma int_str_bound_eq : int_str_bound = 10 ^ Z.of_nat int_max_str_digits.
Proof. vm_compute. reflexivity. Qed.

Lemma str_int_returned n :
  Z.abs n < int_str_bound -> str_int n = Returned (Str.of_Z n).
Proof. intros Hn. unfold str_int. apply Z.ltb_lt in Hn. now rewrite Hn. Qed.

(** A count that [int] has read can be printed. *)
Lemma int_below_bound s n :
  all_in Str.isdigit s -> int s = Returned n -> 0 <= n < int_str_bound.
Proof.
  intros Hs E. apply int_inversion in E as [-> Hl].
  pose proof (int_numeral_range s Hs) as [H0 H1]. split; [exact H0|].
  eapply Z.lt_le_trans; [exact H1|]. rewrite int_str_bound_eq.
  apply Z.pow_le_mono_r; lia.
Qed.

Lemma str_int_of_count s n :
  all_in Str.isdigit s -> int s = Returned n -> str_int n = Returned (Str.of_Z n).
Proof.
  intros Hs E. apply str_int_returned.
  pose proof (int_below_bound s n Hs E). lia.
Qed.

End IntFacts.

(** ** The base command *)

Section RunFacts.
Context `{PyFloat}.

Lemma init_raises cls params log e log' :
  validate_parameters cls params log = (Raised e, log') ->
  __init__ cls params log = (Raised e, log').
Proof. intros E. unfold __init__. simpl. now apply bind_raised. Qed.

Lemma init_returns cls params log log' :
  validate_parameters cls params log = (Returned tt, log') ->
  __init__ cls params log
  = (Returned {| cmd_class := cls; parameters := params |}, log').
Proof. intros E. unfold __init__. simpl. now rewrite (bind_returned _ _ _ _ _ E). Qed.

Lemma run_returned self log r log' :
  execute (cmd_class self) (parameters self) log = (Returned r, log') ->
  run self log = (Returned r, log').
Proof. intros E. unfold run, try_except, bind. now rewrite E. Qed.

Lemma run_raised self log e log' :
  execute (cmd_class self) (parameters self) log = (Raised e, log') ->
  run self log = (Returned (failure_envelope e), log').
Proof. intros E. unfold run, try_except, bind. now rewrite E. Qed.

(** C1 (as amended).  [run] catches every exception that [execute]
    raises, whatever the command class and the parameters: it returns the
    envelope with success false, the message made of the exception's type
    name and its text as the error details, and it never raises itself.
    Validation is not under that handler: an exception of
    [validate_parameters] leaves the constructor and reaches the caller,
    and [run] is then never called. *)
Theorem run_catches_what_execute_raises (cls : BaseCommand) (params : Parameters)
        (log : list Invocation) :
  let self := {| cmd_class := cls; parameters := params |} in
  (exists result log', run self log = (Returned result, log'))
  /\ match execute cls params log with
     | (Returned result, log') => run self log = (Returned result, log')
     | (Raised error, log') =>
         run self log
         = (Returned {| success := false;
                        message := "Command execution failed: " +:+ exn_type error;
                        output_data := None;
                        error_details := Some (exn_str error) |}, log')
     end
  /\ match validate_parameters cls params log with
     | (Returned _, log') => main cls params log = run self log'
     | (Raised error, log') => main cls params log = (Raised error, log')
     end.
Proof.
  intros self. split; [|split].
  - destruct (execute cls params log) as [[r|e] log'] eqn:E.
    + exists r, log'. now apply run_returned.
    + exists (failure_envelope e), log'. now apply run_raised.
  - destruct (execute cls params log) as [[r|e] log'] eqn:E.
    + now apply run_returned.
    + now apply (run_raised self).
  - destruct (validate_parameters cls params log) as [[[]|e] log'] eqn:E.
    + unfold main. now rewrite (bind_returned _ _ _ _ _ (init_returns _ _ _ _ E)).
    + unfold main. now apply bind_raised, init_raises.
Qed.

End RunFacts.

(** ** Required parameters *)

Section RequiredFacts.
Context `{PyFloat} (env : Env).

Lemma missing_parameters_spec params names k :
  In k (missing_parameters params names) <-> In k names /\ params !! k = None.
Proof.
  unfold missing_parameters. rewrite filter_In.
  split; intros [Hin Hk]; split; try assumption.
  - now apply bool_decide_eq_true in Hk.
  - now apply bool_decide_eq_true.
Qed.

Lemma require_raises params names log :
  missing_parameters params names <> [] ->
  _require_parameters params names log
  = (Raised (ValueError ("Missing required parameters: "
                         +:+ Str.join ", " (missing_parameters params names))), log).
Proof.
  intros Hm. unfold _require_parameters.
  destruct (missing_parameters params names); [congruence | reflexivity].
Qed.

Lemma validator_requires c params :
  exists rest,
    validator env c params
    = bind (_require_parameters params (required_parameters c)) rest.
Proof. destruct c; eexists; reflexivity. Qed.

(** C6.  When a parameter mapping lacks required keys, validation raises
    one ValueError whose text is the list of all the missing keys, in the
    order of the requirement and separated by commas: each missing key is
    in that list and in the text.  The constructor, and so the caller,
    gets that error; the log of spawned processes is as it was, and
    validation spawns no process on any parameter mapping. *)
Theorem missing_keys_reported_together (c : command_class)
        (exec : Parameters -> M CommandResult) (params : Parameters)
        (log : list Invocation) :
  missing_parameters params (required_parameters c) <> [] ->
  let missing := missing_parameters params (required_parameters c) in
  let error := ValueError ("Missing required parameters: " +:+ Str.join ", " missing) in
  validator env c params log = (Raised error, log)
  /\ main (Build_BaseCommand (validator env c) exec) params log = (Raised error, log)
  /\ (forall k, In k (required_parameters c) -> params !! k = None ->
                In k missing /\ Str.contains k (exn_str error) = true)
  /\ (forall params' log', snd (validator env c params' log') = log').
Proof.
  intros Hm missing error.
  assert (Hv : validator env c params log = (Raised error, log)).
  { destruct (validator_requires c params) as [rest ->].
    apply bind_raised, require_raises, Hm. }
  repeat split.
  - exact Hv.
  - unfold main. apply bind_raised, init_raises. exact Hv.
  - apply missing_parameters_spec. now split.
  - unfold error, ValueError, exn_str.
    apply contains_app_r, contains_join, missing_parameters_spec. now split.
  - intros params' log'. apply validator_spawns_nothing.
Qed.

End RequiredFacts.

(** ** Test results *)

Section ParserFacts.
Context `{PyFloat}.
Import TestCommand.

Lemma set_coverage_counts r c :
  tests_total (set_coverage r c) = tests_total r
  /\ tests_passed (set_coverage r c) = tests_passed r
  /\ tests_failed (set_coverage r c) = tests_failed r
  /\ tests_skipped (set_coverage r c) = tests_skipped r.
Proof. now destruct r. Qed.

(** C9.  The Go parser reports zero or one failed test.  When the output
    contains PASS anywhere, FAIL is not looked for: failed is 0 and passed
    is the count of the text tab-ok-tab in the output. *)
Theorem gotest_reports_at_most_one_failure (test_output : string) :
  exists r,
    _parse_test_results (VStr "gotest") test_output = Returned r
    /\ (tests_failed r = 0 \/ tests_failed r = 1)
    /\ (Str.contains "PASS" test_output = true ->
        tests_failed r = 0
        /\ tests_passed r = Str.count (Str.tab +:+ "ok" +:+ Str.tab) test_output).
Proof.
  unfold _parse_test_results.
  change (eq_text (VStr "gotest") "maven" || eq_text (VStr "gotest") "gradle")
    with false.
  change (eq_text (VStr "gotest") "pytest") with false.
  change (eq_text (VStr "gotest") "jest") with false.
  change (eq_text (VStr "gotest") "gotest") with true.
  cbv iota.
  destruct (Str.contains "PASS" test_output).
  - eexists. split; [reflexivity|]. simpl. auto.
  - destruct (Str.contains "FAIL" test_output);
      (eexists; split; [reflexivity|]); simpl; split; auto; discriminate.
Qed.

(** C10.  The Maven parser does not clamp: on the summary line
    [Tests run: 1, Failures: 2, Errors: 0, Skipped: 0] it returns
    passed = 1 - 2 - 0 - 0 = -1. *)
Theorem maven_passed_can_be_negative :
  exists test_output r,
    test_output = "Tests run: 1, Failures: 2, Errors: 0, Skipped: 0"
    /\ _parse_test_results (VStr "maven") test_output = Returned r
    /\ tests_passed r = -1
    /\ tests_passed r = tests_total r - tests_failed r - tests_skipped r.
Proof.
  eexists. eexists. split; [reflexivity|]. split; [reflexivity|].
  split; reflexivity.
Qed.

End ParserFacts.

(** ** Exit codes *)

Section ExitCodeFacts.
Context `{PyFloat} (env : Env).

Lemma bind_raise_inversion {A B} (m : M A) (k : A -> M B) log e log' :
  bind m k log = (Raised e, log') ->
  m log = (Raised e, log')
  \/ exists a l, m log = (Returned a, l) /\ k a l = (Raised e, log').
Proof.
  unfold bind. destruct (m log) as [[a|e0] l].
  - intros E. right. now exists a, l.
  - intros [= -> ->]. now left.
Qed.

Lemma getitem_returned (params : Parameters) name v log :
  params !! name = Some v -> getitem params name log = (Returned v, log).
Proof. intros E. unfold getitem. now rewrite E. Qed.

Lemma prepare_build_spawns_nothing params :
  spawns_nothing (BuildCommand._prepare_build_command params).
Proof. unfold BuildCommand._prepare_build_command. quiet. Qed.

Lemma prepare_test_spawns_nothing params :
  spawns_nothing (TestCommand._prepare_test_command params).
Proof. unfold TestCommand._prepare_test_command. quiet. Qed.

Lemma for_each_spawns_nothing {A B} (l : list A) (body : B -> A -> M B) acc :
  (forall b a, spawns_nothing (body b a)) -> spawns_nothing (for_each l body acc).
Proof.
  intros Hb. revert acc. induction l as [|x l IH]; intros acc; simpl.
  - apply spawns_nothing_ret.
  - apply spawns_nothing_bind; [apply Hb | intros b; apply IH].
Qed.

Lemma argv_spawns_nothing parts : spawns_nothing (argv parts).
Proof.
  induction parts as [|v parts IH]; simpl; [apply spawns_nothing_ret|].
  destruct v as [[| | | |s]| |]; try apply spawns_nothing_raise.
  apply spawns_nothing_bind; [exact IH | intros; apply spawns_nothing_ret].
Qed.

Lemma items_spawns_nothing v : spawns_nothing (items v).
Proof. unfold items. quiet. Qed.

(** A shell run: the value cannot be run and no process is spawned, or
    one process is. *)
Lemma shell_run_spec cmd cwd log :
  (exists e, subprocess_run_shell env cmd cwd log = (Raised e, log))
  \/ exists line,
      let invocation := {| inv_cmd := line; inv_cwd := Some cwd; inv_input := None |} in
      subprocess_run_shell env cmd cwd log
      = (spawn env log invocation, log ++ [invocation]).
Proof.
  destruct cmd as [[| | | |line]|l|d]; cbn [subprocess_run_shell];
    try (left; eexists; reflexivity).
  - right. now exists (Shell line).
  - destruct (argv l log) as [[args|e] l'] eqn:E.
    + assert (l' = log) as ->
        by (eapply (spawns_nothing_result (argv l) log); [apply argv_spawns_nothing | exact E]).
      right. exists (ShellArgv args). cbv zeta.
      now rewrite (bind_returned _ _ _ _ _ E).
    + assert (l' = log) as ->
        by (eapply (spawns_nothing_result (argv l) log); [apply argv_spawns_nothing | exact E]).
      left. exists e. now apply bind_raised.
  - right. now exists (ShellArgv (map fst d)).
Qed.

(** The build process: a non-zero exit raises, with the captured standard
    error in the text; exit zero returns the combined output. *)
Lemma execute_build_spec build_command project_path log :
  (exists e, BuildCommand._execute_build env build_command project_path log
             = (Raised e, log))
  \/ exists line,
      let invocation := {| inv_cmd := line;
                           inv_cwd := Some project_path;
                           inv_input := None |} in
      BuildCommand._execute_build env build_command project_path log
      = (match spawn env log invocation with
         | Returned process =>
             if returncode process =? 0
             then Returned (stdout process +:+ stderr process)
             else Raised (RuntimeError
                            ("Build failed with exit code "
                             +:+ Str.of_Z (returncode process)
                             +:+ Str.newline +:+ "Error output:" +:+ Str.newline
                             +:+ stderr process))
         | Raised e => Raised e
         end, log ++ [invocation]).
Proof.
  unfold BuildCommand._execute_build.
  destruct (shell_run_spec build_command project_path log) as [[e E]|[line E]].
  - left. exists e. now apply bind_raised.
  - right. exists line. cbv zeta in *. unfold bind. rewrite E.
    destruct (spawn env log _) as [process|e]; [|reflexivity].
    now destruct (returncode process =? 0).
Qed.

(** The test process: the return code is not read. *)
Lemma execute_tests_spec test_command project_path log :
  (exists e, TestCommand._execute_tests env test_command project_path log
             = (Raised e, log))
  \/ exists line,
      let invocation := {| inv_cmd := line;
                           inv_cwd := Some project_path;
                           inv_input := None |} in
      TestCommand._execute_tests env test_command project_path log
      = (match spawn env log invocation with
         | Returned process => Returned (stdout process +:+ stderr process)
         | Raised e => Raised e
         end, log ++ [invocation]).
Proof.
  unfold TestCommand._execute_tests.
  destruct (shell_run_spec test_command project_path log) as [[e E]|[line E]].
  - left. exists e. now apply bind_raised.
  - right. exists line. cbv zeta in *. unfold bind. rewrite E.
    now destruct (spawn env log _).
Qed.

Lemma run_terraform_spec cmd working_dir log :
  let invocation := {| inv_cmd := Argv cmd;
                       inv_cwd := Some working_dir;
                       inv_input := None |} in
  TerraformCommand._run_terraform env cmd working_dir log
  = (match spawn env log invocation with
     | Returned process =>
         if returncode process =? 0
         then Returned (stdout process +:+ stderr process)
         else Raised (RuntimeError
                        ("Terraform command failed with exit code "
                         +:+ Str.of_Z (returncode process)
                         +:+ Str.newline +:+ "Command: " +:+ Str.join " " cmd
                         +:+ Str.newline +:+ "Error:" +:+ Str.newline
                         +:+ stderr process))
     | Raised e => Raised e
     end, log ++ [invocation]).
Proof.
  intros invocation. unfold TerraformCommand._run_terraform, bind, subprocess_run.
  fold invocation. destruct (spawn env log invocation) as [process|e]; [|reflexivity].
  now destruct (returncode process =? 0).
Qed.

End ExitCodeFacts.

(** ** The verdict of a test run *)

Section VerdictFacts.
Context `{PyFloat} (env : Env).
Import TestCommand.

Lemma bind_inversion {A B} (m : M A) (k : A -> M B) log b log' :
  bind m k log = (Returned b, log') ->
  exists a l, m log = (Returned a, l) /\ k a l = (Returned b, log').
Proof.
  unfold bind. destruct (m log) as [[a|e] l]; [|discriminate].
  intros E. now exists a, l.
Qed.

Lemma lift_inversion {A} (o : outcome A) log a log' :
  lift o log = (Returned a, log') -> o = Returned a /\ log' = log.
Proof. unfold lift. now intros [= -> ->]. Qed.

Lemma getitem_inversion params name log v log' :
  getitem params name log = (Returned v, log') -> params !! name = Some v.
Proof.
  unfold getitem. destruct (params !! name); [|discriminate].
  now intros [= -> _].
Qed.

(** The check is skipped exactly when coverage is disabled. *)
Lemma check_absent_iff params test_results coverage_check :
  _check_coverage_threshold params test_results = Returned coverage_check ->
  coverage_check = None <-> coverage_disabled params.
Proof.
  unfold _check_coverage_threshold, coverage_disabled.
  destruct (truthy (_get_parameter params "coverage_enabled" (VBool false))).
  - simpl. destruct (coverage_percentage test_results).
    + destruct (as_number _); [|discriminate].
      destruct (number_str _); [|discriminate]. cbn [obind].
      destruct (number_str _); [|discriminate]. cbn [obind].
      intros [= <-]. split; discriminate.
    + intros [= <-]. split; discriminate.
  - simpl. intros [= <-]. split; reflexivity.
Qed.

(** A check that was made passes exactly by the coverage rule, and says
    so when there was nothing to measure. *)
Lemma check_passed_iff params test_results check :
  _check_coverage_threshold params test_results = Returned (Some check) ->
  (passed check = true <-> coverage_passes params (coverage_percentage test_results))
  /\ actual check = coverage_percentage test_results
  /\ threshold check = _get_parameter params "coverage_threshold" (VInt 80)
  /\ (coverage_percentage test_results = None ->
      check_message check = "Coverage data not available").
Proof.
  unfold _check_coverage_threshold, coverage_passes.
  destruct (truthy (_get_parameter params "coverage_enabled" (VBool false)));
    [|discriminate].
  simpl. destruct (coverage_percentage test_results) as [percentage|].
  - destruct (as_number _) as [bound|]; [|discriminate].
    destruct (number_str _); [|discriminate]. cbn [obind].
    destruct (number_str _); [|discriminate]. cbn [obind].
    intros [= <-]. simpl. repeat split; try discriminate.
    + intros Hp. now exists bound.
    + now intros [b [[= <-] Hb]].
  - intros [= <-]. simpl. repeat split; auto.
Qed.

(** C2.  In the envelope a test run returns, success is true exactly when
    the failed count parsed from the output of the process is 0 and coverage
    checking is disabled or the coverage check passes.  The check is made
    exactly when coverage is enabled; it passes when no percentage was
    parsed, with the message [Coverage data not available], and otherwise
    exactly when the measured percentage is at least the threshold: for an
    integer percentage n, exactly when 80 <= n if no threshold is
    configured, and when t <= n if the integer t is. *)
Theorem test_success_rule (params : Parameters) (log : list Invocation)
        (result : CommandResult) (log' : list Invocation) :
  execute env params log = (Returned result, log') ->
  exists test_framework process test_results coverage_check,
    params !! "test_framework" = Some test_framework
    /\ (exists invocation,
           spawn env log invocation = Returned process /\ log' = log ++ [invocation])
    /\ _parse_test_results test_framework (stdout process +:+ stderr process)
       = Returned test_results
    /\ _check_coverage_threshold params test_results = Returned coverage_check
    /\ (success result = true <->
        tests_failed test_results = 0
        /\ (coverage_disabled params
            \/ coverage_passes params (coverage_percentage test_results)))
    /\ (coverage_check = None <-> coverage_disabled params)
    /\ (forall check, coverage_check = Some check ->
          (passed check = true <->
           coverage_passes params (coverage_percentage test_results))
          /\ (coverage_percentage test_results = None ->
              passed check = true
              /\ check_message check = "Coverage data not available"))
    /\ (forall n, coverage_percentage test_results = Some (NInt n) ->
          (params !! "coverage_threshold" = None ->
           coverage_passes params (coverage_percentage test_results) <-> 80 <= n)
          /\ (forall t, params !! "coverage_threshold" = Some (VInt t) ->
              coverage_passes params (coverage_percentage test_results) <-> t <= n)).
Proof.
  unfold execute. intros E.
  apply bind_inversion in E as (test_framework & l1 & E1 & E).
  apply bind_inversion in E as (path_value & l2 & E2 & E).
  apply bind_inversion in E as (project_path & l3 & E3 & E).
  apply bind_inversion in E as (test_command & l4 & E4 & E).
  apply bind_inversion in E as (test_output & l5 & E5 & E).
  apply bind_inversion in E as (test_results & l6 & E6 & E).
  apply bind_inversion in E as (coverage_check & l7 & E7 & E).
  apply lift_inversion in E6 as [E6 ->]. apply lift_inversion in E7 as [E7 ->].
  assert (l1 = log) as -> by (eapply spawns_nothing_result; [|exact E1]; auto with quiet).
  assert (l2 = log) as -> by (eapply spawns_nothing_result; [|exact E2]; auto with quiet).
  assert (l3 = log) as -> by (eapply spawns_nothing_result; [|exact E3]; auto with quiet).
  assert (l4 = log) as ->
    by (eapply spawns_nothing_result; [|exact E4]; apply prepare_test_spawns_nothing).
  apply getitem_inversion in E1.
  apply bind_inversion in E as (message & l8 & Em & E).
  apply lift_inversion in Em as [Em ->].
  destruct (execute_tests_spec env test_command project_path log)
    as [[e Ee]|[line Ee]]; [congruence|].
  cbv zeta in Ee. rewrite Ee in E5.
  destruct (spawn env log _) as [process|] eqn:Es; [|discriminate].
  injection E5 as <- <-. injection E as <- <-.
  exists test_framework, process, test_results, coverage_check.
  pose proof (check_absent_iff _ _ _ E7) as Habsent.
  split; [exact E1|]. split; [eexists; split; [exact Es | reflexivity]|].
  split; [exact E6|]. split; [exact E7|].
  split; [|split; [exact Habsent|split]].
  - cbn [success]. unfold overall_success. rewrite andb_true_iff, Z.eqb_eq.
    split; intros [Hf Hc]; (split; [exact Hf|]).
    + destruct coverage_check as [check|].
      * right. now apply (check_passed_iff _ _ _ E7).
      * left. now apply Habsent.
    + destruct coverage_check as [check|]; [|reflexivity].
      destruct Hc as [Hd|Hc].
      * apply Habsent in Hd. discriminate.
      * now apply (check_passed_iff _ _ _ E7).
  - intros check ->.
    destruct (check_passed_iff _ _ _ E7) as (Hp & _ & _ & Hm).
    split; [exact Hp|]. intros Hnone. split; [|now apply Hm].
    apply Hp. rewrite Hnone. exact I.
  - intros n Hn. rewrite Hn. unfold coverage_passes, _get_parameter. split.
    + intros ->. simpl. split.
      * intros [bound [[= <-] Hb]]. now apply Z.leb_le.
      * intros Hle. exists (NInt 80). split; [reflexivity|]. now apply Z.leb_le.
    + intros t ->. simpl. split.
      * intros [bound [[= <-] Hb]]. now apply Z.leb_le.
      * intros Hle. exists (NInt t). split; [reflexivity|]. now apply Z.leb_le.
Qed.

(** Every envelope [execute] returns for a test run carries output data
    and no error details, whatever its success flag. *)
Lemma test_envelope_has_no_error_details params log result log' :
  execute env params log = (Returned result, log') ->
  error_details result = None /\ output_data result <> None.
Proof.
  unfold execute. intros E.
  repeat (apply bind_inversion in E as (? & ? & _ & E)).
  injection E as <- _. now split.
Qed.

End VerdictFacts.

Section DockerBuildFacts.
Context `{PyFloat} (env : Env).

(** Runs the quiet first stage of a computation: it raises, and the whole
    computation raises with the log unchanged, or it returns and the
    computation goes on from the same log. *)
Ltac quiet_stage prove_quiet :=
  match goal with
  | |- context [bind ?m ?k ?log] =>
      let E := fresh "E" in
      let l := fresh "l" in
      destruct (m log) as [[?|?] l] eqn:E;
      [ assert (l = log) by (eapply (spawns_nothing_result m log); [prove_quiet | exact E]);
        subst l; rewrite !(bind_returned m k log _ _ E)
      | assert (l = log) by (eapply (spawns_nothing_result m log); [prove_quiet | exact E]);
        subst l; left; eexists; apply bind_raised; exact E ]
  end.

(** The container build: either the command line cannot be assembled, and
    no process is spawned, or one process is spawned, whose non-zero exit
    raises with the captured standard error in the text. *)
Lemma build_image_spec params image_name tags log :
  (exists e, DockerCommand._build_image env params image_name tags log = (Raised e, log))
  \/ exists args,
      let invocation := {| inv_cmd := Argv args; inv_cwd := None; inv_input := None |} in
      DockerCommand._build_image env params image_name tags log
      = (match spawn env log invocation with
         | Returned process =>
             if returncode process =? 0
             then Returned (stdout process +:+ stderr process)
             else Raised (RuntimeError
                            ("Docker build failed with exit code "
                             +:+ Str.of_Z (returncode process)
                             +:+ Str.newline +:+ "Error output:" +:+ Str.newline
                             +:+ stderr process))
         | Raised e => Raised e
         end, log ++ [invocation]).
Proof.
  unfold DockerCommand._build_image.
  quiet_stage ltac:(apply for_each_spawns_nothing; intros; quiet).
  quiet_stage ltac:(apply items_spawns_nothing).
  quiet_stage ltac:(apply for_each_spawns_nothing; intros; quiet).
  quiet_stage ltac:(apply argv_spawns_nothing).
  right.
  match goal with E : argv _ _ = (Returned ?args, _) |- _ => exists args end.
  cbv zeta. unfold bind, subprocess_run.
  destruct (spawn env log _) as [process|e]; [|reflexivity].
  now destruct (returncode process =? 0).
Qed.

End DockerBuildFacts.



(** ** Matching *)

Section MatchFacts.

Lemma append_cons a (s t : string) : String a s +:+ t = String a (s +:+ t).
Proof. reflexivity. Qed.

Lemma append_nil_l (t : string) : EmptyString +:+ t = t.
Proof. reflexivity. Qed.

Lemma append_assoc (s t u : string) : (s +:+ t) +:+ u = s +:+ (t +:+ u).
Proof. induction s as [|a s IH]; [reflexivity|]. rewrite !append_cons. now rewrite IH. Qed.

Lemma startswith_split (l s : string) :
  Str.startswith l s = true -> s = l +:+ Str.drop (String.length l) s.
Proof.
  revert s. induction l as [|a l IH]; intros s Hs; [reflexivity|].
  destruct s as [|b s]; [discriminate|]. simpl in Hs.
  destruct (Ascii.eqb a b) eqn:E; [|discriminate].
  apply Ascii.eqb_eq in E as <-. simpl. rewrite append_cons. f_equal. now apply IH.
Qed.

Lemma greedy1_sound {A} c (k : string -> string -> option A) s x :
  Re.greedy1 c k s = Some x ->
  exists m r, s = m +:+ r /\ m <> EmptyString /\ all_in c m /\ k m r = Some x.
Proof.
  revert k. induction s as [|a s IH]; intros k; simpl; [discriminate|].
  destruct (c a) eqn:Ea; [|discriminate].
  destruct (Re.greedy1 c (fun m => k (String a m)) s) as [y|] eqn:Eg.
  - intros [= ->]. apply IH in Eg as (m & r & -> & _ & Hm & Hk).
    exists (String a m), r. repeat split; try easy.
    unfold all_in. simpl. now rewrite Ea.
  - intros Hk. exists (String a EmptyString), s. repeat split; try easy.
    unfold all_in. simpl. now rewrite Ea.
Qed.

Lemma lazy0_sound {A} c (k : string -> option A) s x :
  Re.lazy0 c k s = Some x ->
  exists m r, s = m +:+ r /\ all_in c m /\ k r = Some x.
Proof.
  induction s as [|a s IH]; simpl.
  - destruct (k EmptyString) eqn:Ek; [|discriminate].
    intros [= ->]. now exists EmptyString, EmptyString.
  - destruct (k (String a s)) eqn:Ek.
    + intros [= ->]. now exists EmptyString, (String a s).
    + destruct (c a) eqn:Ea; [|discriminate].
      intros Hl. apply IH in Hl as (m & r & -> & Hm & Hk).
      exists (String a m), r. repeat split; try easy.
      unfold all_in. simpl. now rewrite Ea.
Qed.

(** What the matcher finds is a match. *)
Lemma match_here_sound p s g :
  Re.match_here p s = Some g -> exists rest, matches p s g rest.
Proof.
  revert s g. induction p as [|i p IH]; intros s g; simpl.
  - intros [= <-]. exists s. constructor.
  - destruct i as [l|c|c|c].
    + destruct (Str.startswith l s) eqn:El; [|discriminate].
      intros Hm. apply IH in Hm as [rest Hm]. exists rest.
      rewrite (startswith_split _ _ El). now constructor.
    + intros Hm. apply greedy1_sound in Hm as (m & r & -> & Hne & Hc & Hm).
      apply IH in Hm as [rest Hm]. exists rest. now constructor.
    + intros Hm. apply lazy0_sound in Hm as (m & r & -> & Hc & Hm).
      apply IH in Hm as [rest Hm]. exists rest. now constructor.
    + intros Hm. apply greedy1_sound in Hm as (m & r & -> & Hne & Hc & Hm).
      destruct (Re.match_here p r) as [g'|] eqn:Eg; [|discriminate].
      injection Hm as <-. apply IH in Eg as [rest Hm]. exists rest. now constructor.
Qed.

(** What the search finds is a match somewhere in the text. *)
Lemma search_sound p s g :
  Re.search p s = Some g ->
  exists before found, s = before +:+ found /\ Re.match_here p found = Some g.
Proof.
  induction s as [|a s IH].
  - cbn [Re.search]. destruct (Re.match_here p EmptyString) eqn:E; [|discriminate].
    intros [= ->]. now exists EmptyString, EmptyString.
  - cbn [Re.search]. destruct (Re.match_here p (String a s)) eqn:E.
    + intros [= ->]. now exists EmptyString, (String a s).
    + intros Hs. apply IH in Hs as (before & found & -> & Hm).
      now exists (String a before), found.
Qed.

(** What a pattern captures is part of the text it was found in. *)
Lemma matches_group_length p s g rest :
  matches p s g rest ->
  Forall (fun m => (String.length m <= String.length s)%nat) g.
Proof.
  induction 1 as [s|l p r g rest _ IH|c p m r g rest _ _ _ IH
                  |c p m r g rest _ _ IH|c p m r g rest _ _ _ IH].
  - constructor.
  - eapply Forall_impl; [exact IH|]. cbv beta. intros x Hx.
    rewrite length_append. lia.
  - eapply Forall_impl; [exact IH|]. cbv beta. intros x Hx.
    rewrite length_append. lia.
  - eapply Forall_impl; [exact IH|]. cbv beta. intros x Hx.
    rewrite length_append. lia.
  - constructor; [rewrite length_append; lia|].
    eapply Forall_impl; [exact IH|]. cbv beta. intros x Hx.
    rewrite length_append. lia.
Qed.

Lemma search_group_length p s g i :
  Re.search p s = Some g ->
  (String.length (Re.group g i) <= String.length s)%nat.
Proof.
  intros Hs. apply search_sound in Hs as (before & found & -> & Hm).
  apply match_here_sound in Hm as [rest Hm]. apply matches_group_length in Hm.
  rewrite length_append. unfold Re.group.
  destruct (Nat.lt_ge_cases (i - 1) (length g)) as [Hi|Hi].
  - rewrite List.Forall_forall in Hm.
    specialize (Hm (nth (i - 1) g EmptyString) (nth_In _ _ Hi)). lia.
  - rewrite (nth_overflow _ _ Hi). simpl. lia.
Qed.

End MatchFacts.

Section AvoidFacts.

Lemma startswith_avoid l u x t :
  existsb (Ascii.eqb x) (list_ascii_of_string l) = false ->
  Str.startswith l (u +:+ String x t) = Str.startswith l u.
Proof.
  revert u. induction l as [|a l IH]; intros u Hx; [reflexivity|].
  simpl in Hx. apply orb_false_iff in Hx as [Ha Hl].
  destruct u as [|b u].
  - rewrite append_nil_l. simpl. rewrite Ascii.eqb_sym in Ha. now rewrite Ha.
  - rewrite append_cons. simpl. destruct (Ascii.eqb a b); [now apply IH | reflexivity].
Qed.

Lemma drop_append l u v :
  Str.startswith l u = true ->
  Str.drop (String.length l) (u +:+ v) = Str.drop (String.length l) u +:+ v.
Proof.
  revert u. induction l as [|a l IH]; intros u Hu; [reflexivity|].
  destruct u as [|b u]; [discriminate|]. simpl in Hu.
  destruct (Ascii.eqb a b); [|discriminate].
  rewrite append_cons. simpl. now apply IH.
Qed.

Lemma greedy1_avoid {A} c (k k' : string -> string -> option A) u x t :
  c x = false ->
  (forall m v, k m (v +:+ String x t) = k' m v) ->
  Re.greedy1 c k (u +:+ String x t) = Re.greedy1 c k' u.
Proof.
  intros Hx. revert k k'. induction u as [|a u IH]; intros k k' Hk.
  - rewrite append_nil_l. simpl. now rewrite Hx.
  - rewrite append_cons. simpl. destruct (c a); [|reflexivity].
    rewrite (IH (fun m => k (String a m)) (fun m => k' (String a m)))
      by (intros; apply Hk).
    destruct (Re.greedy1 c (fun m => k' (String a m)) u); [reflexivity|].
    apply (Hk _ u).
Qed.

Lemma lazy0_avoid {A} c (k k' : string -> option A) u x t :
  c x = false ->
  (forall v, k (v +:+ String x t) = k' v) ->
  Re.lazy0 c k (u +:+ String x t) = Re.lazy0 c k' u.
Proof.
  intros Hx Hk. induction u as [|a u IH].
  - rewrite append_nil_l. simpl. rewrite Hx.
    rewrite <- (Hk EmptyString), append_nil_l. now destruct (k (String x t)).
  - rewrite append_cons. simpl.
    rewrite <- (Hk (String a u)), append_cons.
    destruct (k (String a (u +:+ String x t))); [reflexivity|].
    destruct (c a); [exact IH | reflexivity].
Qed.

(** A pattern that avoids [x] matches within the text before an [x], or
    not at all: what follows the [x] has no part in it. *)
Lemma match_here_avoid p u x t :
  avoids x p = true ->
  Re.match_here p (u +:+ String x t) = Re.match_here p u.
Proof.
  revert u. induction p as [|i p IH]; intros u Hp; [reflexivity|].
  simpl in Hp. apply andb_true_iff in Hp as [Hi Hp].
  destruct i as [l|c|c|c]; simpl; apply negb_true_iff in Hi.
  - rewrite (startswith_avoid _ _ _ _ Hi).
    destruct (Str.startswith l u) eqn:El; [|reflexivity].
    rewrite (drop_append _ _ _ El). now apply IH.
  - apply greedy1_avoid; [exact Hi|]. intros _ v. now apply IH.
  - apply lazy0_avoid; [exact Hi|]. intros v. now apply IH.
  - apply greedy1_avoid; [exact Hi|]. intros m v. now rewrite IH.
Qed.

(** The longest run is tried first: when it is followed by a character
    outside the class and the rest of the pattern accepts it, it is taken. *)
Lemma greedy1_longest {A} c (k : string -> string -> option A) m x t y :
  m <> EmptyString -> all_in c m -> c x = false ->
  k m (String x t) = Some y ->
  Re.greedy1 c k (m +:+ String x t) = Some y.
Proof.
  revert k. induction m as [|a m IH]; intros k Hne Hm Hx Hk; [easy|].
  unfold all_in in Hm. simpl in Hm. apply andb_true_iff in Hm as [Ha Hm].
  rewrite append_cons. simpl. rewrite Ha.
  destruct m as [|b m].
  - rewrite append_nil_l. simpl. rewrite Hx. exact Hk.
  - rewrite (IH (fun m' => k (String a m'))); try easy.
Qed.

End AvoidFacts.

(** ** The plan summary *)

Section PlanFacts.
Import TerraformCommand.

Lemma drop_length_append l s : Str.drop (String.length l) (l +:+ s) = s.
Proof. induction l as [|a l IH]; [reflexivity|]. rewrite append_cons. exact IH. Qed.

Lemma match_lit l p s :
  Re.match_here (Re.Lit l :: p) (l +:+ s) = Re.match_here p s.
Proof. cbn [Re.match_here]. now rewrite startswith_app, drop_length_append. Qed.

Lemma match_lit_cons x l p a w :
  Re.match_here (Re.Lit (String x l) :: p) (String a w)
  = if Ascii.eqb x a then Re.match_here (Re.Lit l :: p) w else None.
Proof.
  cbn [Re.match_here].
  change (Str.startswith (String x l) (String a w))
    with (if Ascii.eqb x a then Str.startswith l w else false).
  now destruct (Ascii.eqb x a).
Qed.

Lemma match_group_numeral p m x t g :
  numeral m -> Re.digit x = false ->
  Re.match_here p (String x t) = Some g ->
  Re.match_here (Re.Group Re.digit :: p) (m +:+ String x t) = Some (m :: g).
Proof.
  intros [Hne Hm] Hx Hp. cbn [Re.match_here].
  apply greedy1_longest; try assumption. now rewrite Hp.
Qed.


(** A match of the pattern is a plan line. *)
Lemma plan_match_is_line s g rest :
  matches plan_summary s g rest ->
  exists a c d, numeral a /\ numeral c /\ numeral d
                /\ g = [a; c; d] /\ s = plan_line a c d +:+ rest.
Proof.
  unfold plan_summary. intros Hm.
  repeat match goal with
         | Hm : matches (_ :: _) _ _ _ |- _ => inversion Hm; subst; clear Hm
         | Hm : matches [] _ _ _ |- _ => inversion Hm; subst; clear Hm
         end.
  exists m, m0, m1. unfold numeral, plan_line. rewrite !append_assoc. easy.
Qed.






Lemma search_finds_earlier_or_here p before found g :
  Re.match_here p found = Some g ->
  exists g', Re.search p (before +:+ found) = Some g'.
Proof.
  intros Hm. induction before as [|a before IH].
  - rewrite append_nil_l. exists g.
    destruct found; cbn [Re.search]; now rewrite Hm.
  - rewrite append_cons. cbn [Re.search].
    destruct (Re.match_here p (String a (before +:+ found))) as [g'|].
    + now exists g'.
    + exact IH.
Qed.




End PlanFacts.

(** ** Tags derived from the branch *)

Section TagFacts.
Context `{PyFloat} (env : Env).
Import DockerCommand.

Lemma sub_outside_cons keep a s :
  Re.sub_outside keep "-" (String a s)
  = String (if keep a then a else "-"%char) (Re.sub_outside keep "-" s).
Proof. cbn [Re.sub_outside]. now destruct (keep a). Qed.

Lemma sub_outside_length keep s :
  String.length (Re.sub_outside keep "-" s) = String.length s.
Proof.
  induction s as [|a s IH]; [reflexivity|].
  rewrite sub_outside_cons. simpl. now rewrite IH.
Qed.

Lemma sub_outside_get keep s i a :
  String.get i s = Some a ->
  String.get i (Re.sub_outside keep "-" s) = Some (if keep a then a else "-"%char).
Proof.
  revert i. induction s as [|b s IH]; intros i; [discriminate|].
  rewrite sub_outside_cons. destruct i as [|i]; simpl.
  - now intros [= ->].
  - apply IH.
Qed.

(** The branch query: the name, or None when git fails or is not there. *)
Lemma get_git_branch_name_spec log :
  let invocation := {| inv_cmd := Argv ["git"; "rev-parse"; "--abbrev-ref"; "HEAD"];
                       inv_cwd := None;
                       inv_input := None |} in
  _get_git_branch_name env log
  = (match spawn env log invocation with
     | Returned process =>
         if returncode process =? 0
         then Returned (Some (Str.strip (stdout process)))
         else Returned None
     | Raised e => if git_unavailable e then Returned None else Raised e
     end, log ++ [invocation]).
Proof.
  intros invocation.
  unfold _get_git_branch_name, try_except, subprocess_run_check, bind, subprocess_run.
  fold invocation. destruct (spawn env log invocation) as [process|e].
  - now destruct (returncode process =? 0).
  - now destruct (git_unavailable e).
Qed.

Lemma get_git_commit_sha_spec log :
  _get_git_commit_sha env log
  = (match spawn env log commit_query with
     | Returned process =>
         if returncode process =? 0
         then Returned (Some (Str.strip (stdout process)))
         else Returned None
     | Raised e => if git_unavailable e then Returned None else Raised e
     end, log ++ [commit_query]).
Proof.
  unfold _get_git_commit_sha, try_except, subprocess_run_check, bind, subprocess_run.
  fold commit_query. destruct (spawn env log commit_query) as [process|e].
  - now destruct (returncode process =? 0).
  - now destruct (git_unavailable e).
Qed.

Lemma tag_char_alphabet a : tag_char a = existsb (Ascii.eqb a) tag_alphabet.
Proof. destruct a as [[] [] [] [] [] [] [] []]; vm_compute; reflexivity. Qed.

Lemma tag_char_iff a : tag_char a = true <-> In a tag_alphabet.
Proof.
  rewrite tag_char_alphabet, existsb_exists. split.
  - intros (b & Hin & Hb). now apply Ascii.eqb_eq in Hb as ->.
  - intros Hin. exists a. split; [exact Hin | apply Ascii.eqb_refl].
Qed.

(** One stage of tag generation is one derived git tag. *)
Lemma git_tag_stage_spec (flag : bool) (asked : M (option string)) (query : Invocation)
      (tag_of : string -> value) (tags : list value) log :
  (forall log,
      asked log
      = (match spawn env log query with
         | Returned process =>
             if returncode process =? 0
             then Returned (Some (Str.strip (stdout process)))
             else Returned None
         | Raised e => if git_unavailable e then Returned None else Raised e
         end, log ++ [query])) ->
  (if flag then
     found <- asked ;;
     match nonempty found with
     | Some text => ret (tags ++ [tag_of text])
     | None => ret tags
     end
   else ret tags) log
  = (match fst (git_tag env flag query tag_of log) with
     | Returned derived => Returned (tags ++ derived)
     | Raised e => Raised e
     end, snd (git_tag env flag query tag_of log)).
Proof.
  intros Hasked. unfold git_tag. destruct flag; cbn [fst snd].
  - unfold bind. rewrite Hasked.
    destruct (spawn env log query) as [process|e].
    + destruct (returncode process =? 0).
      * destruct (Str.strip (stdout process)); cbn [nonempty]; unfold ret;
          rewrite ?app_nil_r; reflexivity.
      * cbn [nonempty]. unfold ret. now rewrite app_nil_r.
    + destruct (git_unavailable e); [|reflexivity].
      cbn [nonempty]. unfold ret. now rewrite app_nil_r.
  - unfold ret. now rewrite app_nil_r.
Qed.

(** C8.  Sanitizing keeps the length of the branch name, leaves each
    character of [A-Za-z0-9._-] as it is and puts a hyphen for every other
    one; the branch [feature/My Fix!] becomes [feature-My-Fix-].  Whatever
    the flags, the tags are the explicit ones, then the commit tag, then
    the branch tag, which is [branch-] followed by the sanitized name, then
    the date tag.  When git exits non-zero, cannot be found, or prints no
    name, the branch tag is left out and the tags are returned all the
    same. *)
Theorem branch_tag_is_sanitized :
  (forall name,
      String.length (Re.sub_outside tag_char "-" name) = String.length name
      /\ forall i a,
          String.get i name = Some a ->
          (In a tag_alphabet ->
           String.get i (Re.sub_outside tag_char "-" name) = Some a)
          /\ (~ In a tag_alphabet ->
              String.get i (Re.sub_outside tag_char "-" name) = Some "-"%char))
  /\ Re.sub_outside tag_char "-" "feature/My Fix!" = "feature-My-Fix-"
  /\ (forall params log explicit,
      iterate (_get_parameter params "tags" (VList [VStr "latest"])) log
      = (Returned explicit, log) ->
      let flag name := truthy (_get_parameter params name (VBool false)) in
      let commit :=
        git_tag env (flag "auto_tag_commit") commit_query
                (fun sha => VStr ("commit-" +:+ Str.take 8 sha)) log in
      let branch :=
        git_tag env (flag "auto_tag_branch") branch_query
                (fun name => VStr ("branch-" +:+ Re.sub_outside tag_char "-" name))
                (snd commit) in
      let date_tags := if flag "auto_tag_date" then [VStr (today env)] else [] in
      _generate_all_tags env params log
      = match fst commit with
        | Raised e => (Raised e, snd commit)
        | Returned commit_tags =>
            match fst branch with
            | Raised e => (Raised e, snd branch)
            | Returned branch_tags =>
                (Returned (explicit ++ commit_tags ++ branch_tags ++ date_tags),
                 snd branch)
            end
        end)
  /\ (forall params log explicit commit_tags,
      iterate (_get_parameter params "tags" (VList [VStr "latest"])) log
      = (Returned explicit, log) ->
      let flag name := truthy (_get_parameter params name (VBool false)) in
      let commit :=
        git_tag env (flag "auto_tag_commit") commit_query
                (fun sha => VStr ("commit-" +:+ Str.take 8 sha)) log in
      let date_tags := if flag "auto_tag_date" then [VStr (today env)] else [] in
      fst commit = Returned commit_tags ->
      flag "auto_tag_branch" = true ->
      (exists process,
          spawn env (snd commit) branch_query = Returned process
          /\ (returncode process <> 0 \/ Str.strip (stdout process) = EmptyString))
      \/ (exists e,
             spawn env (snd commit) branch_query = Raised e
             /\ In (exn_type e) ["CalledProcessError"; "FileNotFoundError"]) ->
      _generate_all_tags env params log
      = (Returned (explicit ++ commit_tags ++ date_tags),
         snd commit ++ [branch_query])).
Proof.
  assert (Hgeneral :
            forall params log explicit,
              iterate (_get_parameter params "tags" (VList [VStr "latest"])) log
              = (Returned explicit, log) ->
              let flag name := truthy (_get_parameter params name (VBool false)) in
              let commit :=
                git_tag env (flag "auto_tag_commit") commit_query
                        (fun sha => VStr ("commit-" +:+ Str.take 8 sha)) log in
              let branch :=
                git_tag env (flag "auto_tag_branch") branch_query
                        (fun name =>
                           VStr ("branch-" +:+ Re.sub_outside tag_char "-" name))
                        (snd commit) in
              let date_tags :=
                if flag "auto_tag_date" then [VStr (today env)] else [] in
              _generate_all_tags env params log
              = match fst commit with
                | Raised e => (Raised e, snd commit)
                | Returned commit_tags =>
                    match fst branch with
                    | Raised e => (Raised e, snd branch)
                    | Returned branch_tags =>
                        (Returned (explicit ++ commit_tags ++ branch_tags ++ date_tags),
                         snd branch)
                    end
                end).
  { intros params log explicit Hi flag commit branch date_tags.
    unfold _generate_all_tags. cbv zeta.
    rewrite (bind_returned _ _ _ _ _ Hi). change ([] ++ explicit) with explicit.
    unfold bind at 1.
    rewrite (git_tag_stage_spec _ _ commit_query
               (fun sha => VStr ("commit-" +:+ Str.take 8 sha)) explicit log
               get_git_commit_sha_spec).
    fold (flag "auto_tag_commit"). fold commit.
    destruct (fst commit) as [commit_tags|e]; [|reflexivity].
    unfold bind at 1.
    rewrite (git_tag_stage_spec _ _ branch_query
               (fun name => VStr ("branch-" +:+ Re.sub_outside tag_char "-" name))
               (explicit ++ commit_tags) (snd commit) get_git_branch_name_spec).
    fold (flag "auto_tag_branch"). fold branch.
    destruct (fst branch) as [branch_tags|e]; [|reflexivity].
    fold (flag "auto_tag_date"). unfold date_tags, ret.
    destruct (flag "auto_tag_date"); rewrite <- ?app_assoc, ?app_nil_r; reflexivity. }
  split; [|split; [|split]].
  - intros name. split; [apply sub_outside_length|].
    intros i a Hget. pose proof (sub_outside_get tag_char name i a Hget) as Hs.
    split; intros Ha.
    + apply tag_char_iff in Ha. now rewrite Ha in Hs.
    + destruct (tag_char a) eqn:Ea; [|exact Hs].
      apply tag_char_iff in Ea. contradiction.
  - reflexivity.
  - exact Hgeneral.
  - intros params log explicit commit_tags Hi flag commit date_tags Hc Hb Hfail.
    pose proof (Hgeneral params log explicit Hi) as E. cbv zeta in E.
    fold flag in E. fold commit in E. rewrite Hc, Hb in E. rewrite E.
    unfold git_tag at 1 2 3.
    destruct Hfail as [(process & -> & [Hr|Hs])|(e & -> & He)].
    + apply Z.eqb_neq in Hr. now rewrite Hr.
    + rewrite Hs. now destruct (returncode process =? 0).
    + assert (git_unavailable e = true) as ->
        by (unfold git_unavailable; destruct He as [<-|[<-|[]]]; reflexivity).
      reflexivity.
Qed.

End TagFacts.

(** ** The properties on concrete runs *)

(** ** Totals of a test run *)

Section TotalsFacts.
Context `{PyFloat}.
Import TestCommand.

(** A count that is too long for [int]: the output it was found in is
    longer than the limit. *)
Lemma long_count p test_output g i e :
  Re.search p test_output = Some g ->
  int (Re.group g i) = Raised e ->
  exn_type e = "ValueError"
  /\ (int_max_str_digits < String.length test_output)%nat.
Proof.
  intros Hs E. apply int_raised in E as [He Hl]. split; [exact He|].
  pose proof (search_group_length p test_output g i Hs). lia.
Qed.

(** C4.  Whatever the framework and the raw output, the results the
    parser returns satisfy total = passed + failed + skipped.  The parser
    raises in two cases only, both with ValueError: a Jest coverage cell
    that is not a float literal, and a count of more than 4300 digits, which
    takes an output longer than that.  For Maven and Gradle a matched
    summary line whose four counts are within the limit gives total = run,
    failed = failures + errors, passed = run - failures - errors - skipped
    and skipped = skipped; a count beyond the limit raises. *)
Theorem parsed_totals_add_up (test_framework : value) (test_output : string) :
  match _parse_test_results test_framework test_output with
  | Returned r => tests_total r = tests_passed r + tests_failed r + tests_skipped r
  | Raised e =>
      exn_type e = "ValueError"
      /\ ((eq_text test_framework "jest" = true
           /\ exists g, Re.search jest_coverage test_output = Some g
                        /\ float_of_string (Re.group g 1) = None)
          \/ (int_max_str_digits < String.length test_output)%nat)
  end
  /\ (eq_text test_framework "maven" || eq_text test_framework "gradle" = true ->
      forall g, Re.search maven_summary test_output = Some g ->
      ((forall i, (String.length (Re.group g i) <= int_max_str_digits)%nat) ->
       exists r, _parse_test_results test_framework test_output = Returned r
                 /\ tests_total r = Str.int_of_digits (Re.group g 1)
                 /\ tests_failed r = Str.int_of_digits (Re.group g 2)
                                     + Str.int_of_digits (Re.group g 3)
                 /\ tests_passed r = Str.int_of_digits (Re.group g 1)
                                     - Str.int_of_digits (Re.group g 2)
                                     - Str.int_of_digits (Re.group g 3)
                                     - Str.int_of_digits (Re.group g 4)
                 /\ tests_skipped r = Str.int_of_digits (Re.group g 4))
      /\ ((exists i, In i [1; 2; 3; 4]%nat
                     /\ (int_max_str_digits < String.length (Re.group g i))%nat) ->
          exists e, _parse_test_results test_framework test_output = Raised e
                    /\ exn_type e = "ValueError")).
Proof.
  split.
  - unfold _parse_test_results.
    destruct (eq_text test_framework "maven" || eq_text test_framework "gradle").
    { destruct (Re.search maven_summary test_output) as [g|] eqn:Eg; [|simpl; lia].
      destruct (int (Re.group g 1)) eqn:E1; cbn [obind];
        [|destruct (long_count _ _ _ _ _ Eg E1); auto].
      destruct (int (Re.group g 2)) eqn:E2; cbn [obind];
        [|destruct (long_count _ _ _ _ _ Eg E2); auto].
      destruct (int (Re.group g 3)) eqn:E3; cbn [obind];
        [|destruct (long_count _ _ _ _ _ Eg E3); auto].
      destruct (int (Re.group g 4)) eqn:E4; cbn [obind];
        [|destruct (long_count _ _ _ _ _ Eg E4); auto].
      simpl. lia. }
    destruct (eq_text test_framework "pytest").
    { cbv zeta. unfold int_group_or_0.
      destruct (Re.search pytest_passed test_output) as [g1|] eqn:Eg1.
      1: destruct (int (Re.group g1 1)) eqn:E1; cbn [obind];
           [|destruct (long_count _ _ _ _ _ Eg1 E1); auto].
      all: cbn [obind].
      all: destruct (Re.search pytest_failed test_output) as [g2|] eqn:Eg2.
      1, 3: destruct (int (Re.group g2 1)) eqn:E2; cbn [obind];
              [|destruct (long_count _ _ _ _ _ Eg2 E2); auto].
      all: cbn [obind].
      all: destruct (Re.search pytest_skipped test_output) as [g3|] eqn:Eg3.
      all: try (destruct (int (Re.group g3 1)) eqn:E3; cbn [obind];
                [|destruct (long_count _ _ _ _ _ Eg3 E3); auto]).
      all: cbn [obind].
      all: destruct (Re.search pytest_coverage test_output) as [g4|] eqn:Eg4.
      all: try (destruct (int (Re.group g4 1)) eqn:E4; cbn [obind];
                [|destruct (long_count _ _ _ _ _ Eg4 E4); auto]).
      all: simpl; lia. }
    destruct (eq_text test_framework "jest").
    { destruct (Re.search jest_summary test_output) as [g|] eqn:Eg.
      1: destruct (int (Re.group g 1)) eqn:E1; cbn [obind];
           [|destruct (long_count _ _ _ _ _ Eg E1); auto].
      1: destruct (int (Re.group g 2)) eqn:E2; cbn [obind];
           [|destruct (long_count _ _ _ _ _ Eg E2); auto].
      all: cbn [obind].
      all: destruct (Re.search jest_coverage test_output) as [gc|] eqn:Ec;
        [|simpl; lia].
      all: destruct (float_of_string (Re.group gc 1)) eqn:Ef; [simpl; lia|].
      all: split; [reflexivity|]; left; split; [reflexivity|]; now exists gc. }
    destruct (eq_text test_framework "gotest"); [|reflexivity].
    destruct (Str.contains "PASS" test_output); [simpl; lia|].
    destruct (Str.contains "FAIL" test_output); reflexivity.
  - intros Hf g Hg. unfold _parse_test_results. rewrite Hf, Hg. split.
    + intros Hl. rewrite !int_returned by apply Hl. cbn [obind].
      eexists. split; [reflexivity|]. simpl. auto.
    + intros (i & Hi & Hl).
      destruct (int (Re.group g 1)) as [n1|e1] eqn:E1; cbn [obind];
        [|exists e1; split; [reflexivity | now apply int_raised in E1]].
      destruct (int (Re.group g 2)) as [n2|e2] eqn:E2; cbn [obind];
        [|exists e2; split; [reflexivity | now apply int_raised in E2]].
      destruct (int (Re.group g 3)) as [n3|e3] eqn:E3; cbn [obind];
        [|exists e3; split; [reflexivity | now apply int_raised in E3]].
      destruct (int (Re.group g 4)) as [n4|e4] eqn:E4; cbn [obind];
        [|exists e4; split; [reflexivity | now apply int_raised in E4]].
      apply int_inversion in E1 as [_ L1], E2 as [_ L2], E3 as [_ L3], E4 as [_ L4].
      destruct Hi as [<-|[<-|[<-|[<-|[]]]]]; lia.
Qed.

End TotalsFacts.

Section Runs.
Import Platform Fixtures.
#[local] Existing Instance decimal_floats.

(** C1, counterexample.  Parameters without [project_path]: the
    constructor raises, the caller of [main] gets the exception and no
    envelope. *)
Lemma validation_error_reaches_caller :
  main (TestCommand.class (scripted red_pytest))
       (params_of [("test_framework", VStr "pytest")]) []
  = (Raised (ValueError "Missing required parameters: project_path"), []).
Proof. reflexivity. Qed.

(** C3, the failing input.  The run of pytest above: the envelope has
    success false, its metrics in the output data and no error details. *)
Theorem failed_tests_leave_error_details_empty :
  main (TestCommand.class (scripted red_pytest)) pytest_params []
  = (Returned red_pytest_envelope, [pytest_invocation])
  /\ success red_pytest_envelope = false
  /\ output_data red_pytest_envelope <> None
  /\ error_details red_pytest_envelope = None.
Proof. repeat split. discriminate. Qed.

(** C5, counterexample.  The failed build above: the captured output
    [BUILD FAILURE] is not in the error details, which hold the exit code
    and the empty standard error. *)
Lemma build_failure_details_lack_stdout :
  let details := "Build failed with exit code 1" +:+ Str.newline
                 +:+ "Error output:" +:+ Str.newline in
  main (BuildCommand.class (scripted failed_build)) maven_params []
  = (Returned {| success := false;
                 message := "Command execution failed: RuntimeError";
                 output_data := None;
                 error_details := Some details |},
     [ {| inv_cmd := Shell "mvn clean install";
          inv_cwd := Some ".";
          inv_input := None |} ])
  /\ Str.contains (stdout failed_build +:+ stderr failed_build) details = false
  /\ Str.contains (stdout failed_build) details = false.
Proof. repeat split. Qed.


(** C2 on the run of pytest above, with coverage enabled and the default
    threshold. *)
Lemma test_success_rule_witness :
  TestCommand.execute (scripted red_pytest) pytest_params []
  = (Returned red_pytest_envelope, [pytest_invocation])
  /\ exists test_results,
      success red_pytest_envelope = true <->
      TestCommand.tests_failed test_results = 0
      /\ (coverage_disabled pytest_params
          \/ coverage_passes pytest_params
               (TestCommand.coverage_percentage test_results)).
Proof.
  split; [reflexivity|].
  destruct (test_success_rule (scripted red_pytest) pytest_params []
                              red_pytest_envelope [pytest_invocation] eq_refl)
    as (test_framework & process & test_results & coverage_check
        & _ & _ & _ & _ & Hrule & _).
  exists test_results. exact Hrule.
Defined.

(** C4 on a Maven summary line. *)
Lemma parsed_totals_add_up_witness :
  exists r,
    TestCommand._parse_test_results
      (VStr "maven") "Tests run: 9, Failures: 2, Errors: 1, Skipped: 3"
    = Returned r
    /\ TestCommand.tests_total r = 9
    /\ TestCommand.tests_failed r = 2 + 1
    /\ TestCommand.tests_passed r = 9 - 2 - 1 - 3
    /\ TestCommand.tests_skipped r = 3.
Proof.
  apply (proj1 (proj2 (parsed_totals_add_up
                         (VStr "maven")
                         "Tests run: 9, Failures: 2, Errors: 1, Skipped: 3")
                      eq_refl ["9"; "2"; "1"; "3"] eq_refl)).
  intros i. unfold Re.group.
  destruct (i - 1)%nat as [|[|[|[|[|k]]]]]; cbn [nth String.length];
    unfold int_max_str_digits; lia.
Defined.

(** C6 on an empty parameter mapping given to the Terraform command. *)
Lemma missing_keys_reported_together_witness :
  validator (scripted failed_build) Terraform ∅ []
  = (Raised (ValueError "Missing required parameters: operation, working_dir"), [])
  /\ main (Build_BaseCommand (validator (scripted failed_build) Terraform)
                              (fun _ => raise (RuntimeError "unreachable")))
          ∅ []
     = (Raised (ValueError "Missing required parameters: operation, working_dir"), []).
Proof.
  destruct (missing_keys_reported_together
              (scripted failed_build) Terraform
              (fun _ => raise (RuntimeError "unreachable")) ∅ [])
    as (Hv & Hm & _).
  - discriminate.
  - split; [exact Hv | exact Hm].
Defined.


(** C8 on the branch [feature/My Fix!] with the commit tag requested too
    (the scripted git answers both queries with the branch name), and where
    git is not installed. *)
Lemma branch_tag_is_sanitized_witness :
  DockerCommand._generate_all_tags (scripted on_branch) both_tags_params []
  = (Returned [VStr "latest"; VStr "commit-feature/";
               VStr "branch-feature-My-Fix-"],
     [commit_query; branch_query])
  /\ DockerCommand._generate_all_tags no_tools both_tags_params []
     = (Returned [VStr "latest"], [commit_query; branch_query]).
Proof.
  destruct (branch_tag_is_sanitized (scripted on_branch)) as (_ & _ & Hrun & _).
  destruct (branch_tag_is_sanitized no_tools) as (_ & _ & _ & Hskip).
  split.
  - exact (Hrun both_tags_params [] [VStr "latest"] eq_refl).
  - apply (Hskip both_tags_params [] [VStr "latest"] [] eq_refl eq_refl eq_refl).
    right. eexists. split; [reflexivity|]. right. left. reflexivity.
Defined.

(** C9 on a verbose run in which one test passes and one fails. *)
Lemma gotest_reports_at_most_one_failure_witness :
  let test_output :=
    "--- PASS: TestA (0.00s)" +:+ Str.newline
    +:+ "--- FAIL: TestB (0.00s)" +:+ Str.newline
    +:+ "FAIL" +:+ Str.newline
    +:+ "FAIL" +:+ Str.tab +:+ "example.com/pkg" +:+ Str.tab +:+ "0.004s" in
  exists r,
    TestCommand._parse_test_results (VStr "gotest") test_output = Returned r
    /\ TestCommand.tests_failed r = 0
    /\ TestCommand.tests_passed r = 0.
Proof.
  intros test_output.
  destruct (gotest_reports_at_most_one_failure test_output) as (r & Hr & _ & Hpass).
  exists r. split; [exact Hr|]. destruct (Hpass eq_refl) as [Hf Hp].
  split; [exact Hf | exact Hp].
Defined.

End Runs.

(** * Further properties of the commands *)

(** ** Texts and fixed-width matches *)

Section FixedFacts.

Lemma exactly_sound c n s m rest :
  Re.exactly c n s = Some (m, rest) ->
  s = m +:+ rest /\ String.length m = n /\ all_in c m.
Proof.
  revert s m rest. induction n as [|n IH]; intros s m rest; simpl.
  - intros [= <- <-]. now repeat split.
  - destruct s as [|a s]; [discriminate|].
    destruct (c a) eqn:Ea; [|discriminate].
    destruct (Re.exactly c n s) as [[m' rest']|] eqn:E; [|discriminate].
    intros [= <- <-]. apply IH in E as (-> & <- & Hm).
    repeat split. now apply all_in_cons.
Qed.

Lemma search_by_sound {A} (m : string -> option A) s x :
  Re.search_by m s = Some x ->
  exists before found, s = before +:+ found /\ m found = Some x.
Proof.
  induction s as [|a s IH]; cbn [Re.search_by].
  - destruct (m EmptyString) eqn:E; [|discriminate].
    intros [= ->]. now exists EmptyString, EmptyString.
  - destruct (m (String a s)) eqn:E.
    + intros [= ->]. now exists EmptyString, (String a s).
    + intros Hs. apply IH in Hs as (before & found & -> & Hm).
      now exists (String a before), found.
Qed.

Lemma take_drop n s : s = Str.take n s +:+ Str.drop n s.
Proof.
  revert s. induction n as [|n IH]; intros [|a s]; try reflexivity.
  simpl. rewrite append_cons. f_equal. apply IH.
Qed.

Lemma take_length n s : (n <= String.length s)%nat -> String.length (Str.take n s) = n.
Proof.
  revert s. induction n as [|n IH]; intros [|a s]; simpl; try lia.
  intros Hn. rewrite IH; lia.
Qed.

Lemma take_all_in c n s : all_in c s -> all_in c (Str.take n s).
Proof.
  revert s. induction n as [|n IH]; intros [|a s]; try easy.
  rewrite !all_in_cons. simpl Str.take. rewrite all_in_cons. intros [Ha Hs].
  split; [exact Ha | now apply IH].
Qed.

Lemma contains_middle k before after :
  Str.contains k (before +:+ k +:+ after) = true.
Proof. apply contains_app_r, contains_self. Qed.

Lemma contains_prefix_of k k' s :
  Str.contains (k +:+ k') s = true -> Str.contains k s = true.
Proof.
  induction s as [|a s IH]; simpl.
  - rewrite !orb_false_r. destruct k; [reflexivity|]. now rewrite append_cons.
  - intros Hs. apply orb_true_iff in Hs as [Hs|Hs].
    + assert (Str.startswith k (String a s) = true) as ->; [|reflexivity].
      clear IH. revert Hs. generalize (String a s). induction k as [|b k IHk]; intros t.
      * reflexivity.
      * rewrite append_cons. destruct t as [|d t]; simpl; [discriminate|].
        destruct (Ascii.eqb b d); [apply IHk | discriminate].
    + rewrite (IH Hs). apply orb_true_r.
Qed.

Lemma startswith_contains k s : Str.startswith k s = true -> Str.contains k s = true.
Proof. intros Hs. destruct s; simpl in *; now rewrite Hs. Qed.

(** Where nothing of [k] occurs, the search for a match that begins with
    [k] finds nothing. *)
Lemma search_by_absent {A} (m : string -> option A) k s :
  (forall t, Str.startswith k t = false -> m t = None) ->
  Str.contains k s = false -> Re.search_by m s = None.
Proof.
  intros Hm. induction s as [|a s IH]; cbn [Re.search_by Str.contains].
  - rewrite orb_false_r. intros Hk. now rewrite Hm.
  - intros Hk. apply orb_false_iff in Hk as [Hk Hs].
    rewrite (Hm _ Hk). now apply IH.
Qed.

End FixedFacts.

(** ** Image identifiers and digests *)

Section DigestFacts.
Import DockerCommand.

Lemma image_id_here_sound s id :
  image_id_here s = Some id ->
  String.length id = 64%nat /\ all_in Re.hex id
  /\ exists rest, s = "sha256:" +:+ id +:+ rest.
Proof.
  unfold image_id_here. destruct (Str.startswith "sha256:" s) eqn:Ep; [|discriminate].
  destruct (Re.exactly Re.hex 64 (Str.drop 7 s)) as [[m rest]|] eqn:E; [|discriminate].
  intros [= <-]. apply exactly_sound in E as (Hs & Hl & Hm).
  repeat split; try assumption. exists rest.
  rewrite (startswith_split _ _ Ep). cbn [String.length]. now rewrite Hs at 1.
Qed.

(** X9.  An image id that is extracted has exactly twelve characters, all
    of them in [a-f0-9], and [sha256:] followed by it occurs in the build
    output; an output without [sha256:] gives no id. *)
Theorem extracted_image_id_is_short_hex (build_output : string) :
  (forall id, _extract_image_id build_output = Some id ->
      String.length id = 12%nat
      /\ all_in Re.hex id
      /\ Str.contains ("sha256:" +:+ id) build_output = true)
  /\ (Str.contains "sha256:" build_output = false ->
      _extract_image_id build_output = None).
Proof.
  unfold _extract_image_id. split.
  - intros id.
    destruct (Re.search_by image_id_here build_output) as [full|] eqn:Es; [|discriminate].
    intros Hid. assert (id = Str.take 12 full) as -> by congruence. clear Hid.
    apply search_by_sound in Es as (before & found & -> & Hf).
    apply image_id_here_sound in Hf as (Hl & Hh & rest & ->).
    repeat split.
    + apply take_length. lia.
    + now apply take_all_in.
    + rewrite (take_drop 12 full) at 2. rewrite !append_assoc.
      rewrite <- (append_assoc "sha256:" (Str.take 12 full)).
      apply contains_middle.
  - intros Hn. rewrite (search_by_absent image_id_here "sha256:"); [reflexivity| |exact Hn].
    intros t Ht. unfold image_id_here. now rewrite Ht.
Qed.

(** X10.  A digest that is extracted is [sha256:] followed by exactly
    sixty-four characters of [a-f0-9], and [digest: ] followed by it occurs
    in the push output; an output without [digest: sha256:] gives none. *)
Theorem extracted_digest_is_sha256 (push_output : string) :
  (forall digest, _extract_digest push_output = Some digest ->
      exists h, digest = "sha256:" +:+ h
                /\ String.length h = 64%nat
                /\ all_in Re.hex h
                /\ Str.contains ("digest: " +:+ digest) push_output = true)
  /\ (Str.contains "digest: sha256:" push_output = false ->
      _extract_digest push_output = None).
Proof.
  unfold _extract_digest. split.
  - intros digest Hs.
    apply search_by_sound in Hs as (before & found & -> & Hf).
    unfold digest_here in Hf.
    destruct (Str.startswith "digest: sha256:" found) eqn:Ep; [|discriminate].
    destruct (Re.exactly Re.hex 64 (Str.drop 15 found)) as [[h rest]|] eqn:E;
      [|discriminate].
    injection Hf as <-. apply exactly_sound in E as (Hd & Hl & Hh).
    exists h. repeat split; try assumption.
    rewrite (startswith_split _ _ Ep). cbn [String.length]. rewrite Hd.
    change ("digest: sha256:" +:+ h +:+ rest)
      with ("digest: " +:+ ("sha256:" +:+ (h +:+ rest))).
    rewrite <- (append_assoc "sha256:" h rest).
    rewrite <- (append_assoc "digest: " ("sha256:" +:+ h) rest).
    apply contains_middle.
  - intros Hn.
    apply (search_by_absent digest_here "digest: sha256:"); [|exact Hn].
    intros t Ht. unfold digest_here. now rewrite Ht.
Qed.

End DigestFacts.

(** ** Pushing and logging in *)

Section PushFacts.
Context `{PyFloat} (env : Env).
Import DockerCommand.

(** The body of the loop of [_push_image]. *)
Let push_body (image_name : value) (push_results : list value) (tag : value)
  : M (list value) :=
  name <- format image_name ;;
  shown <- format tag ;;
  let full_image_name := name +:+ ":" +:+ shown in
  process_result <-
    subprocess_run env {| inv_cmd := Argv ["docker"; "push"; full_image_name];
                          inv_cwd := None;
                          inv_input := None |} ;;
  if negb (returncode process_result =? 0) then
    raise (RuntimeError ("Failed to push " +:+ full_image_name +:+ ": "
                         +:+ stderr process_result))
  else
    let digest := _extract_digest (stdout process_result) in
    ret (push_results
         ++ [VDict [ ("tag", tag);
                     ("full_name", VStr full_image_name);
                     ("digest", optional_text digest);
                     ("success", VBool true) ]]).

Lemma push_body_step image_name tag acc log :
  push_body (VStr image_name) acc (VStr tag) log
  = (match spawn env log (push_invocation image_name tag) with
     | Returned process =>
         if returncode process =? 0 then
           Returned (acc ++ [push_entry image_name tag process])
         else Raised (RuntimeError ("Failed to push " +:+ image_name +:+ ":" +:+ tag
                                    +:+ ": " +:+ stderr process))
     | Raised e => Raised e
     end, log ++ [push_invocation image_name tag]).
Proof.
  unfold push_body, format, lift, bind, ret, subprocess_run. cbn [str scalar_str].
  fold (push_invocation image_name tag).
  destruct (spawn env log (push_invocation image_name tag)) as [process|e];
    [|reflexivity].
  destruct (returncode process =? 0); [reflexivity|].
  cbn [negb]. unfold raise. now rewrite !append_assoc.
Qed.

Lemma pushed_app image_name log tags entries tag process :
  pushed env image_name log tags entries ->
  spawn env (log ++ map (push_invocation image_name) tags)
        (push_invocation image_name tag) = Returned process ->
  returncode process = 0 ->
  pushed env image_name log (tags ++ [tag])
         (entries ++ [push_entry image_name tag process]).
Proof.
  revert log entries. induction tags as [|t tags IH]; intros log [|entry entries];
    cbn [pushed map app]; try easy.
  - rewrite app_nil_r. intros _ Hs Hr. split; [now exists process | exact I].
  - intros [Ht Hp] Hs Hr. split; [exact Ht|]. apply IH; [exact Hp| |exact Hr].
    now rewrite <- app_assoc.
Qed.

Lemma push_loop image_name texts :
  forall done entries log0 log,
    log = log0 ++ map (push_invocation image_name) done ->
    pushed env image_name log0 done entries ->
    match for_each (map (fun t => VStr t) texts) (push_body (VStr image_name))
                   entries log
    with
    | (Returned push_results, log') =>
        log' = log0 ++ map (push_invocation image_name) (done ++ texts)
        /\ pushed env image_name log0 (done ++ texts) push_results
    | (Raised e, log') =>
        exists ok tag rest entries',
          done ++ texts = ok ++ tag :: rest
          /\ pushed env image_name log0 ok entries'
          /\ log' = log0 ++ map (push_invocation image_name) (ok ++ [tag])
          /\ let before := log0 ++ map (push_invocation image_name) ok in
             (spawn env before (push_invocation image_name tag) = Raised e
              \/ exists process,
                  spawn env before (push_invocation image_name tag) = Returned process
                  /\ returncode process <> 0
                  /\ e = RuntimeError ("Failed to push " +:+ image_name +:+ ":" +:+ tag
                                       +:+ ": " +:+ stderr process))
    end.
Proof.
  induction texts as [|t texts IH]; intros done entries log0 log Hlog Hdone.
  - simpl. rewrite app_nil_r. now split.
  - cbn [map for_each]. unfold bind. rewrite push_body_step.
    destruct (spawn env log (push_invocation image_name t)) as [process|e] eqn:Es.
    + destruct (returncode process =? 0) eqn:Er.
      * apply Z.eqb_eq in Er. rewrite Hlog in Es.
        pose proof (pushed_app _ _ _ _ _ _ Hdone Es Er) as Hnext.
        specialize (IH (done ++ [t]) (entries ++ [push_entry image_name t process])
                       log0 (log ++ [push_invocation image_name t])).
        rewrite <- !app_assoc in IH. cbn [app] in IH. apply IH; [|exact Hnext].
        rewrite Hlog, map_app, <- app_assoc. reflexivity.
      * exists done, t, texts, entries. split; [reflexivity|]. split; [exact Hdone|].
        split; [rewrite Hlog, map_app, <- app_assoc; reflexivity|].
        cbv zeta. rewrite <- Hlog. right. exists process.
        split; [exact Es|]. split; [now apply Z.eqb_neq | reflexivity].
    + exists done, t, texts, entries. split; [reflexivity|]. split; [exact Hdone|].
      split; [rewrite Hlog, map_app, <- app_assoc; reflexivity|].
      cbv zeta. rewrite <- Hlog. now left.
Qed.

(** X7.  Tags are pushed one process each, in the order of the list.  When
    the push returns, every one of these processes has exited zero and
    there is one entry per tag, in that order, each with the digest found
    in the output of its process.  When it raises, the tags before some tag
    have been pushed so, and the process of that tag could not start or
    exited non-zero, which is the error with its standard error: the tags
    after it are never pushed. *)
Theorem push_stops_at_first_failure (image_name : string) (tags : list string)
        (log : list Invocation) :
  match _push_image env (VStr image_name) (map (fun t => VStr t) tags) log with
  | (Returned push_results, log') =>
      log' = log ++ map (push_invocation image_name) tags
      /\ pushed env image_name log tags push_results
  | (Raised e, log') =>
      exists ok tag rest entries,
        tags = ok ++ tag :: rest
        /\ pushed env image_name log ok entries
        /\ log' = log ++ map (push_invocation image_name) (ok ++ [tag])
        /\ let before := log ++ map (push_invocation image_name) ok in
           (spawn env before (push_invocation image_name tag) = Raised e
            \/ exists process,
                spawn env before (push_invocation image_name tag) = Returned process
                /\ returncode process <> 0
                /\ e = RuntimeError ("Failed to push " +:+ image_name +:+ ":" +:+ tag
                                     +:+ ": " +:+ stderr process))
  end.
Proof.
  change (_push_image env (VStr image_name) (map (fun t => VStr t) tags) log)
    with (for_each (map (fun t => VStr t) tags) (push_body (VStr image_name)) [] log).
  apply (push_loop image_name tags [] [] log log); [|exact I].
  simpl. now rewrite app_nil_r.
Qed.

End PushFacts.

Section LoginFacts.
Context `{PyFloat} (env : Env).
Import DockerCommand.

(** With a user name and a password, the one process of the login. *)
Lemma login_spawns_once (params : Parameters) (log : list Invocation)
      (user password : string) (registry : list string) :
  params !! "registry_username" = Some (VStr user) -> user <> EmptyString ->
  params !! "registry_password" = Some (VStr password) -> password <> EmptyString ->
  (params !! "registry_url" = None /\ registry = []
   \/ exists url, params !! "registry_url" = Some (VStr url)
                  /\ url <> EmptyString /\ registry = [url]) ->
  let invocation :=
    {| inv_cmd := Argv (["docker"; "login"; "-u"; user; "--password-stdin"]
                        ++ registry);
       inv_cwd := None;
       inv_input := Some password |} in
  _authenticate_registry env params log
  = (match spawn env log invocation with
     | Returned process =>
         if returncode process =? 0 then Returned tt
         else Raised (RuntimeError ("Registry authentication failed: "
                                    +:+ stderr process))
     | Raised e => Raised e
     end, log ++ [invocation]).
Proof.
  intros Hu Hune Hp Hpne Hr invocation.
  assert (Hnonempty : forall t, t <> EmptyString -> negb (String.eqb t "") = true).
  { intros t Ht. apply negb_true_iff. now apply String.eqb_neq. }
  unfold _authenticate_registry, _get_parameter. rewrite Hu, Hp.
  cbn [default from_option id truthy].
  rewrite (Hnonempty _ Hune), (Hnonempty _ Hpne). cbn [andb negb].
  assert (Hrun : forall args,
             args = ["docker"; "login"; "-u"; user; "--password-stdin"] ++ registry ->
             (process_result <- subprocess_run_input env args (VStr password) ;;
              if negb (returncode process_result =? 0)
              then raise (RuntimeError ("Registry authentication failed: "
                                        +:+ stderr process_result))
              else ret tt) log
             = (match spawn env log invocation with
                | Returned process =>
                    if returncode process =? 0 then Returned tt
                    else Raised (RuntimeError ("Registry authentication failed: "
                                               +:+ stderr process))
                | Raised e => Raised e
                end, log ++ [invocation])).
  { intros args ->. unfold subprocess_run_input, bind, subprocess_run.
    fold invocation. destruct (spawn env log invocation) as [process|e]; [|reflexivity].
    now destruct (returncode process =? 0). }
  destruct Hr as [[Hr ->]|(url & Hr & Hurl & ->)]; rewrite Hr;
    cbn [default from_option id truthy].
  - cbn [argv]. unfold bind at 1. cbn. now apply Hrun.
  - rewrite (Hnonempty _ Hurl). cbn [app argv]. unfold bind at 1. cbn.
    now apply Hrun.
Qed.

(** X8.  Without both a user name and a password the login is skipped and
    no process is spawned.  With both, one [docker login] process is
    spawned: the user name (and the registry, when one is given) are on its
    command line, the password is written to its standard input and is
    not an argument; a non-zero exit raises with the captured standard
    error. *)
Theorem login_reads_password_from_stdin (params : Parameters) (log : list Invocation) :
  (truthy (_get_parameter params "registry_username" VNone)
   && truthy (_get_parameter params "registry_password" VNone) = false ->
   _authenticate_registry env params log = (Returned tt, log))
  /\ (forall user password registry,
      params !! "registry_username" = Some (VStr user) -> user <> EmptyString ->
      params !! "registry_password" = Some (VStr password) -> password <> EmptyString ->
      (params !! "registry_url" = None /\ registry = []
       \/ exists url, params !! "registry_url" = Some (VStr url)
                      /\ url <> EmptyString /\ registry = [url]) ->
      let invocation :=
        {| inv_cmd := Argv (["docker"; "login"; "-u"; user; "--password-stdin"]
                            ++ registry);
           inv_cwd := None;
           inv_input := Some password |} in
      _authenticate_registry env params log
      = (match spawn env log invocation with
         | Returned process =>
             if returncode process =? 0 then Returned tt
             else Raised (RuntimeError ("Registry authentication failed: "
                                        +:+ stderr process))
         | Raised e => Raised e
         end, log ++ [invocation])).
Proof.
  split.
  - intros Hc. unfold _authenticate_registry. now rewrite Hc.
  - intros user password registry Hu Hune Hp Hpne Hr.
    now apply login_spawns_once.
Qed.

(** X11.  The size query returns None when [docker images] exits non-zero,
    but only that is caught: when the program cannot be found, the
    FileNotFoundError leaves the function, whereas the two git queries
    return None in that case. *)
Theorem image_size_query_needs_docker (image_name tag : string) (log : list Invocation) :
  let invocation :=
    {| inv_cmd := Argv ["docker"; "images"; image_name +:+ ":" +:+ tag;
                        "--format"; "{{.Size}}"];
       inv_cwd := None;
       inv_input := None |} in
  let git_branch :=
    {| inv_cmd := Argv ["git"; "rev-parse"; "--abbrev-ref"; "HEAD"];
       inv_cwd := None; inv_input := None |} in
  let git_commit :=
    {| inv_cmd := Argv ["git"; "rev-parse"; "HEAD"];
       inv_cwd := None; inv_input := None |} in
  (forall process,
      spawn env log invocation = Returned process ->
      _get_image_size env (VStr image_name) (VStr tag) log
      = (Returned (if returncode process =? 0
                   then Some (Str.strip (stdout process)) else None),
         log ++ [invocation]))
  /\ (forall text,
      let e := Exn "FileNotFoundError" text in
      (spawn env log invocation = Raised e ->
       _get_image_size env (VStr image_name) (VStr tag) log
       = (Raised e, log ++ [invocation]))
      /\ (spawn env log git_branch = Raised e ->
          _get_git_branch_name env log = (Returned None, log ++ [git_branch]))
      /\ (spawn env log git_commit = Raised e ->
          _get_git_commit_sha env log = (Returned None, log ++ [git_commit]))).
Proof.
  intros invocation git_branch git_commit. split.
  - intros process Hs.
    unfold _get_image_size, try_except, format, lift, str, bind, ret,
      subprocess_run_check,
      bind, subprocess_run, scalar_str.
    fold invocation. rewrite Hs. now destruct (returncode process =? 0).
  - intros text e. split; [|split]; intros Hs.
    + unfold _get_image_size, try_except, format, lift, str, bind, ret,
      subprocess_run_check,
        bind, subprocess_run, scalar_str.
      fold invocation. now rewrite Hs.
    + rewrite get_git_branch_name_spec. cbv zeta. fold git_branch. now rewrite Hs.
    + unfold _get_git_commit_sha, try_except, subprocess_run_check, bind,
        subprocess_run. fold git_commit. now rewrite Hs.
Qed.

End LoginFacts.

(** ** The container operation as a whole *)

Section ContainerFacts.
Context `{PyFloat} (env : Env).

Lemma build_execute_returns_success params log result log' :
  BuildCommand.execute env params log = (Returned result, log') ->
  success result = true /\ output_data result <> None /\ error_details result = None.
Proof.
  unfold BuildCommand.execute. intros E.
  repeat (apply bind_inversion in E as (? & ? & _ & E)).
  injection E as <- _. now repeat split.
Qed.

Lemma docker_execute_returns_success params log result log' :
  DockerCommand.execute env params log = (Returned result, log') ->
  success result = true /\ output_data result <> None /\ error_details result = None.
Proof.
  unfold DockerCommand.execute. intros E.
  repeat (apply bind_inversion in E as (? & ? & _ & E)).
  injection E as <- _. now repeat split.
Qed.

(** X13.  Every envelope that [run] returns for a build or for a container
    operation is well formed: a success with output data and no error
    details, or a failure with error details and no output data.  Their
    [execute] only ever returns successes, so each of their failures comes
    from the handler of [run]. *)
Theorem build_and_container_envelopes_well_formed (params : Parameters)
        (log : list Invocation) :
  (exists result log',
      run {| cmd_class := BuildCommand.class env; parameters := params |} log
      = (Returned result, log')
      /\ well_formed result)
  /\ (exists result log',
      run {| cmd_class := DockerCommand.class env; parameters := params |} log
      = (Returned result, log')
      /\ well_formed result).
Proof.
  split.
  - destruct (BuildCommand.execute env params log) as [[r|e] l] eqn:E.
    + exists r, l. split.
      * exact (run_returned
                 {| cmd_class := BuildCommand.class env; parameters := params |} _ _ _ E).
      * left. now apply (build_execute_returns_success params log r l).
    + exists (failure_envelope e), l. split.
      * exact (run_raised
                 {| cmd_class := BuildCommand.class env; parameters := params |} _ _ _ E).
      * right. now repeat split.
  - destruct (DockerCommand.execute env params log) as [[r|e] l] eqn:E.
    + exists r, l. split.
      * exact (run_returned
                 {| cmd_class := DockerCommand.class env; parameters := params |} _ _ _ E).
      * left. now apply (docker_execute_returns_success params log r l).
    + exists (failure_envelope e), l. split.
      * exact (run_raised
                 {| cmd_class := DockerCommand.class env; parameters := params |} _ _ _ E).
      * right. now repeat split.
Qed.

(** X12.  A build with an empty list of tags: the image is built, with no
    tag, and the size query then asks for the first tag of an empty list.
    The run ends in the failure envelope of an IndexError, after the build
    process has run. *)
Theorem build_without_tags_fails_after_building (params : Parameters)
        (log log0 log1 : list Invocation) (operation image_name : value)
        (build_output : string) :
  params !! "operation" = Some operation ->
  in_texts operation ["build"; "build-and-push"] = true ->
  params !! "image_name" = Some image_name ->
  DockerCommand._generate_all_tags env params log = (Returned [], log0) ->
  DockerCommand._build_image env params image_name [] log0
  = (Returned build_output, log1) ->
  run {| cmd_class := DockerCommand.class env; parameters := params |} log
  = (Returned {| success := false;
                 message := "Command execution failed: IndexError";
                 output_data := None;
                 error_details := Some "list index out of range" |}, log1)
  /\ exists args process,
      log1 = log0 ++ [{| inv_cmd := Argv args; inv_cwd := None; inv_input := None |}]
      /\ spawn env log0 {| inv_cmd := Argv args; inv_cwd := None; inv_input := None |}
         = Returned process
      /\ returncode process = 0.
Proof.
  intros Ho Hb Hi Ht Hbuild. split.
  - apply (run_raised {| cmd_class := DockerCommand.class env; parameters := params |}
                      log (Exn "IndexError" "list index out of range") log1).
    cbn [cmd_class parameters DockerCommand.class execute].
    unfold DockerCommand.execute.
    rewrite (bind_returned _ _ _ _ _ (getitem_returned _ _ _ log Ho)).
    rewrite (bind_returned _ _ _ _ _ (getitem_returned _ _ _ log Hi)).
    rewrite (bind_returned _ _ _ _ _ Ht). rewrite Hb.
    apply bind_raised. rewrite (bind_returned _ _ _ _ _ Hbuild).
    reflexivity.
  - destruct (build_image_spec env params image_name [] log0) as [[e He]|[args Ha]].
    + congruence.
    + cbv zeta in Ha. rewrite Hbuild in Ha. exists args.
      destruct (spawn env log0 _) as [process|e] eqn:Es; [|discriminate].
      exists process. destruct (returncode process =? 0) eqn:Er; [|discriminate].
      injection Ha as _ ->. repeat split. now apply Z.eqb_eq.
Qed.

(** X14.  A push with credentials whose login exits non-zero: the run ends
    in the failure envelope carrying the standard error of the login, and
    the login is the last process spawned, so nothing is pushed. *)
Theorem failed_login_prevents_push (params : Parameters) (log log0 : list Invocation)
        (image_name : value) (tags : list value) (user password : string)
        (process : CompletedProcess) :
  params !! "operation" = Some (VStr "push") ->
  params !! "image_name" = Some image_name ->
  DockerCommand._generate_all_tags env params log = (Returned tags, log0) ->
  params !! "registry_username" = Some (VStr user) -> user <> EmptyString ->
  params !! "registry_password" = Some (VStr password) -> password <> EmptyString ->
  params !! "registry_url" = None ->
  let login :=
    {| inv_cmd := Argv ["docker"; "login"; "-u"; user; "--password-stdin"];
       inv_cwd := None;
       inv_input := Some password |} in
  spawn env log0 login = Returned process ->
  returncode process <> 0 ->
  run {| cmd_class := DockerCommand.class env; parameters := params |} log
  = (Returned {| success := false;
                 message := "Command execution failed: RuntimeError";
                 output_data := None;
                 error_details :=
                   Some ("Registry authentication failed: " +:+ stderr process) |},
     log0 ++ [login]).
Proof.
  intros Ho Hi Ht Hu Hune Hp Hpne Hr login Hs Hrc.
  apply (run_raised {| cmd_class := DockerCommand.class env; parameters := params |}
                    log (RuntimeError ("Registry authentication failed: "
                                       +:+ stderr process)) (log0 ++ [login])).
  cbn [cmd_class parameters DockerCommand.class execute].
  unfold DockerCommand.execute.
  rewrite (bind_returned _ _ _ _ _ (getitem_returned _ _ _ log Ho)).
  rewrite (bind_returned _ _ _ _ _ (getitem_returned _ _ _ log Hi)).
  rewrite (bind_returned _ _ _ _ _ Ht).
  change (in_texts (VStr "push") ["build"; "build-and-push"]) with false.
  change (in_texts (VStr "push") ["push"; "build-and-push"]) with true.
  cbv iota. unfold bind at 1. unfold ret at 1.
  apply bind_raised. apply bind_raised.
  pose proof (login_spawns_once env params log0 user password []
                Hu Hune Hp Hpne (or_introl (conj Hr eq_refl))) as Hlogin.
  cbv zeta in Hlogin. rewrite Hlogin.
  cbn [app]. fold login. rewrite Hs.
  apply Z.eqb_neq in Hrc. now rewrite Hrc.
Qed.

End ContainerFacts.

(** ** Counts read from Terraform *)

Section CountFacts.
Context `{PyFloat}.
Import TerraformCommand.

(** A count that [int] has read from a numeral is not negative, and it
    can be printed. *)
Lemma int_numeral_nonneg s n : numeral s -> int s = Returned n -> 0 <= n.
Proof. intros [_ Hs] E. now apply (int_below_bound s n Hs). Qed.

Lemma format_count s n log :
  numeral s -> int s = Returned n ->
  format (VInt n) log = (Returned (Str.of_Z n), log).
Proof.
  intros [_ Hs] E. unfold format, lift, str, scalar_str.
  now rewrite (str_int_of_count s n Hs E).
Qed.

(** The first letter of the pattern is accepted by no other item: a match
    that starts before an occurrence of that letter ends before it. *)
Lemma match_stops_at_first_letter x l q u t :
  avoids x (Re.Lit l :: q) = true -> u <> EmptyString ->
  Re.match_here (Re.Lit (String x l) :: q) (u +:+ String x t)
  = Re.match_here (Re.Lit (String x l) :: q) u.
Proof.
  intros Ha Hu. destruct u as [|a u]; [easy|].
  rewrite append_cons, !match_lit_cons.
  destruct (Ascii.eqb x a); [|reflexivity]. now apply match_here_avoid.
Qed.

Lemma search_skips_to_first_letter x l q before t :
  avoids x (Re.Lit l :: q) = true ->
  Re.search (Re.Lit (String x l) :: q) before = None ->
  Re.search (Re.Lit (String x l) :: q) (before +:+ String x t)
  = Re.search (Re.Lit (String x l) :: q) (String x t).
Proof.
  intros Ha. induction before as [|a before IH]; [reflexivity|].
  intros Hs. cbn [Re.search] in Hs.
  destruct (Re.match_here (Re.Lit (String x l) :: q) (String a before)) eqn:Em;
    [discriminate|].
  rewrite append_cons. cbn [Re.search]. rewrite <- append_cons.
  rewrite match_stops_at_first_letter by easy. rewrite Em. now apply IH.
Qed.

Lemma destroy_line_matches n after :
  numeral n ->
  Re.match_here destroy_summary (destroy_line n +:+ after) = Some [n].
Proof.
  intros Hn. unfold destroy_line, destroy_summary.
  rewrite !append_assoc. rewrite match_lit.
  change (" destroyed" +:+ ?s) with (String " " ("destroyed" +:+ s)).
  apply match_group_numeral; [exact Hn | reflexivity |].
  change (String " " ("destroyed" +:+ ?s)) with (" destroyed" +:+ s).
  now rewrite match_lit.
Qed.

Lemma destroy_match_is_line s g rest :
  matches destroy_summary s g rest ->
  exists n, numeral n /\ g = [n] /\ s = destroy_line n +:+ rest.
Proof.
  unfold destroy_summary. intros Hm.
  repeat match goal with
         | Hm : matches (_ :: _) _ _ _ |- _ => inversion Hm; subst; clear Hm
         | Hm : matches [] _ _ _ |- _ => inversion Hm; subst; clear Hm
         end.
  exists m. unfold numeral, destroy_line. rewrite !append_assoc. easy.
Qed.

Lemma no_destroy_line_iff text :
  ~ has_destroy_line text <-> Re.search destroy_summary text = None.
Proof.
  split.
  - intros Hn. destruct (Re.search destroy_summary text) as [g|] eqn:Hs; [|reflexivity].
    contradict Hn. apply search_sound in Hs as (before & found & -> & Hm).
    apply match_here_sound in Hm as [rest Hm].
    apply destroy_match_is_line in Hm as (n & Hn & _ & ->).
    now exists before, n, rest.
  - intros Hs (before & n & after & Hn & ->).
    destruct (search_finds_earlier_or_here destroy_summary before _ _
                (destroy_line_matches n after Hn)) as [g' Hg].
    congruence.
Qed.

Lemma first_destroy_line_is_found before n after :
  numeral n -> ~ has_destroy_line before ->
  Re.search destroy_summary (before +:+ destroy_line n +:+ after) = Some [n].
Proof.
  intros Hn Hb.
  change (destroy_line n +:+ after)
    with (String "D" (Str.drop 1 (destroy_line n +:+ after))).
  unfold destroy_summary.
  change "Destroy complete! Resources: "
    with (String "D" "estroy complete! Resources: ").
  rewrite search_skips_to_first_letter;
    [|reflexivity|now apply no_destroy_line_iff].
  change (Re.search destroy_summary (destroy_line n +:+ after) = Some [n]).
  destruct (destroy_line n +:+ after) eqn:E; cbn [Re.search]; rewrite <- E;
    now rewrite destroy_line_matches.
Qed.

(** X15.  The destroy count is read from the first completion line
    [Destroy complete! Resources: n destroyed] of the output: for a numeral
    n within the limit of [int] it is the number n, and the message reports
    it as [Destroy complete: n resources destroyed]; for a longer numeral
    the conversion raises ValueError.  An output with no such line counts
    zero. *)
Theorem destroyed_count_from_first_line :
  (forall before n after,
      numeral n -> ~ has_destroy_line before ->
      (String.length n <= int_max_str_digits)%nat ->
      let count := Str.int_of_digits n in
      _count_destroyed (before +:+ destroy_line n +:+ after) = Returned count
      /\ forall result_data log,
          dict_get result_data "resources_destroyed" = Some (VInt count) ->
          _generate_result_message (VStr "destroy") result_data log
          = (Returned ("Destroy complete: " +:+ Str.of_Z count
                       +:+ " resources destroyed"), log))
  /\ (forall before n after,
      numeral n -> ~ has_destroy_line before ->
      (int_max_str_digits < String.length n)%nat ->
      exists e,
        _count_destroyed (before +:+ destroy_line n +:+ after) = Raised e
        /\ exn_type e = "ValueError")
  /\ (forall output,
      ~ has_destroy_line output -> _count_destroyed output = Returned 0).
Proof.
  split; [|split].
  - intros before n after Hn Hb Hl count.
    pose proof (int_returned n Hl) as E. fold count in E.
    split.
    { unfold _count_destroyed. rewrite first_destroy_line_is_found by assumption.
      exact E. }
    intros result_data log Hd.
    unfold _generate_result_message.
    change (eq_text (VStr "destroy") "init") with false.
    change (eq_text (VStr "destroy") "validate") with false.
    change (eq_text (VStr "destroy") "plan") with false.
    change (eq_text (VStr "destroy") "apply") with false.
    change (eq_text (VStr "destroy") "destroy") with true.
    cbv iota. rewrite Hd. cbn [default from_option id].
    now rewrite (bind_returned _ _ _ _ _ (format_count n count log Hn E)).
  - intros before n after Hn Hb Hl.
    unfold _count_destroyed. rewrite first_destroy_line_is_found by assumption.
    cbn [Re.group nth Nat.sub]. destruct (int_too_long n Hl) as (e & E & He).
    now exists e.
  - intros output Hn. unfold _count_destroyed.
    apply no_destroy_line_iff in Hn. now rewrite Hn.
Qed.

Lemma apply_match_is_line s g rest :
  matches apply_summary s g rest ->
  exists a c d, numeral a /\ numeral c /\ numeral d
                /\ g = [a; c; d] /\ s = apply_line a c d +:+ rest.
Proof.
  unfold apply_summary. intros Hm.
  repeat match goal with
         | Hm : matches (_ :: _) _ _ _ |- _ => inversion Hm; subst; clear Hm
         | Hm : matches [] _ _ _ |- _ => inversion Hm; subst; clear Hm
         end.
  exists m, m0, m1. unfold numeral, apply_line. rewrite !append_assoc. easy.
Qed.

Lemma apply_results_shape (output : string) :
  match _parse_apply_results output with
  | Returned results =>
      (results = {| added := 0; changed := 0; destroyed := 0 |}
       /\ Re.search apply_summary output = None)
      \/ exists before a c d after,
          numeral a /\ numeral c /\ numeral d
          /\ output = before +:+ apply_line a c d +:+ after
          /\ results = {| added := Str.int_of_digits a;
                          changed := Str.int_of_digits c;
                          destroyed := Str.int_of_digits d |}
  | Raised e =>
      exn_type e = "ValueError"
      /\ exists before a c d after,
          numeral a /\ numeral c /\ numeral d
          /\ output = before +:+ apply_line a c d +:+ after
          /\ ((int_max_str_digits < String.length a)%nat
              \/ (int_max_str_digits < String.length c)%nat
              \/ (int_max_str_digits < String.length d)%nat)
  end.
Proof.
  unfold _parse_apply_results.
  destruct (Re.search apply_summary output) as [g|] eqn:Hs; [|now left].
  apply search_sound in Hs as (before & found & -> & Hm).
  apply match_here_sound in Hm as [rest Hm].
  apply apply_match_is_line in Hm as (a & c & d & Ha & Hc & Hd & -> & ->).
  cbn [Re.group nth Nat.sub].
  destruct (int a) as [na|ea] eqn:Ea; cbn [obind].
  2: { apply int_raised in Ea as [He Hl]. split; [exact He|].
       exists before, a, c, d, rest. auto 10. }
  destruct (int c) as [nc|ec] eqn:Ec; cbn [obind].
  2: { apply int_raised in Ec as [He Hl]. split; [exact He|].
       exists before, a, c, d, rest. auto 10. }
  destruct (int d) as [nd|ed] eqn:Ed; cbn [obind].
  2: { apply int_raised in Ed as [He Hl]. split; [exact He|].
       exists before, a, c, d, rest. auto 10. }
  right. exists before, a, c, d, rest.
  apply int_inversion in Ea as [-> _], Ec as [-> _], Ed as [-> _]. auto 10.
Qed.

(** X17.  When the apply results are returned they are three zeros, or
    the numbers of a summary [a added, c changed, d destroyed] that stands
    in the output: no count is reported that the text does not hold.  The
    words [Apply complete] are not asked for.  The parser raises only when
    one of the three numerals of such a summary is beyond the limit of
    [int], and then with ValueError. *)
Theorem apply_results_stand_in_output (output : string) :
  match _parse_apply_results output with
  | Returned results =>
      (results = {| added := 0; changed := 0; destroyed := 0 |}
       /\ Re.search apply_summary output = None)
      \/ exists before a c d after,
          numeral a /\ numeral c /\ numeral d
          /\ output = before +:+ apply_line a c d +:+ after
          /\ results = {| added := Str.int_of_digits a;
                          changed := Str.int_of_digits c;
                          destroyed := Str.int_of_digits d |}
  | Raised e =>
      exn_type e = "ValueError"
      /\ exists before a c d after,
          numeral a /\ numeral c /\ numeral d
          /\ output = before +:+ apply_line a c d +:+ after
          /\ ((int_max_str_digits < String.length a)%nat
              \/ (int_max_str_digits < String.length c)%nat
              \/ (int_max_str_digits < String.length d)%nat)
  end.
Proof.
  unfold _parse_apply_results.
  destruct (Re.search apply_summary output) as [g|] eqn:Hs; [|now left].
  apply search_sound in Hs as (before & found & -> & Hm).
  apply match_here_sound in Hm as [rest Hm].
  apply apply_match_is_line in Hm as (a & c & d & Ha & Hc & Hd & -> & ->).
  cbn [Re.group nth Nat.sub].
  destruct (int a) as [na|ea] eqn:Ea; cbn [obind].
  2: { apply int_raised in Ea as [He Hl]. split; [exact He|].
       exists before, a, c, d, rest. auto 10. }
  destruct (int c) as [nc|ec] eqn:Ec; cbn [obind].
  2: { apply int_raised in Ec as [He Hl]. split; [exact He|].
       exists before, a, c, d, rest. auto 10. }
  destruct (int d) as [nd|ed] eqn:Ed; cbn [obind].
  2: { apply int_raised in Ed as [He Hl]. split; [exact He|].
       exists before, a, c, d, rest. auto 10. }
  right. exists before, a, c, d, rest.
  apply int_inversion in Ea as [-> _], Ec as [-> _], Ed as [-> _]. auto 10.
Qed.

(** X16.  The counts read from Terraform are never negative: the three of
    a plan, the three of an apply and the destroy count.  So a plan has
    changes exactly when its counts are not all zero, and the plan message
    is then the summary of the counts, and
    [No changes. Infrastructure is up-to-date] otherwise.  Each of the
    three parsers returns on every output of at most 4300 characters; when
    one raises, it is with the ValueError of [int]. *)
Theorem terraform_counts_not_negative (output : string) :
  match _parse_plan_changes output with
  | Returned changes =>
      (0 <= add changes /\ 0 <= change changes /\ 0 <= destroy changes)
      /\ (has_changes changes = false <->
          add changes = 0 /\ change changes = 0 /\ destroy changes = 0)
      /\ forall result_data log,
          dict_get result_data "changes" = Some (changes_value changes) ->
          dict_get result_data "has_changes" = Some (VBool (has_changes changes)) ->
          _generate_result_message (VStr "plan") result_data log
          = (Returned (if has_changes changes
                       then "Plan: " +:+ Str.of_Z (add changes) +:+ " to add, "
                            +:+ Str.of_Z (change changes) +:+ " to change, "
                            +:+ Str.of_Z (destroy changes) +:+ " to destroy"
                       else "No changes. Infrastructure is up-to-date"), log)
  | Raised e =>
      exn_type e = "ValueError"
      /\ (int_max_str_digits < String.length output)%nat
  end
  /\ match _parse_apply_results output with
     | Returned results =>
         0 <= added results /\ 0 <= changed results /\ 0 <= destroyed results
     | Raised e =>
         exn_type e = "ValueError"
         /\ (int_max_str_digits < String.length output)%nat
     end
  /\ match _count_destroyed output with
     | Returned count => 0 <= count
     | Raised e =>
         exn_type e = "ValueError"
         /\ (int_max_str_digits < String.length output)%nat
     end.
Proof.
  split; [|split].
  - unfold _parse_plan_changes.
    destruct (Re.search plan_summary output) as [g|] eqn:Hs.
    2: { split; [simpl; lia|]. split; [now split|].
         intros result_data log Hc Hh. unfold _generate_result_message.
         change (eq_text (VStr "plan") "init") with false.
         change (eq_text (VStr "plan") "validate") with false.
         change (eq_text (VStr "plan") "plan") with true.
         cbv iota. now rewrite Hh. }
    pose proof Hs as Hlen.
    apply search_sound in Hs as (before & found & -> & Hm).
    apply match_here_sound in Hm as [rest Hm].
    apply plan_match_is_line in Hm as (a & c & d & Ha & Hc & Hd & -> & _).
    cbn [Re.group nth Nat.sub].
    destruct (int a) as [na|ea] eqn:Ea; cbn [obind];
      [|exact (long_count _ _ _ 1%nat _ Hlen Ea)].
    destruct (int c) as [nc|ec] eqn:Ec; cbn [obind];
      [|exact (long_count _ _ _ 2%nat _ Hlen Ec)].
    destruct (int d) as [nd|ed] eqn:Ed; cbn [obind];
      [|exact (long_count _ _ _ 3%nat _ Hlen Ed)].
    pose proof (int_numeral_nonneg a na Ha Ea).
    pose proof (int_numeral_nonneg c nc Hc Ec).
    pose proof (int_numeral_nonneg d nd Hd Ed).
    cbn [add change destroy]. split; [auto|]. split.
    + unfold has_changes. cbn [existsb add change destroy].
      rewrite orb_false_r, !orb_false_iff, !Z.ltb_ge. lia.
    + intros result_data log Hcs Hh. unfold _generate_result_message.
      change (eq_text (VStr "plan") "init") with false.
      change (eq_text (VStr "plan") "validate") with false.
      change (eq_text (VStr "plan") "plan") with true.
      cbv iota. rewrite Hcs, Hh. cbn [default from_option id truthy].
      destruct (has_changes _); [|reflexivity].
      unfold changes_value. cbn [add change destroy subscript].
      unfold dict_getitem. cbn [dict_get List.find fst snd option_map String.eqb
                                 Ascii.eqb Bool.eqb].
      unfold bind at 1. unfold ret at 1.
      rewrite (bind_returned _ _ _ _ _ (format_count a na log Ha Ea)).
      unfold bind at 1. unfold ret at 1.
      rewrite (bind_returned _ _ _ _ _ (format_count c nc log Hc Ec)).
      unfold bind at 1. unfold ret at 1.
      now rewrite (bind_returned _ _ _ _ _ (format_count d nd log Hd Ed)).
  - pose proof (apply_results_shape output) as Hshape.
    destruct (_parse_apply_results output) as [results|e].
    + destruct Hshape as [[-> _]|(before & a & c & d & after & Ha & Hc & Hd & _ & ->)].
      * simpl. lia.
      * cbn [added changed destroyed].
        destruct Ha as [_ Ha], Hc as [_ Hc], Hd as [_ Hd].
        pose proof (int_numeral_range a Ha). pose proof (int_numeral_range c Hc).
        pose proof (int_numeral_range d Hd). lia.
    + destruct Hshape as (He & before & a & c & d & after & _ & _ & _ & -> & Hl).
      split; [exact He|]. unfold apply_line. rewrite !length_append. lia.
  - unfold _count_destroyed.
    destruct (Re.search destroy_summary output) as [g|] eqn:Hs; [|lia].
    pose proof Hs as Hlen.
    apply search_sound in Hs as (before & found & -> & Hm).
    apply match_here_sound in Hm as [rest Hm].
    apply destroy_match_is_line in Hm as (n & Hn & -> & _).
    cbn [Re.group nth Nat.sub].
    destruct (int n) as [count|e] eqn:En.
    + exact (int_numeral_nonneg n count Hn En).
    + exact (long_count _ _ _ 1%nat _ Hlen En).
Qed.

End CountFacts.

(** ** Providers *)

Section ProviderFacts.
Import TerraformCommand.

Lemma match_rest_sound p s g rest :
  Re.match_rest p s = Some (g, rest) -> matches p s g rest.
Proof.
  revert s g. induction p as [|i p IH]; intros s g; simpl.
  - intros [= <- <-]. constructor.
  - destruct i as [l|c|c|c].
    + destruct (Str.startswith l s) eqn:El; [|discriminate].
      intros Hm. apply IH in Hm.
      rewrite (startswith_split _ _ El). now constructor.
    + intros Hm. apply greedy1_sound in Hm as (m & r & -> & Hne & Hc & Hm).
      apply IH in Hm. now constructor.
    + intros Hm. apply lazy0_sound in Hm as (m & r & -> & Hc & Hm).
      apply IH in Hm. now constructor.
    + intros Hm. apply greedy1_sound in Hm as (m & r & -> & Hne & Hc & Hm).
      destruct (Re.match_rest p r) as [[g' rest']|] eqn:Eg; [|discriminate].
      injection Hm as <- <-. apply IH in Eg. now constructor.
Qed.

(** Every match that [finditer] yields is a match at some position. *)
Lemma finditer_from_sound p k s g :
  In g (Re.finditer_from p k s) ->
  exists before found rest,
    s = before +:+ found /\ Re.match_rest p found = Some (g, rest).
Proof.
  revert k. induction s as [|a s IH]; intros k; cbn [Re.finditer_from].
  - destruct k; [|easy].
    destruct (Re.match_rest p EmptyString) as [[g' rest]|] eqn:E; [|easy].
    intros [->|[]]. now exists EmptyString, EmptyString, rest.
  - destruct k as [|k].
    + destruct (Re.match_rest p (String a s)) as [[g' rest]|] eqn:E.
      * intros [->|Hin].
        -- now exists EmptyString, (String a s), rest.
        -- apply IH in Hin as (before & found & rest' & -> & Hm).
           now exists (String a before), found, rest'.
      * intros Hin. apply IH in Hin as (before & found & rest' & -> & Hm).
        now exists (String a before), found, rest'.
    + intros Hin. apply IH in Hin as (before & found & rest' & -> & Hm).
      now exists (String a before), found, rest'.
Qed.

Lemma finditer_from_absent l q k s :
  Str.contains l s = false -> Re.finditer_from (Re.Lit l :: q) k s = [].
Proof.
  revert k. induction s as [|a s IH]; intros k; cbn [Re.finditer_from Str.contains].
  - rewrite orb_false_r. intros Hl. cbn [Re.match_rest]. rewrite Hl. now destruct k.
  - intros Hl. apply orb_false_iff in Hl as [Hl Hs]. destruct k as [|k].
    + cbn [Re.match_rest]. rewrite Hl. now apply IH.
    + now apply IH.
Qed.

(** X18.  Each provider that is listed has the form [name@version], with a
    name free of white space and a version made of digits and dots, both
    non-empty, and the line part [- Installed name vversion] stands in the
    output; an output without [- Installed ] lists none. *)
Theorem providers_stand_in_output (output : string) :
  (forall provider, In provider (_parse_providers output) ->
      exists name version,
        provider = name +:+ "@" +:+ version
        /\ name <> EmptyString /\ all_in Re.nonspace name
        /\ version <> EmptyString /\ all_in Re.digit_or_dot version
        /\ Str.contains ("- Installed " +:+ name +:+ " v" +:+ version) output = true)
  /\ (Str.contains "- Installed " output = false -> _parse_providers output = []).
Proof.
  unfold _parse_providers. split.
  - intros provider Hin. apply in_map_iff in Hin as (g & <- & Hin).
    apply finditer_from_sound in Hin as (before & found & rest & -> & Hm).
    apply match_rest_sound in Hm. unfold installed_provider in Hm.
    repeat match goal with
           | Hm : matches (_ :: _) _ _ _ |- _ => inversion Hm; subst; clear Hm
           | Hm : matches [] _ _ _ |- _ => inversion Hm; subst; clear Hm
           end.
    exists m, m0. cbn [Re.group nth Nat.sub]. repeat split; try assumption.
    rewrite <- (append_assoc " v" m0 rest).
    rewrite <- (append_assoc m (" v" +:+ m0) rest).
    rewrite <- (append_assoc "- Installed " (m +:+ " v" +:+ m0) rest).
    apply contains_middle.
  - intros Ha. unfold Re.finditer, installed_provider.
    now rewrite finditer_from_absent.
Qed.

End ProviderFacts.

(** ** Workspaces and initialization *)

Section WorkspaceFacts.
Context `{PyFloat} (env : Env).
Import TerraformCommand.

(** X19.  Select-or-create: the workspace is created only when selecting
    it exits non-zero, by a second process that follows the first.  The
    function returns when the select, or else the create, exits zero; when
    both exit non-zero it raises CalledProcessError. *)
Theorem workspace_is_selected_or_created (workspace working_dir : string)
        (log : list Invocation) :
  let select :=
    {| inv_cmd := Argv ["terraform"; "workspace"; "select"; workspace];
       inv_cwd := Some working_dir; inv_input := None |} in
  let create :=
    {| inv_cmd := Argv ["terraform"; "workspace"; "new"; workspace];
       inv_cwd := Some working_dir; inv_input := None |} in
  match _select_workspace env (VStr workspace) working_dir log with
  | (Returned _, log') =>
      (exists selected,
          spawn env log select = Returned selected /\ returncode selected = 0
          /\ log' = log ++ [select])
      \/ (exists selected created,
             spawn env log select = Returned selected /\ returncode selected <> 0
             /\ spawn env (log ++ [select]) create = Returned created
             /\ returncode created = 0
             /\ log' = log ++ [select; create])
  | (Raised e, log') =>
      (spawn env log select = Raised e /\ log' = log ++ [select])
      \/ (exists selected,
             spawn env log select = Returned selected /\ returncode selected <> 0
             /\ log' = log ++ [select; create]
             /\ (spawn env (log ++ [select]) create = Raised e
                 \/ exists created,
                     spawn env (log ++ [select]) create = Returned created
                     /\ returncode created <> 0
                     /\ exn_type e = "CalledProcessError"))
  end.
Proof.
  intros select create.
  unfold _select_workspace, subprocess_run_check. cbn [argv].
  unfold bind, ret, subprocess_run, raise. fold select. fold create.
  destruct (spawn env log select) as [selected|e] eqn:Es.
  - destruct (returncode selected =? 0) eqn:Er; cbn [negb].
    + left. exists selected. repeat split. now apply Z.eqb_eq.
    + apply Z.eqb_neq in Er.
      destruct (spawn env (log ++ [select]) create) as [created|e] eqn:Ec.
      * destruct (returncode created =? 0) eqn:Erc.
        -- right. exists selected, created. rewrite <- app_assoc.
           repeat split; try assumption. now apply Z.eqb_eq.
        -- right. exists selected. rewrite <- app_assoc.
           repeat split; try assumption. right. exists created.
           repeat split. now apply Z.eqb_neq.
      * right. exists selected. rewrite <- app_assoc.
        repeat split; try assumption. now left.
  - now left.
Qed.

Lemma argv_inversion parts log args log' :
  argv parts log = (Returned args, log') ->
  parts = map (fun s => VStr s) args /\ log' = log.
Proof.
  revert args log'. induction parts as [|v parts IH]; intros args log'.
  - simpl. unfold ret. now intros [= <- <-].
  - cbn [argv]. destruct v as [[| | | |s]| |]; try discriminate.
    intros E. apply bind_inversion in E as (args' & l & E & Er).
    apply IH in E as [-> ->]. unfold ret in Er. now injection Er as <- <-.
Qed.

Lemma for_each_appends {A} (l : list A) (body : list value -> A -> M (list value)) :
  (forall acc x log r log',
      body acc x log = (Returned r, log') -> (exists extra, r = acc ++ extra) /\ log' = log) ->
  forall acc log r log',
    for_each l body acc log = (Returned r, log') ->
    (exists extra, r = acc ++ extra) /\ log' = log.
Proof.
  intros Hb. induction l as [|x l IH]; intros acc log r log'; cbn [for_each].
  - unfold ret. intros [= <- <-]. split; [|reflexivity]. exists []. now rewrite app_nil_r.
  - intros E. apply bind_inversion in E as (acc' & l' & E & Er).
    apply Hb in E as [[extra ->] ->]. apply IH in Er as [[extra' ->] ->].
    split; [|reflexivity]. exists (extra ++ extra'). now rewrite app_assoc.
Qed.

Lemma argv_shape (args : list string) first second middle last :
  map (fun s => VStr s) args = VStr first :: VStr second :: middle ++ [VStr last] ->
  exists flags, args = first :: second :: flags ++ [last].
Proof.
  destruct args as [|a [|b rest]]; try discriminate.
  cbn [map]. intros [= -> -> Hr].
  apply map_eq_app in Hr as (flags & final & -> & _ & Hf).
  destruct final as [|z [|? ?]]; try discriminate.
  injection Hf as ->. now exists flags.
Qed.

(** X20.  Whatever the parameters, [terraform init] is run at most once,
    in the working directory, and its command line begins with
    [terraform init] and ends with [-no-color], on which the parsing of
    its output relies; [terraform validate] is always run as
    [terraform validate -no-color]. *)
Theorem init_runs_without_color (params : Parameters) (working_dir : string)
        (log : list Invocation) :
  (let '(_, log') := _execute_init env params working_dir log in
   log' = log
   \/ exists flags,
       log' = log ++ [{| inv_cmd := Argv ("terraform" :: "init"
                                          :: flags ++ ["-no-color"]);
                         inv_cwd := Some working_dir;
                         inv_input := None |}])
  /\ (let '(_, log') := _execute_validate env working_dir log in
      log' = log ++ [{| inv_cmd := Argv ["terraform"; "validate"; "-no-color"];
                        inv_cwd := Some working_dir;
                        inv_input := None |}]).
Proof.
  split.
  - unfold _execute_init.
    destruct (items (_get_parameter params "backend_config" (VDict [])) log)
      as [[backend|e] l] eqn:Ei;
      (assert (l = log) as ->
          by (eapply (spawns_nothing_result _ log); [apply items_spawns_nothing|exact Ei])).
    2: { rewrite (bind_raised _ _ _ _ _ Ei). now left. }
    rewrite (bind_returned _ _ _ _ _ Ei).
    match goal with
    | |- context [bind (for_each backend ?body ?acc) ?k log] =>
        destruct (for_each backend body acc log) as [[cmd|e] l] eqn:Ef;
        (assert (l = log) as ->
            by (eapply (spawns_nothing_result (for_each backend body acc) log);
                [apply for_each_spawns_nothing; intros; quiet | exact Ef]))
    end.
    2: { rewrite (bind_raised _ _ _ _ _ Ef). now left. }
    rewrite (bind_returned _ _ _ _ _ Ef).
    apply for_each_appends in Ef as [[extra ->] _].
    2: { intros acc x lg r lg' E.
         apply bind_inversion in E as (shown & lg0 & E & Er).
         assert (lg0 = lg) as ->
           by (eapply (spawns_nothing_result _ lg); [apply format_spawns_nothing|exact E]).
         unfold ret in Er. injection Er as <- <-. split; [now eexists|reflexivity]. }
    unfold run_command.
    match goal with
    | |- context [bind (argv ?parts) ?k log] =>
        destruct (argv parts log) as [[args|e] l] eqn:Ea;
        (assert (l = log) as ->
            by (eapply (spawns_nothing_result _ log); [apply argv_spawns_nothing|exact Ea]))
    end.
    2: { rewrite (bind_raised _ _ _ _ _ Ea). now left. }
    rewrite (bind_returned _ _ _ _ _ Ea).
    pose proof (run_terraform_spec env args working_dir log) as Hr.
    cbv zeta in Hr. rewrite Hr. clear Hr.
    right. apply argv_inversion in Ea as [Ha _].
    destruct (argv_shape args "terraform" "init"
                (extra
                 ++ (if truthy (_get_parameter params "reconfigure" (VBool false))
                     then [VStr "-reconfigure"] else [])
                 ++ (if truthy (_get_parameter params "upgrade" (VBool false))
                     then [VStr "-upgrade"] else []))
                "-no-color") as [flags ->].
    { rewrite <- Ha. unfold _build_base_command.
      destruct (truthy (_get_parameter params "reconfigure" (VBool false)));
        destruct (truthy (_get_parameter params "upgrade" (VBool false)));
        rewrite <- ?app_assoc; cbn [app]; rewrite ?app_nil_r; reflexivity. }
    now exists flags.
  - unfold _execute_validate, run_command.
    assert (Ea : argv (_build_base_command ++ [VStr "validate"; VStr "-no-color"]) log
                 = (Returned ["terraform"; "validate"; "-no-color"], log))
      by reflexivity.
    rewrite (bind_returned _ _ _ _ _ Ea).
    pose proof (run_terraform_spec env ["terraform"; "validate"; "-no-color"]
                                   working_dir log) as Hr.
    cbv zeta in Hr. now rewrite Hr.
Qed.

End WorkspaceFacts.

(** ** What validation accepts *)

Section AcceptanceFacts.
Context `{PyFloat} (env : Env).

Lemma raise_never_returns {A} e : never_returns (@raise A e).
Proof. intros log a log'. discriminate. Qed.

Lemma bind_never_returns {A B} (m : M A) (k : A -> M B) :
  (forall a, never_returns (k a)) -> never_returns (bind m k).
Proof.
  intros Hk log b log' E. apply bind_inversion in E as (a & l & _ & E).
  exact (Hk a l b log' E).
Qed.

(** A guard [if b: raise ...] lets through only when [b] is false. *)
Lemma guard_inversion (b : bool) (m : M unit) log u log' :
  never_returns m ->
  (if b then m else ret tt) log = (Returned u, log') -> b = false /\ log' = log.
Proof.
  intros Hm. destruct b.
  - intros E. now apply Hm in E.
  - unfold ret. now intros [= _ <-].
Qed.

Lemma require_inversion params names log u log' :
  _require_parameters params names log = (Returned u, log') ->
  (forall k, In k names -> params !! k <> None) /\ log' = log.
Proof.
  unfold _require_parameters.
  destruct (missing_parameters params names) as [|k0 ks] eqn:Em; [|discriminate].
  unfold ret. intros [= _ <-]. split; [|reflexivity].
  intros k Hin Hk.
  assert (In k (missing_parameters params names))
    by (apply missing_parameters_spec; now split).
  rewrite Em in *. easy.
Qed.

Lemma require_returns params names log :
  (forall k, In k names -> params !! k <> None) ->
  _require_parameters params names log = (Returned tt, log).
Proof.
  intros Hk. unfold _require_parameters.
  destruct (missing_parameters params names) as [|k0 ks] eqn:Em; [reflexivity|].
  assert (Hin : In k0 (missing_parameters params names)) by (rewrite Em; now left).
  apply missing_parameters_spec in Hin as [Hin Hn]. now apply Hk in Hin.
Qed.

Lemma table_contains_inversion table v log known log' :
  table_contains table v log = (Returned known, log') ->
  log' = log
  /\ (known = true <-> exists k, v = VStr k /\ In k (map fst table)).
Proof.
  unfold table_contains, text_key, bind, ret.
  destruct v as [[| | | |s]| |]; try discriminate; intros [= <- <-];
    (split; [reflexivity|]);
    try (split; [discriminate | now intros (k & [=] & _)]).
  rewrite existsb_exists. split.
  - intros ([k x] & Hin & Hk). apply String.eqb_eq in Hk. simpl in Hk. subst k.
    exists s. split; [reflexivity|]. apply in_map_iff. now exists (s, x).
  - intros (k & [= <-] & Hin). apply in_map_iff in Hin as ([k x] & <- & Hin).
    exists (k, x). split; [exact Hin|]. apply String.eqb_refl.
Qed.

Lemma in_texts_iff (v : value) texts :
  in_texts v texts = true <-> exists s, v = VStr s /\ In s texts.
Proof.
  unfold in_texts. rewrite existsb_exists. split.
  - intros (t & Hin & Ht). unfold eq_text in Ht.
    destruct v as [[| | | |s]| |]; try discriminate.
    apply String.eqb_eq in Ht as ->. now exists t.
  - intros (s & -> & Hin). exists s. split; [exact Hin|]. apply String.eqb_refl.
Qed.

Lemma Path_inversion v log path log' :
  Path env v log = (Returned path, log') ->
  exists s, v = VStr s /\ path = path_str env s /\ log' = log.
Proof.
  unfold Path. destruct v as [[| | | |s]| |]; try discriminate.
  unfold ret. intros [= <- <-]. now exists s.
Qed.

(** X1.  The test command accepts a parameter mapping exactly when
    [test_framework] is one of the five framework names and [project_path]
    is a text naming an existing path; the build command exactly when
    [build_tool] is one of the five tool names and [project_path] is such a
    text.  No other parameter is looked at. *)
Theorem test_and_build_validation_accepts (params : Parameters) (log : list Invocation) :
  (TestCommand.validate_parameters env params log = (Returned tt, log) <->
   exists framework path,
     params !! "test_framework" = Some (VStr framework)
     /\ In framework ["maven"; "gradle"; "pytest"; "jest"; "gotest"]
     /\ params !! "project_path" = Some (VStr path)
     /\ path_exists env (path_str env path) = true)
  /\ (BuildCommand.validate_parameters env params log = (Returned tt, log) <->
      exists tool path,
        params !! "build_tool" = Some (VStr tool)
        /\ In tool ["maven"; "gradle"; "npm"; "pip"; "go"]
        /\ params !! "project_path" = Some (VStr path)
        /\ path_exists env (path_str env path) = true).
Proof.
  split; split.
  - unfold TestCommand.validate_parameters. intros E.
    apply bind_inversion in E as (u0 & l0 & E0 & E).
    apply require_inversion in E0 as [_ ->].
    apply bind_inversion in E as (framework & l1 & E1 & E).
    pose proof (getitem_inversion _ _ _ _ _ E1) as Hf.
    rewrite (getitem_returned _ _ _ log Hf) in E1. injection E1 as <-.
    apply bind_inversion in E as (known & l2 & E2 & E).
    apply table_contains_inversion in E2 as [-> Hk].
    apply bind_inversion in E as (u1 & l3 & E3 & E).
    apply guard_inversion in E3 as [Hg ->];
      [|apply bind_never_returns; intros; apply raise_never_returns].
    apply negb_false_iff in Hg. apply Hk in Hg as (k & -> & Hin).
    apply bind_inversion in E as (path_value & l4 & E4 & E).
    pose proof (getitem_inversion _ _ _ _ _ E4) as Hp.
    rewrite (getitem_returned _ _ _ log Hp) in E4. injection E4 as <-.
    apply bind_inversion in E as (path & l5 & E5 & E).
    apply Path_inversion in E5 as (s & -> & -> & ->).
    apply guard_inversion in E as [He _]; [|apply raise_never_returns].
    apply negb_false_iff in He. now exists k, s.
  - intros (framework & path & Hf & Hin & Hp & He).
    unfold TestCommand.validate_parameters.
    assert (Hr : _require_parameters params ["test_framework"; "project_path"] log
                 = (Returned tt, log))
      by (apply require_returns; intros k [<-|[<-|[]]]; congruence).
    rewrite (bind_returned _ _ _ _ _ Hr).
    rewrite (bind_returned _ _ _ _ _ (getitem_returned _ _ _ log Hf)).
    assert (Hk : table_contains TestCommand.DEFAULT_TEST_COMMANDS (VStr framework) log
                 = (Returned true, log)).
    { unfold table_contains, text_key, bind, ret. f_equal. f_equal.
      simpl in Hin. decompose [or] Hin; subst; try reflexivity. easy. }
    rewrite (bind_returned _ _ _ _ _ Hk). cbn [negb]. unfold bind at 1. unfold ret at 1.
    rewrite (bind_returned _ _ _ _ _ (getitem_returned _ _ _ log Hp)).
    unfold Path, bind, ret. now rewrite He.
  - unfold BuildCommand.validate_parameters. intros E.
    apply bind_inversion in E as (u0 & l0 & E0 & E).
    apply require_inversion in E0 as [_ ->].
    apply bind_inversion in E as (tool & l1 & E1 & E).
    pose proof (getitem_inversion _ _ _ _ _ E1) as Hf.
    rewrite (getitem_returned _ _ _ log Hf) in E1. injection E1 as <-.
    apply bind_inversion in E as (known & l2 & E2 & E).
    apply table_contains_inversion in E2 as [-> Hk].
    apply bind_inversion in E as (u1 & l3 & E3 & E).
    apply guard_inversion in E3 as [Hg ->];
      [|apply bind_never_returns; intros; apply raise_never_returns].
    apply negb_false_iff in Hg. apply Hk in Hg as (k & -> & Hin).
    apply bind_inversion in E as (path_value & l4 & E4 & E).
    pose proof (getitem_inversion _ _ _ _ _ E4) as Hp.
    rewrite (getitem_returned _ _ _ log Hp) in E4. injection E4 as <-.
    apply bind_inversion in E as (path & l5 & E5 & E).
    apply Path_inversion in E5 as (s & -> & -> & ->).
    apply guard_inversion in E as [He _]; [|apply raise_never_returns].
    apply negb_false_iff in He. now exists k, s.
  - intros (tool & path & Hf & Hin & Hp & He).
    unfold BuildCommand.validate_parameters.
    assert (Hr : _require_parameters params ["build_tool"; "project_path"] log
                 = (Returned tt, log))
      by (apply require_returns; intros k [<-|[<-|[]]]; congruence).
    rewrite (bind_returned _ _ _ _ _ Hr).
    rewrite (bind_returned _ _ _ _ _ (getitem_returned _ _ _ log Hf)).
    assert (Hk : table_contains BuildCommand.DEFAULT_BUILD_COMMANDS (VStr tool) log
                 = (Returned true, log)).
    { unfold table_contains, text_key, bind, ret. f_equal. f_equal.
      simpl in Hin. decompose [or] Hin; subst; try reflexivity. easy. }
    rewrite (bind_returned _ _ _ _ _ Hk). cbn [negb]. unfold bind at 1. unfold ret at 1.
    rewrite (bind_returned _ _ _ _ _ (getitem_returned _ _ _ log Hp)).
    unfold Path, bind, ret. now rewrite He.
Qed.

(** X2.  The container command accepts a parameter mapping exactly when
    [operation] is one of the three operation names, [image_name] is present
    (with any value), and, unless the operation is [push], the
    [dockerfile_path] parameter (default [./Dockerfile]) is a text naming an
    existing path.  A [push] is accepted without any Dockerfile. *)
Theorem docker_validation_accepts (params : Parameters) (log : list Invocation) :
  DockerCommand.validate_parameters env params log = (Returned tt, log) <->
  exists operation,
    params !! "operation" = Some (VStr operation)
    /\ In operation ["build"; "push"; "build-and-push"]
    /\ params !! "image_name" <> None
    /\ (operation = "push"
        \/ exists dockerfile,
             _get_parameter params "dockerfile_path" (VStr "./Dockerfile")
             = VStr dockerfile
             /\ path_exists env (path_str env dockerfile) = true).
Proof.
  unfold DockerCommand.validate_parameters. split.
  - intros E.
    apply bind_inversion in E as (u0 & l0 & E0 & E).
    apply require_inversion in E0 as [Hreq ->].
    apply bind_inversion in E as (operation & l1 & E1 & E).
    pose proof (getitem_inversion _ _ _ _ _ E1) as Ho.
    rewrite (getitem_returned _ _ _ log Ho) in E1. injection E1 as <-.
    apply bind_inversion in E as (u1 & l2 & E2 & E).
    apply guard_inversion in E2 as [Hg ->];
      [|apply bind_never_returns; intros; apply raise_never_returns].
    apply negb_false_iff in Hg. apply in_texts_iff in Hg as (op & -> & Hin).
    exists op. split; [exact Ho|]. split; [exact Hin|].
    split; [apply Hreq; right; now left|].
    destruct Hin as [<-|[<-|[<-|[]]]].
    + right. change (in_texts (VStr "build") ["build"; "build-and-push"]) with true in E.
      cbn iota in E.
      apply bind_inversion in E as (path & l3 & E3 & E).
      apply Path_inversion in E3 as (d & Hd & -> & ->).
      apply guard_inversion in E as [He _]; [|apply raise_never_returns].
      apply negb_false_iff in He. now exists d.
    + now left.
    + right.
      change (in_texts (VStr "build-and-push") ["build"; "build-and-push"]) with true in E.
      cbn iota in E.
      apply bind_inversion in E as (path & l3 & E3 & E).
      apply Path_inversion in E3 as (d & Hd & -> & ->).
      apply guard_inversion in E as [He _]; [|apply raise_never_returns].
      apply negb_false_iff in He. now exists d.
  - intros (op & Ho & Hin & Hi & Hd).
    assert (Hr : _require_parameters params ["operation"; "image_name"] log
                 = (Returned tt, log))
      by (apply require_returns; intros k [<-|[<-|[]]]; congruence).
    rewrite (bind_returned _ _ _ _ _ Hr).
    rewrite (bind_returned _ _ _ _ _ (getitem_returned _ _ _ log Ho)).
    assert (Hv : in_texts (VStr op) DockerCommand.VALID_OPERATIONS = true)
      by (apply in_texts_iff; now exists op).
    rewrite Hv. cbn [negb]. unfold bind at 1. unfold ret at 1.
    destruct Hd as [->|(d & Hd & He)]; [reflexivity|].
    destruct (in_texts (VStr op) ["build"; "build-and-push"]); [|reflexivity].
    rewrite Hd. unfold Path, bind, ret. now rewrite He.
Qed.

(** X3.  The Terraform command accepts a parameter mapping exactly when
    [operation] is one of the six operation names, [working_dir] is a text
    naming an existing path, and that directory holds a [*.tf] file or the
    operation is [init]. *)
Theorem terraform_validation_accepts (params : Parameters) (log : list Invocation) :
  TerraformCommand.validate_parameters env params log = (Returned tt, log) <->
  exists operation working_dir,
    params !! "operation" = Some (VStr operation)
    /\ In operation ["init"; "plan"; "apply"; "destroy"; "validate"; "output"]
    /\ params !! "working_dir" = Some (VStr working_dir)
    /\ path_exists env (path_str env working_dir) = true
    /\ (operation = "init"
        \/ path_glob env (path_str env working_dir) "*.tf" <> []).
Proof.
  unfold TerraformCommand.validate_parameters. split.
  - intros E.
    apply bind_inversion in E as (u0 & l0 & E0 & E).
    apply require_inversion in E0 as [_ ->].
    apply bind_inversion in E as (operation & l1 & E1 & E).
    pose proof (getitem_inversion _ _ _ _ _ E1) as Ho.
    rewrite (getitem_returned _ _ _ log Ho) in E1. injection E1 as <-.
    apply bind_inversion in E as (u1 & l2 & E2 & E).
    apply guard_inversion in E2 as [Hg ->];
      [|apply bind_never_returns; intros; apply raise_never_returns].
    apply negb_false_iff in Hg. apply in_texts_iff in Hg as (op & -> & Hin).
    apply bind_inversion in E as (dir_value & l3 & E3 & E).
    pose proof (getitem_inversion _ _ _ _ _ E3) as Hw.
    rewrite (getitem_returned _ _ _ log Hw) in E3. injection E3 as <-.
    apply bind_inversion in E as (path & l4 & E4 & E).
    apply Path_inversion in E4 as (wd & -> & -> & ->).
    apply bind_inversion in E as (u2 & l5 & E5 & E).
    apply guard_inversion in E5 as [He ->]; [|apply raise_never_returns].
    apply negb_false_iff in He.
    exists op, wd. repeat (split; [assumption|]).
    destruct (path_glob env (path_str env wd) "*.tf") as [|f fs]; [|now right].
    left. apply guard_inversion in E as [Hi _]; [|apply raise_never_returns].
    apply negb_false_iff in Hi. now apply String.eqb_eq in Hi.
  - intros (op & wd & Ho & Hin & Hw & He & Hf).
    assert (Hr : _require_parameters params ["operation"; "working_dir"] log
                 = (Returned tt, log))
      by (apply require_returns; intros k [<-|[<-|[]]]; congruence).
    rewrite (bind_returned _ _ _ _ _ Hr).
    rewrite (bind_returned _ _ _ _ _ (getitem_returned _ _ _ log Ho)).
    assert (Hv : in_texts (VStr op) TerraformCommand.VALID_OPERATIONS = true)
      by (apply in_texts_iff; now exists op).
    rewrite Hv. cbn [negb]. unfold bind at 1. unfold ret at 1.
    rewrite (bind_returned _ _ _ _ _ (getitem_returned _ _ _ log Hw)).
    unfold Path. unfold bind at 1. unfold ret at 1.
    rewrite He. cbn [negb]. unfold bind at 1. unfold ret at 1.
    destruct (path_glob env (path_str env wd) "*.tf") as [|f fs]; [|reflexivity].
    destruct Hf as [->|Hf]; [reflexivity|now destruct Hf].
Qed.

End AcceptanceFacts.

(** ** How the command lines are assembled *)

Section AssemblyFacts.
Context `{PyFloat} (env : Env).

(** The command text the assembler starts from: the override when it is
    given, the table entry of the tool otherwise. *)
Lemma base_command_chosen (override key : string) (table : list (string * string))
      (params : Parameters) (c : string) log :
  List.NoDup (map fst table) ->
  (params !! override = Some (VStr c)
   \/ (params !! override = None
       /\ exists tool, params !! key = Some (VStr tool) /\ In (tool, c) table)) ->
  (match params !! override with
   | Some v => ret v
   | None =>
       tool <- getitem params key ;;
       default_command <- table_getitem table tool ;;
       ret (VStr default_command)
   end) log = (Returned (VStr c), log).
Proof.
  intros Hnd [->|[-> (tool & Ht & Hin)]]; [reflexivity|].
  rewrite (bind_returned _ _ _ _ _ (getitem_returned _ _ _ log Ht)).
  assert (Hg : table_getitem table (VStr tool) log = (Returned c, log)).
  { unfold table_getitem, text_key, bind, ret.
    induction table as [|[k x] table IH]; [easy|].
    cbn [List.find fst]. inversion Hnd as [|? ? Hk Hnd']; subst.
    destruct Hin as [[= -> ->]|Hin].
    - now rewrite String.eqb_refl.
    - destruct (String.eqb k tool) eqn:Ek.
      + apply String.eqb_eq in Ek as ->. exfalso. apply Hk.
        apply in_map_iff. now exists (tool, c).
      + now apply IH. }
  now rewrite (bind_returned _ _ _ _ _ Hg).
Qed.

(** X4.  The test assembler picks its flags by the text of the command, not
    by the framework: when the command it starts from (a text given as the
    override, or the framework's default) contains none of [maven],
    [gradle], [pytest] and [jest], the coverage, fail-fast, parallel and
    pattern parameters change nothing and only [test_arguments] is
    appended, as the text that [str] gives for it, whatever value it is (for
    a list, its repr).  The defaults of maven ([mvn test]) and jest
    ([npm test]) are such commands. *)
Theorem test_flags_follow_command_text (params : Parameters) (c : string)
        (log : list Invocation) :
  (params !! "test_command" = Some (VStr c)
   \/ (params !! "test_command" = None
       /\ exists framework,
            params !! "test_framework" = Some (VStr framework)
            /\ In (framework, c) TestCommand.DEFAULT_TEST_COMMANDS)) ->
  Str.contains "maven" c = false ->
  Str.contains "gradle" c = false ->
  Str.contains "pytest" c = false ->
  Str.contains "jest" c = false ->
  TestCommand._prepare_test_command params log
  = (let test_arguments := _get_parameter params "test_arguments" (VStr "") in
     if truthy test_arguments then
       shown <- format test_arguments ;;
       ret (VStr (c +:+ " " +:+ shown))
     else ret (VStr c)) log.
Proof.
  intros Hc Hm Hg Hp Hj. unfold TestCommand._prepare_test_command.
  assert (Hnd : List.NoDup (map fst TestCommand.DEFAULT_TEST_COMMANDS))
    by (repeat constructor; cbn; intuition discriminate).
  rewrite (bind_returned _ _ _ _ _
             (base_command_chosen "test_command" "test_framework"
                TestCommand.DEFAULT_TEST_COMMANDS params c log Hnd Hc)).
  cbv zeta.
  destruct (truthy (_get_parameter params "coverage_enabled" _));
    destruct (truthy (_get_parameter params "fail_fast" _));
    destruct (truthy (_get_parameter params "parallel_execution" _));
    destruct (truthy (_get_parameter params "test_pattern" _));
    destruct (truthy (_get_parameter params "test_arguments" _));
    unfold contains_text, iadd_text, bind, ret; cbv beta iota;
    repeat (progress (rewrite ?Hm, ?Hg, ?Hp, ?Hj; cbv beta iota));
    reflexivity.
Qed.

(** X5.  The build assembler too goes by the command text: when the command
    it starts from (a text given as the override, or the tool's default)
    contains neither [maven] nor [gradle], [skip_tests] changes nothing;
    the command is the starting one, without its [clean ] when
    [clean_before_build] is false, followed by [build_arguments] as the
    text that [str] gives for it, whatever value it is (for a list, its
    repr).  The default of maven ([mvn clean install]) is such a
    command. *)
Theorem skip_tests_follows_command_text (params : Parameters) (c : string)
        (log : list Invocation) :
  (params !! "build_command" = Some (VStr c)
   \/ (params !! "build_command" = None
       /\ exists tool,
            params !! "build_tool" = Some (VStr tool)
            /\ In (tool, c) BuildCommand.DEFAULT_BUILD_COMMANDS)) ->
  Str.contains "maven" c = false ->
  Str.contains "gradle" c = false ->
  BuildCommand._prepare_build_command params log
  = (let clean_before_build :=
       _get_parameter params "clean_before_build" (VBool true) in
     let base_command :=
       if negb (truthy clean_before_build) then Str.replace "clean " "" c else c in
     let build_arguments := _get_parameter params "build_arguments" (VStr "") in
     if truthy build_arguments then
       shown <- format build_arguments ;;
       ret (VStr (base_command +:+ " " +:+ shown))
     else ret (VStr base_command)) log.
Proof.
  intros Hc Hm Hg. unfold BuildCommand._prepare_build_command.
  assert (Hnd : List.NoDup (map fst BuildCommand.DEFAULT_BUILD_COMMANDS))
    by (repeat constructor; cbn; intuition discriminate).
  rewrite (bind_returned _ _ _ _ _
             (base_command_chosen "build_command" "build_tool"
                BuildCommand.DEFAULT_BUILD_COMMANDS params c log Hnd Hc)).
  cbv zeta.
  destruct (truthy (_get_parameter params "skip_tests" _));
    destruct (truthy (_get_parameter params "clean_before_build" _));
    destruct (truthy (_get_parameter params "build_arguments" _));
    unfold contains_text, iadd_text, replace_text, bind, ret;
    cbn [negb]; cbv beta iota;
    repeat (progress (rewrite ?Hm, ?Hg; cbv beta iota));
    reflexivity.
Qed.

End AssemblyFacts.

(** ** The shape of the generated tag list *)

Section TagListFacts.
Context `{PyFloat} (env : Env).

Lemma iterate_spawns_nothing v : spawns_nothing (iterate v).
Proof. unfold iterate. quiet. Qed.

Lemma commit_query_logged log o log' :
  DockerCommand._get_git_commit_sha env log = (o, log') -> log' = log ++ [commit_query].
Proof.
  unfold DockerCommand._get_git_commit_sha, try_except, subprocess_run_check, bind,
    subprocess_run.
  fold commit_query. destruct (spawn env log commit_query) as [process|e].
  - destruct (returncode process =? 0); now intros [= _ <-].
  - destruct (DockerCommand.git_unavailable e); now intros [= _ <-].
Qed.

Lemma branch_query_logged log o log' :
  DockerCommand._get_git_branch_name env log = (o, log') -> log' = log ++ [branch_query].
Proof.
  unfold DockerCommand._get_git_branch_name, try_except, subprocess_run_check, bind,
    subprocess_run.
  fold branch_query. destruct (spawn env log branch_query) as [process|e].
  - destruct (returncode process =? 0); now intros [= _ <-].
  - destruct (DockerCommand.git_unavailable e); now intros [= _ <-].
Qed.

(** One optional git-derived tag: the query runs exactly when the flag is
    set, and at most one tag is appended. *)
Lemma git_tag_stage (b : bool) (query : M (option string)) (tag_of : string -> value)
      (invocation : Invocation) (tags : list value) log tags' log' :
  (forall log o log', query log = (o, log') -> log' = log ++ [invocation]) ->
  (if b then
     found <- query ;;
     match DockerCommand.nonempty found with
     | Some text => ret (tags ++ [tag_of text])
     | None => ret tags
     end
   else ret tags) log = (Returned tags', log') ->
  exists derived,
    tags' = tags ++ derived
    /\ (length derived <= if b then 1 else 0)%nat
    /\ log' = log ++ (if b then [invocation] else []).
Proof.
  intros Hq. destruct b.
  - intros E. apply bind_inversion in E as (found & l & E0 & E).
    apply Hq in E0 as ->.
    destruct (DockerCommand.nonempty found) as [text|]; injection E as <- <-.
    + exists [tag_of text]. now cbn.
    + exists []. rewrite app_nil_r. cbn. split; [reflexivity|]. split; [lia|reflexivity].
  - unfold ret. intros [= <- <-]. exists []. now rewrite !app_nil_r.
Qed.

(** X6.  When tag generation returns, the tags start with the explicit
    ones (the elements of [tags], [latest] by default) in their order,
    followed by at most one derived tag per auto-tag flag that is set; and
    exactly one [git rev-parse] process has been spawned for each of
    [auto_tag_commit] and [auto_tag_branch] that is set, in this order, and
    no other process. *)
Theorem generated_tags_shape (params : Parameters) (log : list Invocation)
        (tags : list value) (log' : list Invocation) :
  DockerCommand._generate_all_tags env params log = (Returned tags, log') ->
  let flag name := truthy (_get_parameter params name (VBool false)) in
  exists explicit derived,
    iterate (_get_parameter params "tags" (VList [VStr "latest"])) log
    = (Returned explicit, log)
    /\ tags = explicit ++ derived
    /\ (length derived <= (if flag "auto_tag_commit" then 1 else 0)
                          + (if flag "auto_tag_branch" then 1 else 0)
                          + (if flag "auto_tag_date" then 1 else 0))%nat
    /\ log' = log ++ (if flag "auto_tag_commit" then [commit_query] else [])
                  ++ (if flag "auto_tag_branch" then [branch_query] else []).
Proof.
  intros E flag. unfold DockerCommand._generate_all_tags in E. cbv zeta in E.
  apply bind_inversion in E as (explicit & l0 & E0 & E).
  assert (l0 = log) as ->
    by (eapply (spawns_nothing_result (iterate _) log);
        [apply iterate_spawns_nothing | exact E0]).
  apply bind_inversion in E as (tags1 & l1 & E1 & E).
  apply (git_tag_stage _ _ (fun sha => VStr ("commit-" +:+ Str.take 8 sha)) commit_query)
    in E1 as (d1 & -> & Hd1 & ->); [|apply commit_query_logged].
  apply bind_inversion in E as (tags2 & l2 & E2 & E).
  apply (git_tag_stage _ _
           (fun name => VStr ("branch-" +:+ Re.sub_outside DockerCommand.tag_char "-" name))
           branch_query)
    in E2 as (d2 & -> & Hd2 & ->); [|apply branch_query_logged].
  exists explicit. change ([] ++ explicit) with explicit in E.
  fold (flag "auto_tag_commit") in *. fold (flag "auto_tag_branch") in *.
  fold (flag "auto_tag_date") in *.
  destruct (flag "auto_tag_date"); injection E as <- <-.
  - exists (d1 ++ d2 ++ [VStr (today env)]). split; [exact E0|].
    split; [now rewrite <- !app_assoc|].
    split; [rewrite !length_app; cbn; lia | now rewrite <- app_assoc].
  - exists (d1 ++ d2). split; [exact E0|].
    split; [now rewrite <- !app_assoc|].
    split; [rewrite !length_app; lia | now rewrite <- app_assoc].
Qed.

End TagListFacts.

(** ** The exit-code policy *)

Section PolicyFacts.
Context `{PyFloat} (env : Env) (strict : Invocation -> Prop)
        (error : Invocation -> CompletedProcess -> exn).

(** A computation that spawns nothing has no process to stop at. *)
Lemma fails_fast_quiet {A} (m : M A) :
  spawns_nothing m -> fails_fast env strict error m.
Proof.
  intros Hm log. exists []. split; [rewrite app_nil_r; apply Hm|].
  intros before invocation rest process E. now destruct before.
Qed.

(** Sequencing: the failed process is one of the first computation, which
    then raises, or one of the second, which runs on the log the first has
    extended.  [Q] is what is known of the value handed over. *)
Lemma fails_fast_bind_post {A B} (Q : A -> Prop) (m : M A) (k : A -> M B) :
  fails_fast env strict error m ->
  (forall log a log', m log = (Returned a, log') -> Q a) ->
  (forall a, Q a -> fails_fast env strict error (k a)) ->
  fails_fast env strict error (bind m k).
Proof.
  intros Hm HQ Hk log. destruct (Hm log) as (s1 & E1 & P1). unfold bind.
  destruct (m log) as [[a|e] l1] eqn:Em; cbn [fst snd] in *; subst l1.
  - destruct (Hk a (HQ _ _ _ Em) (log ++ s1)) as (s2 & E2 & P2).
    exists (s1 ++ s2). split; [now rewrite E2, app_assoc|].
    intros before invocation rest process E Hs Hp Hr.
    apply List.app_eq_app in E as [l [[-> E]|[-> E]]].
    + destruct l as [|i l].
      * cbn in E. subst s2. rewrite app_nil_r in *.
        apply (P2 [] invocation rest process); auto. now rewrite app_nil_r.
      * injection E as <- ->.
        destruct (P1 before invocation l process eq_refl Hs Hp Hr) as [_ ?].
        discriminate.
    + apply (P2 l invocation rest process E Hs); auto. now rewrite <- app_assoc.
  - exists s1. split; [reflexivity|].
    intros before invocation rest process E Hs Hp Hr.
    destruct (P1 before invocation rest process E Hs Hp Hr) as [-> [= ->]].
    now split.
Qed.

Lemma fails_fast_bind {A B} (m : M A) (k : A -> M B) :
  fails_fast env strict error m ->
  (forall a, fails_fast env strict error (k a)) ->
  fails_fast env strict error (bind m k).
Proof.
  intros Hm Hk. apply (fails_fast_bind_post (fun _ => True)); auto.
Qed.

Lemma fails_fast_ext {A} (m m' : M A) :
  (forall log, m log = m' log) ->
  fails_fast env strict error m -> fails_fast env strict error m'.
Proof.
  intros E Hm log. destruct (Hm log) as (spawned & Es & P). exists spawned.
  rewrite <- E. now split.
Qed.

(** A checked run: the process is spawned and its non-zero exit raises. *)
Lemma fails_fast_checked {A} (invocation : Invocation)
      (failed : CompletedProcess -> exn) (k : CompletedProcess -> M A) :
  (strict invocation -> forall process, failed process = error invocation process) ->
  (forall process, fails_fast env strict error (k process)) ->
  fails_fast env strict error
    (process <- subprocess_run env invocation ;;
     if negb (returncode process =? 0) then raise (failed process) else k process).
Proof.
  intros He Hk log. unfold bind, subprocess_run.
  destruct (spawn env log invocation) as [p|e] eqn:Es.
  - destruct (returncode p =? 0) eqn:Er; cbn [negb].
    + destruct (Hk p (log ++ [invocation])) as (s2 & E2 & P2).
      exists (invocation :: s2). split; [now rewrite E2, <- app_assoc|].
      intros before i rest process E Hs Hp Hr.
      destruct before as [|b before]; injection E as <- E.
      * rewrite app_nil_r, Es in Hp. injection Hp as <-.
        apply Z.eqb_eq in Er. contradiction.
      * subst s2. apply (P2 before i rest process eq_refl Hs); auto.
        now rewrite <- app_assoc.
    + exists [invocation]. split; [reflexivity|].
      intros before i rest process E Hs Hp Hr.
      destruct before as [|b before]; injection E as <- E.
      * subst rest. rewrite app_nil_r, Es in Hp. injection Hp as <-.
        split; [reflexivity|]. cbn. now rewrite He.
      * now destruct before.
  - exists [invocation]. split; [reflexivity|].
    intros before i rest process E Hs Hp Hr.
    destruct before as [|b before]; injection E as <- E.
    + rewrite app_nil_r, Es in Hp. discriminate.
    + now destruct before.
Qed.

Lemma fails_fast_for_each {A B} (l : list A) (body : B -> A -> M B) acc :
  (forall b a, fails_fast env strict error (body b a)) ->
  fails_fast env strict error (for_each l body acc).
Proof.
  intros Hb. revert acc. induction l as [|x l IH]; intros acc; simpl.
  - apply fails_fast_quiet, spawns_nothing_ret.
  - apply fails_fast_bind; [apply Hb | intros b; apply IH].
Qed.

(** Computations all of whose processes are outside the policy. *)
Lemma spawns_only_quiet (allowed : Invocation -> Prop) {A} (m : M A) :
  spawns_nothing m -> spawns_only allowed m.
Proof. intros Hm log. exists []. split; [rewrite app_nil_r; apply Hm | constructor]. Qed.

Lemma spawns_only_run (allowed : Invocation -> Prop) invocation :
  allowed invocation -> spawns_only allowed (subprocess_run env invocation).
Proof. intros Ha log. exists [invocation]. split; [reflexivity | now constructor]. Qed.

Lemma spawns_only_bind_post (allowed : Invocation -> Prop) {A B} (Q : A -> Prop)
      (m : M A) (k : A -> M B) :
  spawns_only allowed m ->
  (forall log a log', m log = (Returned a, log') -> Q a) ->
  (forall a, Q a -> spawns_only allowed (k a)) ->
  spawns_only allowed (bind m k).
Proof.
  intros Hm HQ Hk log. destruct (Hm log) as (s1 & E1 & P1). unfold bind.
  destruct (m log) as [[a|e] l1] eqn:Em; cbn [fst snd] in *; subst l1.
  - destruct (Hk a (HQ _ _ _ Em) (log ++ s1)) as (s2 & E2 & P2).
    exists (s1 ++ s2). split; [now rewrite E2, app_assoc | now apply Forall_app].
  - now exists s1.
Qed.

Lemma spawns_only_bind (allowed : Invocation -> Prop) {A B} (m : M A) (k : A -> M B) :
  spawns_only allowed m -> (forall a, spawns_only allowed (k a)) ->
  spawns_only allowed (bind m k).
Proof.
  intros Hm Hk. apply (spawns_only_bind_post allowed (fun _ => True)); auto.
Qed.

Lemma spawns_only_try (allowed : Invocation -> Prop) {A} (m : M A) (h : exn -> M A) :
  spawns_only allowed m -> (forall e, spawns_only allowed (h e)) ->
  spawns_only allowed (try_except m h).
Proof.
  intros Hm Hh log. destruct (Hm log) as (s1 & E1 & P1). unfold try_except.
  destruct (m log) as [[a|e] l1]; cbn [fst snd] in *; subst l1.
  - now exists s1.
  - destruct (Hh e (log ++ s1)) as (s2 & E2 & P2).
    exists (s1 ++ s2). split; [now rewrite E2, app_assoc | now apply Forall_app].
Qed.

Lemma lenient_fails_fast {A} (m : M A) :
  spawns_only (fun invocation => ~ strict invocation) m ->
  fails_fast env strict error m.
Proof.
  intros Hm log. destruct (Hm log) as (spawned & E & P). exists spawned.
  split; [exact E|]. intros before invocation rest process -> Hs.
  apply Forall_app in P as [_ P]. inversion P; subst. contradiction.
Qed.

Lemma fails_fast_try {A} (m : M A) (h : exn -> M A) :
  spawns_nothing m -> (forall e, spawns_nothing (h e)) ->
  fails_fast env strict error (try_except m h).
Proof.
  intros Hm Hh. apply fails_fast_quiet. intros log. unfold try_except.
  specialize (Hm log). destruct (m log) as [[a|e] l]; cbn [snd] in *; subst l.
  - reflexivity.
  - apply Hh.
Qed.

(** From [execute] to [run]: the exception becomes the failure envelope. *)
Lemma fails_fast_stops (cls : BaseCommand) (params : Parameters) :
  fails_fast env strict error (execute cls params) ->
  stops_at_failure env strict error {| cmd_class := cls; parameters := params |}.
Proof.
  intros Hf log result log' before invocation rest process Erun -> Hs Hp Hr.
  destruct (Hf log) as (spawned & E & P).
  unfold run, try_except, bind, ret in Erun. cbn [cmd_class parameters] in Erun.
  destruct (execute cls params log) as [[r|e] l] eqn:Ee; cbn [fst snd] in *; subst l;
    injection Erun as <- El; apply app_inv_head in El;
    destruct (P _ _ _ _ El Hs Hp Hr) as [-> [= <-]].
  split; reflexivity.
Qed.

End PolicyFacts.

Create HintDb policy discriminated.

(** Split a command along its binds, loops and branches. *)
Ltac policy :=
  repeat first
    [ solve [ auto with policy ]
    | solve [ apply fails_fast_quiet; quiet; auto with quiet ]
    | apply fails_fast_for_each; intros ? ?
    | apply fails_fast_try; [ quiet | intros ?; quiet ]
    | apply fails_fast_bind; [ | intros ? ]
    | match goal with
      | |- fails_fast _ _ _ (if ?b then _ else _) => destruct b
      | |- fails_fast _ _ _ (match ?x with _ => _ end) => destruct x
      end
    | progress cbv zeta ].

Ltac lenient :=
  repeat first
    [ solve [ apply spawns_only_quiet; quiet; auto with quiet ]
    | apply spawns_only_bind; [ | intros ? ]
    | apply spawns_only_try; [ | intros ? ]
    | match goal with
      | |- spawns_only _ (if ?b then _ else _) => destruct b
      | |- spawns_only _ (match ?x with _ => _ end) => destruct x
      end ].

Section QuietFacts.
Context `{PyFloat}.

Lemma join_items_spawns_nothing i l : spawns_nothing (join_items i l).
Proof.
  revert i. induction l as [|v l IH]; intros i; simpl; [apply spawns_nothing_ret|].
  destruct v as [[| | | |s]| |]; try apply spawns_nothing_raise.
  apply spawns_nothing_bind; [apply IH | intros; apply spawns_nothing_ret].
Qed.

Lemma join_value_spawns_nothing sep v : spawns_nothing (join_value sep v).
Proof.
  destruct v as [[| | | |s]|l|d]; cbn [join_value]; quiet.
  apply join_items_spawns_nothing.
Qed.

Lemma dict_getitem_spawns_nothing d k : spawns_nothing (dict_getitem d k).
Proof. unfold dict_getitem. quiet. Qed.

Lemma subscript_spawns_nothing v k : spawns_nothing (subscript v k).
Proof. unfold subscript. quiet. apply dict_getitem_spawns_nothing. Qed.

Lemma value_get_spawns_nothing v k d : spawns_nothing (value_get v k d).
Proof. unfold value_get. quiet. Qed.

Lemma len_spawns_nothing v : spawns_nothing (len v).
Proof. unfold len. quiet. Qed.

End QuietFacts.

#[export] Hint Resolve join_value_spawns_nothing dict_getitem_spawns_nothing
  subscript_spawns_nothing value_get_spawns_nothing len_spawns_nothing
  iterate_spawns_nothing items_spawns_nothing argv_spawns_nothing : quiet.

Section BuildPolicy.
Context `{PyFloat} (env : Env).

Lemma bind_assoc {A B C} (m : M A) (f : A -> M B) (g : B -> M C) log :
  bind (bind m f) g log = bind m (fun a => bind (f a) g) log.
Proof. unfold bind. now destruct (m log) as [[a|e] l]. Qed.

(** A checked shell run stops at a non-zero exit. *)
Lemma shell_run_fails_fast {A} (strict : Invocation -> Prop)
      (error : Invocation -> CompletedProcess -> exn)
      (cmd : value) (cwd : string) (failed : CompletedProcess -> exn)
      (k : CompletedProcess -> M A) :
  (forall invocation process, failed process = error invocation process) ->
  (forall process, fails_fast env strict error (k process)) ->
  fails_fast env strict error
    (process <- subprocess_run_shell env cmd cwd ;;
     if negb (returncode process =? 0) then raise (failed process) else k process).
Proof.
  intros He Hk.
  destruct cmd as [[| | | |line]|l|d]; cbn [subprocess_run_shell];
    try solve [apply fails_fast_quiet; quiet].
  - apply (fails_fast_checked env strict error _ failed k); auto.
  - eapply fails_fast_ext; [intros log; symmetry; apply bind_assoc|].
    apply fails_fast_bind; [apply fails_fast_quiet, argv_spawns_nothing|].
    intros args. apply (fails_fast_checked env strict error _ failed k); auto.
  - apply (fails_fast_checked env strict error _ failed k); auto.
Qed.

Lemma find_build_artifacts_spawns_nothing build_tool project_path :
  spawns_nothing (BuildCommand._find_build_artifacts env build_tool project_path).
Proof. unfold BuildCommand._find_build_artifacts. quiet. Qed.

Lemma build_fails_fast params :
  fails_fast env (fun _ => True) build_error (BuildCommand.execute env params).
Proof.
  unfold BuildCommand.execute.
  apply fails_fast_bind; [policy | intros build_tool].
  apply fails_fast_bind; [policy | intros path_value].
  apply fails_fast_bind; [policy | intros project_path].
  apply fails_fast_bind;
    [apply fails_fast_quiet, prepare_build_spawns_nothing | intros build_command].
  apply fails_fast_bind.
  - unfold BuildCommand._execute_build.
    apply shell_run_fails_fast; [reflexivity | intros; policy].
  - intros build_output.
    apply fails_fast_bind;
      [apply fails_fast_quiet, find_build_artifacts_spawns_nothing | intros; policy].
Qed.

End BuildPolicy.

Section TerraformPolicy.
Context `{PyFloat} `{!PyJson} (env : Env).
Import TerraformCommand.

(** The first two words of a command line are those it was begun with. *)
Lemma argv_prefix first second rest log args log' :
  argv (VStr first :: VStr second :: rest) log = (Returned args, log') ->
  exists others, args = first :: second :: others.
Proof.
  intros E. apply argv_inversion in E as [E _].
  destruct args as [|a [|b others]]; try discriminate.
  injection E as -> -> _. now exists others.
Qed.

Lemma run_command_fails_fast cmd working_dir :
  fails_fast env terraform_strict terraform_error (run_command env cmd working_dir).
Proof.
  unfold run_command. apply fails_fast_bind; [policy | intros args].
  unfold _run_terraform.
  apply (fails_fast_checked env terraform_strict terraform_error
           {| inv_cmd := Argv args; inv_cwd := Some working_dir; inv_input := None |}
           (fun result =>
              RuntimeError
                ("Terraform command failed with exit code "
                 +:+ Str.of_Z (returncode result)
                 +:+ Str.newline +:+ "Command: " +:+ Str.join " " args
                 +:+ Str.newline +:+ "Error:" +:+ Str.newline +:+ stderr result))
           (fun result => ret (stdout result +:+ stderr result))).
  - reflexivity.
  - intros; policy.
Qed.

(** Selecting and creating a workspace are outside the policy. *)
Lemma workspace_is_lenient first rest cwd input :
  ~ terraform_strict {| inv_cmd := Argv (first :: "workspace" :: rest);
                        inv_cwd := cwd; inv_input := input |}.
Proof.
  intros (verb & args & Hs & Hin). unfold subcommand in Hs. cbn [inv_cmd] in Hs.
  destruct (String.eqb first "terraform"); [|discriminate].
  injection Hs as <- _. cbn in Hin. intuition discriminate.
Qed.

Lemma select_workspace_fails_fast workspace working_dir :
  fails_fast env terraform_strict terraform_error
    (_select_workspace env workspace working_dir).
Proof.
  apply lenient_fails_fast. unfold _select_workspace.
  apply (spawns_only_bind_post _ (fun cmd => exists others,
                                      cmd = "terraform" :: "workspace" :: others)).
  - lenient.
  - intros log cmd log' E. now apply argv_prefix in E.
  - intros cmd [others ->].
    apply spawns_only_bind; [apply spawns_only_run, workspace_is_lenient|].
    intros result. destruct (negb _); [|lenient].
    apply (spawns_only_bind_post _ (fun cmd => exists others,
                                        cmd = "terraform" :: "workspace" :: others)).
    + lenient.
    + intros log cmd log' E. now apply argv_prefix in E.
    + intros cmd [others' ->]. unfold subprocess_run_check.
      apply spawns_only_bind; [|intros; lenient].
      apply spawns_only_bind; [apply spawns_only_run, workspace_is_lenient|].
      intros; lenient.
Qed.

Lemma add_common_flags_spawns_nothing params cmd :
  spawns_nothing (_add_common_flags params cmd).
Proof. unfold _add_common_flags. quiet. Qed.

Lemma add_var_flags_spawns_nothing params cmd :
  spawns_nothing (_add_var_flags params cmd).
Proof.
  unfold _add_var_flags. quiet.
  apply for_each_spawns_nothing. intros; quiet.
Qed.

Lemma terraform_message_spawns_nothing operation result_data :
  spawns_nothing (_generate_result_message operation result_data).
Proof. unfold _generate_result_message. quiet. Qed.

#[local] Hint Resolve run_command_fails_fast select_workspace_fails_fast : policy.
#[local] Hint Resolve add_common_flags_spawns_nothing add_var_flags_spawns_nothing
  terraform_message_spawns_nothing : quiet.

Lemma terraform_fails_fast params :
  fails_fast env terraform_strict terraform_error (execute env params).
Proof.
  unfold execute.
  apply fails_fast_bind; [policy | intros operation].
  apply fails_fast_bind; [policy | intros dir_value].
  apply fails_fast_bind; [policy | intros working_dir].
  apply fails_fast_bind; [policy | intros result_data].
  apply fails_fast_bind; [| intros result_data'; policy].
  unfold _execute_init, _execute_validate, _execute_plan, _execute_apply,
    _execute_destroy, _execute_output, plan_file_exists.
  policy.
Qed.

End TerraformPolicy.

Section DockerPolicy.
Context `{PyFloat} (env : Env).
Import DockerCommand.

(** The git queries and the size query are outside the policy, and so is
    a login that was not handed a password. *)
Lemma not_docker_is_lenient first rest cwd input :
  first <> "docker" ->
  ~ docker_strict {| inv_cmd := Argv (first :: rest); inv_cwd := cwd;
                     inv_input := input |}.
Proof.
  intros Hf (verb & args & Hs & _). unfold subcommand in Hs. cbn [inv_cmd] in Hs.
  destruct rest as [|second rest]; [discriminate|].
  apply String.eqb_neq in Hf. rewrite Hf in Hs. discriminate.
Qed.

Lemma docker_images_is_lenient rest cwd input :
  ~ docker_strict {| inv_cmd := Argv ("docker" :: "images" :: rest); inv_cwd := cwd;
                     inv_input := input |}.
Proof.
  intros (verb & args & Hs & Hin). unfold subcommand in Hs. cbn in Hs.
  injection Hs as <- _. cbn in Hin. intuition discriminate.
Qed.

Lemma generate_all_tags_fails_fast params :
  fails_fast env docker_strict docker_error (_generate_all_tags env params).
Proof.
  apply lenient_fails_fast.
  unfold _generate_all_tags, _get_git_commit_sha, _get_git_branch_name,
    subprocess_run_check.
  assert (Hgit : forall rest,
             spawns_only (fun invocation => ~ docker_strict invocation)
               (subprocess_run env {| inv_cmd := Argv ("git" :: rest);
                                      inv_cwd := None; inv_input := None |}))
    by (intros rest; apply spawns_only_run, not_docker_is_lenient; discriminate).
  lenient; apply Hgit.
Qed.

Lemma get_image_size_fails_fast image_name tag :
  fails_fast env docker_strict docker_error (_get_image_size env image_name tag).
Proof.
  apply lenient_fails_fast. unfold _get_image_size, subprocess_run_check.
  lenient. apply spawns_only_run, docker_images_is_lenient.
Qed.

Lemma push_image_fails_fast image_name tags :
  fails_fast env docker_strict docker_error (_push_image env image_name tags).
Proof.
  unfold _push_image. apply fails_fast_for_each. intros push_results tag.
  apply fails_fast_bind; [policy | intros name].
  apply fails_fast_bind; [policy | intros shown].
  apply (fails_fast_checked env docker_strict docker_error
           {| inv_cmd := Argv ["docker"; "push"; name +:+ ":" +:+ shown];
              inv_cwd := None; inv_input := None |}
           (fun process_result =>
              RuntimeError ("Failed to push " +:+ (name +:+ ":" +:+ shown) +:+ ": "
                            +:+ stderr process_result))
           (fun process_result =>
              ret (push_results
                   ++ [VDict [ ("tag", tag);
                               ("full_name", VStr (name +:+ ":" +:+ shown));
                               ("digest",
                                 optional_text
                                   (_extract_digest (stdout process_result)));
                               ("success", VBool true) ]]))).
  - reflexivity.
  - intros; policy.
Qed.

Lemma login_without_input_is_lenient others cwd :
  ~ docker_strict {| inv_cmd := Argv ("docker" :: "login" :: others); inv_cwd := cwd;
                     inv_input := None |}.
Proof.
  intros (verb & rest & Hs & [Hin|[_ Hi]]); [|now elim Hi].
  unfold subcommand in Hs. cbn in Hs. injection Hs as <- _.
  cbn in Hin. intuition discriminate.
Qed.

Lemma authenticate_registry_fails_fast params :
  fails_fast env docker_strict docker_error (_authenticate_registry env params).
Proof.
  unfold _authenticate_registry. cbv zeta.
  destruct (negb _); [policy|].
  set (user := _get_parameter params "registry_username" VNone).
  set (password := _get_parameter params "registry_password" VNone).
  apply (fails_fast_bind_post _ _ _
           (fun args => exists others, args = "docker" :: "login" :: others)).
  - policy.
  - intros log args log' E. destruct (truthy _); now apply argv_prefix in E.
  - intros args [others ->]. unfold subprocess_run_input.
    destruct password as [[| | | |text]|l|d];
      try (apply lenient_fails_fast; lenient;
           apply spawns_only_run, login_without_input_is_lenient).
    apply (fails_fast_checked env docker_strict docker_error _
             (fun process_result =>
                RuntimeError ("Registry authentication failed: "
                              +:+ stderr process_result))
             (fun _ => ret tt)); [|intros; policy].
    intros _ process. reflexivity.
Qed.

Lemma build_image_fails_fast params image_name tags :
  fails_fast env docker_strict docker_error (_build_image env params image_name tags).
Proof.
  unfold _build_image. cbv zeta.
  pose (begun := fun parts : list value =>
                   exists extra, parts = [VStr "docker"; VStr "build"] ++ extra).
  assert (Hbegun : forall parts extra, begun parts -> begun (parts ++ extra)).
  { intros parts extra [extra' ->]. exists (extra' ++ extra). now rewrite app_assoc. }
  apply (fails_fast_bind_post _ _ _ begun).
  - policy.
  - intros log parts log' E.
    apply for_each_appends in E as [[extra ->] _]; [now exists extra|].
    intros acc tag l r l' Eb.
    apply bind_inversion in Eb as (name & l1 & E1 & Eb).
    apply bind_inversion in Eb as (shown & l2 & E2 & Eb).
    apply lift_inversion in E1 as [_ ->]. apply lift_inversion in E2 as [_ ->].
    injection Eb as <- <-. split; [eexists|]; reflexivity.
  - intros parts Hparts.
    apply fails_fast_bind; [policy | intros build_args].
    apply (fails_fast_bind_post _ _ _ begun).
    + policy.
    + intros log parts' log' E.
      apply for_each_appends in E as [[extra ->] _];
        [repeat apply Hbegun; exact Hparts|].
      intros acc arg l r l' Eb.
      apply bind_inversion in Eb as (shown & l1 & E1 & Eb).
      apply lift_inversion in E1 as [_ ->].
      injection Eb as <- <-. split; [eexists|]; reflexivity.
    + intros parts' Hparts'.
      apply (fails_fast_bind_post _ _ _
               (fun args => exists others, args = "docker" :: "build" :: others)).
      * policy.
      * intros log args log' E.
        match type of E with
        | argv ?command_parts _ = _ =>
            assert (Hall : begun command_parts)
              by (destruct (truthy _), (truthy _); repeat apply Hbegun; exact Hparts')
        end.
        destruct Hall as [extra Hall]. rewrite Hall in E.
        now apply argv_prefix in E.
      * intros args [others ->].
        apply (fails_fast_checked env docker_strict docker_error _
                 (fun process_result =>
                    RuntimeError
                      ("Docker build failed with exit code "
                       +:+ Str.of_Z (returncode process_result)
                       +:+ Str.newline +:+ "Error output:" +:+ Str.newline
                       +:+ stderr process_result))
                 (fun process_result =>
                    ret (stdout process_result +:+ stderr process_result)));
          [|intros; policy].
        intros _ process. reflexivity.
Qed.

Lemma first_tag_spawns_nothing all_tags : spawns_nothing (first_tag all_tags).
Proof. unfold first_tag. quiet. Qed.

Lemma docker_message_spawns_nothing operation result_data :
  spawns_nothing (_generate_result_message operation result_data).
Proof. unfold _generate_result_message. quiet. Qed.

#[local] Hint Resolve generate_all_tags_fails_fast get_image_size_fails_fast
  push_image_fails_fast authenticate_registry_fails_fast build_image_fails_fast
  : policy.
#[local] Hint Resolve first_tag_spawns_nothing docker_message_spawns_nothing : quiet.

Lemma docker_fails_fast params :
  fails_fast env docker_strict docker_error (execute env params).
Proof. unfold execute. policy. Qed.

End DockerPolicy.

Section TestPolicy.
Context `{PyFloat}.

(** The test run reads the two output streams of its process only. *)
Lemma bind_cong {A B} (m m' : M A) (k k' : A -> M B) log :
  m log = m' log -> (forall a l, k a l = k' a l) -> bind m k log = bind m' k' log.
Proof.
  intros Em Ek. unfold bind. rewrite Em.
  destruct (m' log) as [[a|e] l]; [apply Ek | reflexivity].
Qed.

Lemma spawn_same_output env env' log invocation :
  same_but_exit_codes env env' ->
  (process <- subprocess_run env invocation ;;
   ret (stdout process +:+ stderr process)) log
  = (process <- subprocess_run env' invocation ;;
     ret (stdout process +:+ stderr process)) log.
Proof.
  intros (_ & _ & _ & _ & _ & Hs). specialize (Hs log invocation).
  unfold bind, subprocess_run, ret.
  destruct (spawn env log invocation) as [p|e], (spawn env' log invocation) as [p'|e'];
    try contradiction.
  - destruct Hs as [-> ->]. reflexivity.
  - now subst.
Qed.

Lemma execute_tests_same env env' test_command project_path log :
  same_but_exit_codes env env' ->
  TestCommand._execute_tests env test_command project_path log
  = TestCommand._execute_tests env' test_command project_path log.
Proof.
  intros Hs. unfold TestCommand._execute_tests.
  destruct test_command as [[| | | |line]|l|d]; cbn [subprocess_run_shell];
    try reflexivity; try now apply spawn_same_output.
  rewrite !bind_assoc. apply bind_cong; [reflexivity|].
  intros args l'. now apply spawn_same_output.
Qed.

Lemma test_run_ignores_exit_codes env env' params log :
  same_but_exit_codes env env' ->
  run {| cmd_class := TestCommand.class env; parameters := params |} log
  = run {| cmd_class := TestCommand.class env'; parameters := params |} log.
Proof.
  intros Hs. unfold run, try_except. cbn [cmd_class parameters execute TestCommand.class].
  assert (E : TestCommand.execute env params log = TestCommand.execute env' params log).
  { unfold TestCommand.execute.
    apply bind_cong; [reflexivity | intros test_framework l1].
    apply bind_cong; [reflexivity | intros path_value l2].
    apply bind_cong.
    { unfold Path. destruct path_value as [[| | | |s]| |]; try reflexivity.
      now rewrite (proj1 Hs). }
    intros project_path l3.
    apply bind_cong; [reflexivity | intros test_command l4].
    apply bind_cong; [now apply execute_tests_same | reflexivity]. }
  unfold bind. now rewrite E.
Qed.

Lemma test_run_parses_output env params log test_framework project_path test_command
      process :
  params !! "test_framework" = Some test_framework ->
  params !! "project_path" = Some (VStr project_path) ->
  TestCommand._prepare_test_command params log = (Returned (VStr test_command), log) ->
  let invocation := {| inv_cmd := Shell test_command;
                       inv_cwd := Some (path_str env project_path);
                       inv_input := None |} in
  spawn env log invocation = Returned process ->
  let test_output := stdout process +:+ stderr process in
  run {| cmd_class := TestCommand.class env; parameters := params |} log
  = (match
       (test_results <~ TestCommand._parse_test_results test_framework test_output ;;
        coverage_check <~ TestCommand._check_coverage_threshold params test_results ;;
        message <~ TestCommand._generate_result_message test_results coverage_check ;;
        Returned
          {| success := TestCommand.overall_success test_results coverage_check;
             message := message;
             output_data :=
               Some [ ("test_framework", test_framework);
                      ("project_path", VStr (path_str env project_path));
                      ("command_executed", VStr test_command);
                      ("test_results", TestCommand.results_value test_results);
                      ("coverage_check", TestCommand.check_value coverage_check) ];
             error_details := None |})
     with
     | Returned result => Returned result
     | Raised e => Returned (failure_envelope e)
     end, log ++ [invocation]).
Proof.
  intros Ht Hp Hc invocation Hs test_output.
  unfold run, try_except. cbn [cmd_class parameters execute TestCommand.class].
  unfold bind at 1. unfold TestCommand.execute.
  rewrite (bind_returned _ _ _ _ _ (getitem_returned _ _ _ log Ht)).
  rewrite (bind_returned _ _ _ _ _ (getitem_returned _ _ _ log Hp)).
  unfold Path at 1. unfold bind at 1. unfold ret at 1.
  rewrite (bind_returned _ _ _ _ _ Hc).
  unfold TestCommand._execute_tests. cbn [subprocess_run_shell].
  fold invocation. unfold bind, subprocess_run, lift, ret. rewrite Hs.
  fold test_output.
  destruct (TestCommand._parse_test_results test_framework test_output)
    as [test_results|e]; cbn [obind]; [|reflexivity].
  destruct (TestCommand._check_coverage_threshold params test_results)
    as [coverage_check|e]; cbn [obind]; [|reflexivity].
  now destruct (TestCommand._generate_result_message test_results coverage_check).
Qed.

End TestPolicy.

Section ExitCodePolicy.
Context `{PyFloat} `{!PyJson} (env : Env).

(** C5 (as amended).  Build, container and provisioning runs stop at the
    failure of the process that carries out the operation: the build
    command; [docker build], [docker push] and a [docker login] that was
    handed the password; the [terraform] process of the operation.  When
    such a process exits non-zero it is the last process of the run, and
    the run returns the failure envelope, with no output data, whose error
    detail is built from that process alone: the exit code (for the build,
    the container build and Terraform) and the captured standard error;
    the captured standard output is not in it.  A test run whose command
    is a text parses the combined output of its process whatever the exit
    code, and its envelope is the one built from the parsed results; and
    no test run reads an exit code: two platforms that differ only in the
    exit codes of their processes give the same envelope. *)
Theorem exit_code_policy :
  (forall params,
      stops_at_failure env (fun _ => True) build_error
        {| cmd_class := BuildCommand.class env; parameters := params |})
  /\ (forall params,
      stops_at_failure env docker_strict docker_error
        {| cmd_class := DockerCommand.class env; parameters := params |})
  /\ (forall params,
      stops_at_failure env terraform_strict terraform_error
        {| cmd_class := TerraformCommand.class env; parameters := params |})
  /\ (forall params log test_framework project_path test_command process,
      params !! "test_framework" = Some test_framework ->
      params !! "project_path" = Some (VStr project_path) ->
      TestCommand._prepare_test_command params log
      = (Returned (VStr test_command), log) ->
      let invocation := {| inv_cmd := Shell test_command;
                           inv_cwd := Some (path_str env project_path);
                           inv_input := None |} in
      spawn env log invocation = Returned process ->
      let test_output := stdout process +:+ stderr process in
      run {| cmd_class := TestCommand.class env; parameters := params |} log
      = (match
           (test_results <~
              TestCommand._parse_test_results test_framework test_output ;;
            coverage_check <~
              TestCommand._check_coverage_threshold params test_results ;;
            message <~
              TestCommand._generate_result_message test_results coverage_check ;;
            Returned
              {| success := TestCommand.overall_success test_results coverage_check;
                 message := message;
                 output_data :=
                   Some [ ("test_framework", test_framework);
                          ("project_path", VStr (path_str env project_path));
                          ("command_executed", VStr test_command);
                          ("test_results", TestCommand.results_value test_results);
                          ("coverage_check",
                            TestCommand.check_value coverage_check) ];
                 error_details := None |})
         with
         | Returned result => Returned result
         | Raised e => Returned (failure_envelope e)
         end, log ++ [invocation]))
  /\ (forall env' params log,
      same_but_exit_codes env env' ->
      run {| cmd_class := TestCommand.class env; parameters := params |} log
      = run {| cmd_class := TestCommand.class env'; parameters := params |} log).
Proof.
  split; [|split; [|split; [|split]]].
  - intros params. apply fails_fast_stops, build_fails_fast.
  - intros params. apply fails_fast_stops, docker_fails_fast.
  - intros params. apply fails_fast_stops, terraform_fails_fast.
  - intros params log test_framework project_path test_command process.
    apply test_run_parses_output.
  - intros env' params log. apply test_run_ignores_exit_codes.
Qed.

End ExitCodePolicy.

(** ** The exit-code policy on concrete runs *)

Section PolicyRuns.
Import Platform Fixtures.
#[local] Existing Instance decimal_floats.
#[local] Existing Instance small_json.

(** C5 on a failed Maven build, on a container build that fails after the
    branch query, on a failed [terraform plan], and on the red run of
    pytest, which exits 1 and whose envelope is that of the same output
    with exit code 0. *)
Lemma exit_code_policy_witness :
  let failure details :=
    {| success := false;
       message := "Command execution failed: RuntimeError";
       output_data := None;
       error_details := Some details |} in
  let build_line :=
    {| inv_cmd := Shell "mvn clean install"; inv_cwd := Some "."; inv_input := None |} in
  let build_failure :=
    failure ("Build failed with exit code 1" +:+ Str.newline
             +:+ "Error output:" +:+ Str.newline) in
  let docker_build :=
    {| inv_cmd := Argv ["docker"; "build"; "-t"; "app:latest"; "-f"; "Dockerfile"; "."];
       inv_cwd := None; inv_input := None |} in
  let docker_failure :=
    failure ("Docker build failed with exit code 1" +:+ Str.newline
             +:+ "Error output:" +:+ Str.newline) in
  let plan :=
    {| inv_cmd := Argv ["terraform"; "plan"; "-no-color"];
       inv_cwd := Some "infra"; inv_input := None |} in
  let plan_failure :=
    failure ("Terraform command failed with exit code 1" +:+ Str.newline
             +:+ "Command: terraform plan -no-color" +:+ Str.newline
             +:+ "Error:" +:+ Str.newline +:+ "Error: no configuration") in
  (run {| cmd_class := BuildCommand.class (scripted failed_build);
          parameters := maven_params |} []
   = (Returned build_failure, [build_line])
   /\ build_failure = failure_envelope (build_error build_line failed_build))
  /\ (run {| cmd_class := DockerCommand.class (scripted failed_build);
             parameters := branch_params |} []
      = (Returned docker_failure, [branch_query; docker_build])
      /\ docker_failure = failure_envelope (docker_error docker_build failed_build))
  /\ (run {| cmd_class := TerraformCommand.class (scripted failed_plan);
             parameters := plan_params |} []
      = (Returned plan_failure, [plan])
      /\ plan_failure = failure_envelope (terraform_error plan failed_plan))
  /\ run {| cmd_class := TestCommand.class (scripted red_pytest);
            parameters := pytest_params |} []
     = (Returned red_pytest_envelope, [pytest_invocation])
  /\ run {| cmd_class := TestCommand.class (scripted red_pytest);
            parameters := pytest_params |} []
     = run {| cmd_class := TestCommand.class (scripted green_pytest);
              parameters := pytest_params |} [].
Proof.
  intros failure build_line build_failure docker_build docker_failure plan
         plan_failure.
  split; [|split; [|split; [|split]]].
  - split; [reflexivity|].
    apply (proj1 (exit_code_policy (scripted failed_build)) maven_params
             [] build_failure [build_line] [] build_line [] failed_build
             eq_refl eq_refl I eq_refl).
    discriminate.
  - split; [reflexivity|].
    apply (proj1 (proj2 (exit_code_policy (scripted failed_build))) branch_params
             [] docker_failure [branch_query; docker_build] [branch_query]
             docker_build [] failed_build eq_refl eq_refl).
    + exists "build", ["-t"; "app:latest"; "-f"; "Dockerfile"; "."].
      split; [reflexivity | left; left; reflexivity].
    + reflexivity.
    + discriminate.
  - split; [reflexivity|].
    apply (proj1 (proj2 (proj2 (exit_code_policy (scripted failed_plan)))) plan_params
             [] plan_failure [plan] [] plan [] failed_plan eq_refl eq_refl).
    + exists "plan", ["-no-color"].
      split; [reflexivity | right; left; reflexivity].
    + reflexivity.
    + discriminate.
  - apply (proj1 (proj2 (proj2 (proj2 (exit_code_policy (scripted red_pytest)))))
             pytest_params [] (VStr "pytest") "."
             "pytest --cov --cov-report=term --cov-report=html" red_pytest);
      reflexivity.
  - apply (proj2 (proj2 (proj2 (proj2 (exit_code_policy (scripted red_pytest)))))).
    repeat split.
Defined.

End PolicyRuns.

(** ** The further properties on concrete runs *)

Section FurtherRuns.
Import Platform Fixtures.
#[local] Existing Instance decimal_floats.

(** X4 on a Maven test run with every flag set and a list of arguments:
    the command is [mvn test] followed by the repr of the list. *)
Lemma test_flags_follow_command_text_witness :
  TestCommand._prepare_test_command maven_flags []
  = (Returned (VStr "mvn test ['-q', 2]"), []).
Proof.
  rewrite (test_flags_follow_command_text maven_flags "mvn test" []);
    [reflexivity | | reflexivity | reflexivity | reflexivity | reflexivity].
  right. split; [reflexivity|]. exists "maven". split; [reflexivity | left; reflexivity].
Defined.

(** X5 on a Maven build asked to skip its tests, with a list of arguments:
    the command is [mvn clean install] followed by the repr of the list. *)
Lemma skip_tests_follows_command_text_witness :
  BuildCommand._prepare_build_command maven_skip []
  = (Returned (VStr "mvn clean install ['-q']"), []).
Proof.
  rewrite (skip_tests_follows_command_text maven_skip "mvn clean install" []);
    [reflexivity | | reflexivity | reflexivity].
  right. split; [reflexivity|]. exists "maven". split; [reflexivity | left; reflexivity].
Defined.

(** X6 on the branch [feature/My Fix!] with the default tags. *)
Lemma generated_tags_shape_witness :
  exists explicit derived,
    iterate (_get_parameter branch_params "tags" (VList [VStr "latest"])) []
    = (Returned explicit, [])
    /\ [VStr "latest"; VStr "branch-feature-My-Fix-"] = explicit ++ derived
    /\ (length derived <= 0 + 1 + 0)%nat
    /\ [branch_query] = [] ++ [] ++ [branch_query].
Proof.
  exact (generated_tags_shape (scripted on_branch) branch_params []
           [VStr "latest"; VStr "branch-feature-My-Fix-"] [branch_query] eq_refl).
Defined.

(** X9 on the output of a build. *)
Lemma extracted_image_id_is_short_hex_witness :
  DockerCommand._extract_image_id (stdout built) = Some "0123456789ab"
  /\ String.length "0123456789ab" = 12%nat
  /\ all_in Re.hex "0123456789ab"
  /\ Str.contains "sha256:0123456789ab" (stdout built) = true.
Proof.
  split; [reflexivity|].
  exact (proj1 (extracted_image_id_is_short_hex (stdout built)) "0123456789ab" eq_refl).
Defined.

(** X10 on the last line of a push. *)
Lemma extracted_digest_is_sha256_witness :
  let push_output := "latest: digest: sha256:" +:+ sixty_four +:+ " size: 1234" in
  DockerCommand._extract_digest push_output = Some ("sha256:" +:+ sixty_four)
  /\ exists h, "sha256:" +:+ sixty_four = "sha256:" +:+ h
               /\ String.length h = 64%nat
               /\ all_in Re.hex h
               /\ Str.contains ("digest: " +:+ ("sha256:" +:+ sixty_four)) push_output
                  = true.
Proof.
  intros push_output. split; [reflexivity|].
  exact (proj1 (extracted_digest_is_sha256 push_output) ("sha256:" +:+ sixty_four)
               eq_refl).
Defined.

(** X8 on credentials that the registry refuses. *)
Lemma login_reads_password_from_stdin_witness :
  DockerCommand._authenticate_registry (scripted denied) push_params []
  = (Raised (RuntimeError "Registry authentication failed: unauthorized"),
     [login_invocation]).
Proof.
  apply (proj2 (login_reads_password_from_stdin (scripted denied) push_params [])
               "ci" "s3cret" []);
    [reflexivity | discriminate | reflexivity | discriminate |].
  left. split; reflexivity.
Defined.

(** X11 where no program can be started. *)
Lemma image_size_query_needs_docker_witness :
  let missing :=
    Exn "FileNotFoundError" "[Errno 2] No such file or directory: 'git'" in
  DockerCommand._get_image_size no_tools (VStr "app") (VStr "latest") []
  = (Raised missing,
     [ {| inv_cmd := Argv ["docker"; "images"; "app:latest"; "--format"; "{{.Size}}"];
          inv_cwd := None;
          inv_input := None |} ])
  /\ DockerCommand._get_git_commit_sha no_tools [] = (Returned None, [commit_query]).
Proof.
  intros missing.
  destruct (proj2 (image_size_query_needs_docker no_tools "app" "latest" [])
                  "[Errno 2] No such file or directory: 'git'")
    as (Hsize & _ & Hcommit).
  split; [exact (Hsize eq_refl) | exact (Hcommit eq_refl)].
Defined.

(** X12 on a build asked with an empty list of tags. *)
Lemma build_without_tags_fails_after_building_witness :
  run {| cmd_class := DockerCommand.class (scripted built);
         parameters := untagged_params |} []
  = (Returned {| success := false;
                 message := "Command execution failed: IndexError";
                 output_data := None;
                 error_details := Some "list index out of range" |},
     [untagged_build]).
Proof.
  exact (proj1 (build_without_tags_fails_after_building
                  (scripted built) untagged_params [] [] [untagged_build]
                  (VStr "build") (VStr "app") (stdout built +:+ stderr built)
                  eq_refl eq_refl eq_refl eq_refl eq_refl)).
Defined.

(** X14 on a push whose login is refused. *)
Lemma failed_login_prevents_push_witness :
  run {| cmd_class := DockerCommand.class (scripted denied);
         parameters := push_params |} []
  = (Returned {| success := false;
                 message := "Command execution failed: RuntimeError";
                 output_data := None;
                 error_details := Some "Registry authentication failed: unauthorized" |},
     [login_invocation]).
Proof.
  apply (failed_login_prevents_push (scripted denied) push_params [] []
           (VStr "app") [VStr "latest"] "ci" "s3cret" denied);
    try reflexivity; discriminate.
Defined.

(** X15 on a destroy of three resources, and on an output without the
    completion line. *)
Lemma destroyed_count_from_first_line_witness :
  TerraformCommand._count_destroyed
    ("Destroying..." +:+ Str.newline +:+ destroy_line "3" +:+ ".")
  = Returned 3
  /\ TerraformCommand._count_destroyed "Error: no state" = Returned 0.
Proof.
  destruct destroyed_count_from_first_line as (Hfirst & _ & Hnone).
  split.
  - apply (Hfirst ("Destroying..." +:+ Str.newline) "3" ".").
    + split; [discriminate | reflexivity].
    + apply no_destroy_line_iff. reflexivity.
    + unfold int_max_str_digits. cbn [String.length]. lia.
  - apply (Hnone "Error: no state"). apply no_destroy_line_iff. reflexivity.
Defined.

(** X18 on the output of an init. *)
Lemma providers_stand_in_output_witness :
  TerraformCommand._parse_providers init_output = ["hashicorp/aws@5.31.0"]
  /\ exists name version,
      "hashicorp/aws@5.31.0" = name +:+ "@" +:+ version
      /\ name <> EmptyString /\ all_in Re.nonspace name
      /\ version <> EmptyString /\ all_in Re.digit_or_dot version
      /\ Str.contains ("- Installed " +:+ name +:+ " v" +:+ version) init_output = true.
Proof.
  split; [reflexivity|].
  apply (proj1 (providers_stand_in_output init_output) "hashicorp/aws@5.31.0").
  left. reflexivity.
Defined.

End FurtherRuns.
